(** * Liquidity assessment engine of Macro-LiquidityStress (src/app.py)

    A shallow embedding of the data pipeline of [app.py]:
    [fetch_data_with_ffill], [fetch_liquidity_data], [assess_liquidity_status],
    the data load and the risk-signal section of [main].  [apptest2.py] holds the same
    three functions, character for character; its copy of the risk-signal
    section breaks off in the middle of the statement that computes
    [rrp_change_7d], so that file does not parse and [app.py] is the one
    embedded here.

    Numbers.  The program computes on numpy float64 values.  They are modelled
    by [float]: an exact rational for a finite value, plus the three IEEE
    specials the code can produce ([nan] for a missing cell, [+inf]/[-inf]
    from a division by zero).  Rounding and the sign of zero are not
    modelled: every finite operation is exact.

    Frames.  A pandas DataFrame is a list of rows in index order; a row is a
    record with one field per column.  Dates are day numbers.  The pandas
    operations the code calls are modelled by what they are documented to
    do: the DataFrame of a dict of dated Series is their outer join on the
    sorted union of the indexes (with the undated [pd.Series()] among them the
    joined index is no date index, and its comparison with a date string
    raises), [ffill] carries the last value that is not missing
    down each column, [rolling(window, min_periods=1).mean()] is the mean of
    the values that are not missing among the last [window] rows.

    Effects.  An exception is [None] in [option], or [Raise] in [Result]
    where the caller catches it; the messages shown with [st.error] are
    collected by the writer monad [UI]. *)

From Stdlib Require Import ZArith QArith Qabs List Sorted String Bool Lia Lqa.
Import ListNotations.
Local Open Scope string_scope.
Local Open Scope list_scope.
Local Open Scope Z_scope.

(** ** float64 values *)

Inductive float : Type :=
| Fin (q : Q)
| PInf
| NInf
| NaN.

Declare Scope float_scope.
Delimit Scope float_scope with float.
Bind Scope float_scope with float.

Definition Qltb (x y : Q) : bool := negb (Qle_bool y x).

Definition isnan (a : float) : bool :=
  match a with NaN => true | _ => false end.

Definition notna (a : float) : bool := negb (isnan a).

(** [a - b] *)
Definition fsub (a b : float) : float :=
  match a, b with
  | NaN, _ | _, NaN => NaN
  | Fin x, Fin y => Fin (x - y)
  | PInf, PInf | NInf, NInf => NaN
  | PInf, _ | _, NInf => PInf
  | NInf, _ | _, PInf => NInf
  end.

(** [a + b] *)
Definition fadd (a b : float) : float :=
  match a, b with
  | NaN, _ | _, NaN => NaN
  | Fin x, Fin y => Fin (x + y)
  | PInf, NInf | NInf, PInf => NaN
  | PInf, _ | _, PInf => PInf
  | NInf, _ | _, NInf => NInf
  end.

(** The infinity whose sign is the sign of [x] times the sign of [y]
    ([nan] when the product is zero). *)
Definition inf_of_sign (x y : Q) : float :=
  if Qltb 0 (x * y) then PInf
  else if Qltb (x * y) 0 then NInf
  else NaN.

(** [a * b] *)
Definition fmul (a b : float) : float :=
  match a, b with
  | NaN, _ | _, NaN => NaN
  | Fin x, Fin y => Fin (x * y)
  | Fin x, PInf | PInf, Fin x => inf_of_sign x 1
  | Fin x, NInf | NInf, Fin x => inf_of_sign x (-1)
  | PInf, PInf | NInf, NInf => PInf
  | PInf, NInf | NInf, PInf => NInf
  end.

(** [a / b] on numpy scalars: a division by zero is not an exception, it
    yields an infinity of the sign of the numerator, or [nan] for [0/0]. *)
Definition fdiv (a b : float) : float :=
  match a, b with
  | NaN, _ | _, NaN => NaN
  | Fin x, Fin y => if Qeq_bool y 0 then inf_of_sign x 1 else Fin (x / y)
  | Fin _, _ => Fin 0
  | PInf, Fin y => if Qltb y 0 then NInf else PInf
  | NInf, Fin y => if Qltb y 0 then PInf else NInf
  | _, _ => NaN
  end.

(** [abs(a)] *)
Definition fabs (a : float) : float :=
  match a with
  | Fin x => Fin (Qabs x)
  | PInf | NInf => PInf
  | NaN => NaN
  end.

(** [a < b]: false as soon as one side is [nan]. *)
Definition flt (a b : float) : bool :=
  match a, b with
  | Fin x, Fin y => Qltb x y
  | Fin _, PInf | NInf, Fin _ | NInf, PInf => true
  | _, _ => false
  end.

(** [a > b] *)
Definition fgt (a b : float) : bool := flt b a.

(** [a != b]: true as soon as one side is [nan]. *)
Definition fne (a b : float) : bool :=
  match a, b with
  | Fin x, Fin y => negb (Qeq_bool x y)
  | PInf, PInf | NInf, NInf => false
  | _, _ => true
  end.

Infix "-" := fsub : float_scope.
Infix "+" := fadd : float_scope.
Infix "*" := fmul : float_scope.
Infix "/" := fdiv : float_scope.
Infix "<" := flt : float_scope.
Infix ">" := fgt : float_scope.
Infix "!=" := fne (at level 70) : float_scope.

(** Two floats denote the same number. *)
Definition feq (a b : float) : Prop :=
  match a, b with
  | Fin x, Fin y => (x == y)%Q
  | PInf, PInf | NInf, NInf | NaN, NaN => True
  | _, _ => False
  end.

(** [a <= b] as a proposition on numbers; [nan] is comparable to nothing. *)
Definition fle (a b : float) : Prop :=
  match a, b with
  | NaN, _ | _, NaN => False
  | Fin x, Fin y => (x <= y)%Q
  | NInf, _ | _, PInf => True
  | _, _ => False
  end.

(** An integer literal of the source, as a float. *)
Definition lit (n : Z) : float := Fin (inject_Z n).

(** ** Small helpers: option as the exception monad, dicts, negative indexing *)

Definition bind {A B : Type} (m : option A) (f : A -> option B) : option B :=
  match m with
  | Some a => f a
  | None => None
  end.

Notation "x <- m ;; k" := (bind m (fun x => k))
  (at level 61, m at next level, right associativity).

(** A Python dict with string keys, in insertion order. *)
Definition dict (V : Type) : Type := list (string * V).

(** [d[k]]; [None] stands for [KeyError]. *)
Fixpoint getitem {V : Type} (d : dict V) (k : string) : option V :=
  match d with
  | [] => None
  | (k', v) :: d' => if String.eqb k k' then Some v else getitem d' k
  end.

(** [d.values()] *)
Definition values {V : Type} (d : dict V) : list V := map snd d.

(** [l.iloc[-k]] for [k >= 1]: the [k]-th element counting from the end;
    [None] stands for [IndexError]. *)
Definition iloc_neg {A : Type} (l : list A) (k : nat) : option A :=
  if (Nat.leb 1 k && Nat.leb k (List.length l))%bool
  then nth_error l (List.length l - k)
  else None.

(** ** The aligned frame *)

(** The three rolling averages of one tracked column. *)
Record MA : Type := mkMA { MA7 : float; MA30 : float; MA60 : float }.

Record Row : Type := mkRow {
  date : Z;
  RP : float;
  RRP : float;
  Reserves : float;
  SOFR : float;
  IORB : float;
  Spread_bps : float;
  RP_MA : MA;
  RRP_MA : MA;
  Reserves_MA : MA;
  Spread_bps_MA : MA
}.

Definition DataFrame : Type := list Row.

(** ** Thresholds *)

Module WARNING_LEVELS.
Module RP.
Definition normal : float := lit 20.
Definition warning : float := lit 30.
Definition danger : float := lit 50.
End RP.
Module RRP.
Definition danger : float := lit 100.
Definition warning : float := lit 200.
Definition normal : float := lit 300.
End RRP.
Module Reserves.
Definition danger : float := lit 3000.
Definition warning : float := lit 3200.
End Reserves.
Module Spread.
Definition normal : float := lit 10.
Definition warning : float := lit 20.
Definition danger : float := lit 100.
End Spread.
End WARNING_LEVELS.

(** ** assess_liquidity_status *)

(** A message: a fixed string, or an f-string with one float formatted
    [:.1f] between a prefix and a suffix. *)
Inductive Text : Type :=
| Str (s : string)
| Fmt (prefix : string) (x : float) (suffix : string).

Record Status : Type := mkStatus {
  level : string;
  score : Z;
  message : Text
}.

Record Overall : Type := mkOverall {
  overall_status : string;
  overall_level : string;
  overall_message : string;
  recommendation : string;
  overall_score : Z;
  max_score : Z
}.

Record Assessment : Type := mkAssessment {
  assessments : dict Status;
  overall : Overall;
  latest_values : dict float;
  latest_date : Z
}.

Definition rp_status (rp_val : float) : Status :=
  if (rp_val > WARNING_LEVELS.RP.danger)%float then
    mkStatus "🔴 위험" 0 (Str "RP 급증 - 긴급 유동성 수요")
  else if (rp_val > WARNING_LEVELS.RP.warning)%float then
    mkStatus "🟠 경고" 1 (Str "RP 증가 - 단기 자금 수요 상승")
  else if (rp_val > WARNING_LEVELS.RP.normal)%float then
    mkStatus "🟡 주의" 2 (Str "RP 정상 상한 근접")
  else
    mkStatus "🟢 정상" 3 (Str "RP 안정적 수준").

Definition rrp_status (rrp_val : float) : Status :=
  if (rrp_val < WARNING_LEVELS.RRP.danger)%float then
    mkStatus "🔴 위험" 0 (Str "RRP 극저점 - 시장 현금 부족")
  else if (rrp_val < WARNING_LEVELS.RRP.warning)%float then
    mkStatus "🟠 경고" 1 (Str "RRP 저점 - 유동성 감소")
  else if (rrp_val < WARNING_LEVELS.RRP.normal)%float then
    mkStatus "🟡 주의" 2 (Str "RRP 정상 하한 근접")
  else
    mkStatus "🟢 정상" 3 (Str "RRP 충분한 수준").

(** [res_change_30d]: the reference is [df['Reserves'].iloc[-30]]; the
    division is not guarded. *)
Definition res_change_30d (df : DataFrame) (latest : Row) : option float :=
  if Nat.leb 30 (List.length df) then
    ref <- iloc_neg (map Reserves df) 30 ;;
    Some ((Reserves latest - ref) / ref * lit 100)%float
  else
    Some (lit 0).

Definition res_status (res_val change : float) : Status :=
  if (res_val < WARNING_LEVELS.Reserves.danger)%float then
    mkStatus "🔴 위험" 0 (Fmt "지준금 위험 수준 (30일 변화: " change "%)")
  else if (res_val < WARNING_LEVELS.Reserves.warning)%float then
    mkStatus "🟠 경고" 1 (Fmt "지준금 감소 추세 (30일 변화: " change "%)")
  else if (change < lit (-5))%float then
    mkStatus "🟡 주의" 2 (Fmt "지준금 급감 (30일 변화: " change "%)")
  else
    mkStatus "🟢 정상" 3 (Fmt "지준금 안정적 (30일 변화: " change "%)").

Definition spread_status (spread_val : float) : Status :=
  if (spread_val > WARNING_LEVELS.Spread.danger)%float then
    mkStatus "🔴 위험" 0 (Str "스프레드 극단 확대 - 유동성 위기")
  else if (spread_val > WARNING_LEVELS.Spread.warning)%float then
    mkStatus "🟠 경고" 1 (Str "스프레드 확대 - 자금 조달 압박")
  else if (spread_val > WARNING_LEVELS.Spread.normal)%float then
    mkStatus "🟡 주의" 2 (Str "스프레드 정상 상한 근접")
  else
    mkStatus "🟢 정상" 3 (Str "스프레드 안정적").

(** [sum(a['score'] for a in assessments.values())] *)
Definition total_score (assessments : dict Status) : Z :=
  fold_left Z.add (map score (values assessments)) 0.

Definition overall_of (total_score : Z) : Overall :=
  if 10 <=? total_score then
    mkOverall "🟢 양호" "NORMAL"
      "모든 유동성 지표가 정상 범위입니다."
      "정상적인 시장 모니터링 유지" total_score 12
  else if 7 <=? total_score then
    mkOverall "🟡 주의" "CAUTION"
      "일부 지표에서 경미한 이상 신호가 감지되었습니다."
      "시장 동향 면밀히 관찰" total_score 12
  else if 4 <=? total_score then
    mkOverall "🟠 경고" "WARNING"
      "유동성 스트레스 신호가 나타나고 있습니다."
      "포트폴리오 리스크 관리 강화 필요" total_score 12
  else
    mkOverall "🔴 위험" "DANGER"
      "심각한 유동성 긴장 상태입니다."
      "긴급 리스크 헤지 조치 권고" total_score 12.

(** [None] is the [IndexError] of [df.iloc[-1]] on an empty frame. *)
Definition assess_liquidity_status (df : DataFrame) : option Assessment :=
  latest <- iloc_neg df 1 ;;
  res_change <- res_change_30d df latest ;;
  let assessments :=
    [ ("RP", rp_status (RP latest));
      ("RRP", rrp_status (RRP latest));
      ("Reserves", res_status (Reserves latest) res_change);
      ("Spread", spread_status (Spread_bps latest)) ] in
  Some (mkAssessment
          assessments
          (overall_of (total_score assessments))
          [ ("RP", RP latest);
            ("RRP", RRP latest);
            ("Reserves", Reserves latest);
            ("Spread", Spread_bps latest);
            ("SOFR", SOFR latest);
            ("IORB", IORB latest) ]
          (date latest)).

(** ** The risk-signal section of main *)

Inductive Signal : Type :=
| IndicatorRisk (indicator : string) (message : Text)
| AbruptMove (name : string) (change : float).

(** What the section shows: [st.warning] per signal, or [st.success]. *)
Inductive Shown : Type :=
| warning (signal : Signal)
| success (text : string).

(** The loop over ['RP', 'RRP', 'Reserves', 'Spread']. *)
Fixpoint indicator_signals (assessment : Assessment) (indicators : list string)
    (risk_signals : list Signal) : option (list Signal) :=
  match indicators with
  | [] => Some risk_signals
  | indicator :: rest =>
      st <- getitem (assessments assessment) indicator ;;
      indicator_signals assessment rest
        (if score st <=? 1
         then risk_signals ++ [IndicatorRisk indicator (message st)]
         else risk_signals)
  end.

(** [((col.iloc[-1] - col.iloc[-7]) / col.iloc[-7]) * 100 if col.iloc[-7] != 0 else 0] *)
Definition change_7d (col : list float) : option float :=
  ref <- iloc_neg col 7 ;;
  if (ref != lit 0)%float then
    last <- iloc_neg col 1 ;;
    Some ((last - ref) / ref * lit 100)%float
  else
    Some (lit 0).

Definition abrupt_signals (df : DataFrame) (risk_signals : list Signal)
    : option (list Signal) :=
  if Nat.leb 7 (List.length df) then
    rp_change_7d <- change_7d (map RP df) ;;
    rrp_change_7d <- change_7d (map RRP df) ;;
    let risk_signals :=
      if (fabs rp_change_7d > lit 50)%float
      then risk_signals ++ [AbruptMove "RP" rp_change_7d]
      else risk_signals in
    let risk_signals :=
      if (fabs rrp_change_7d > lit 30)%float
      then risk_signals ++ [AbruptMove "RRP" rrp_change_7d]
      else risk_signals in
    Some risk_signals
  else
    Some risk_signals.

Definition risk_signals (df : DataFrame) (assessment : Assessment)
    : option (list Signal) :=
  risk_signals <- indicator_signals assessment ["RP"; "RRP"; "Reserves"; "Spread"] [] ;;
  abrupt_signals df risk_signals.

Definition show_signals (risk_signals : list Signal) : list Shown :=
  match risk_signals with
  | [] => [success "✅ 현재 심각한 위험 신호 없음"]
  | _ => map warning risk_signals
  end.

(** [main] from the assessment down to the risk-signal display. *)
Definition risk_section (df : DataFrame) : option (list Shown) :=
  assessment <- assess_liquidity_status df ;;
  risk_signals <- risk_signals df assessment ;;
  Some (show_signals risk_signals).

(** ** Series and the data provider *)

(** A pandas Series with a date index, in index order. *)
Definition Series : Type := list (Z * float).

(** What [fred.get_series(series_id, observation_start=start_date)] does. *)
Inductive Response : Type :=
| Raises (e : string)
| Returns (data : Series).

Definition Provider : Type := string -> Z -> Response.

(** Code that may call [st.error]: a value and the messages shown, in order. *)
Definition UI (A : Type) : Type := (A * list string)%type.

Definition ret {A : Type} (a : A) : UI A := (a, []).

Definition st_error (msg : string) : UI unit := (tt, [msg]).

Definition ui_bind {A B : Type} (m : UI A) (f : A -> UI B) : UI B :=
  let (a, log1) := m in
  let (b, log2) := f a in
  (b, log1 ++ log2).

Notation "x <~ m ;; k" := (ui_bind m (fun x => k))
  (at level 61, m at next level, right associativity).

(** [x] if it is not missing, else the value carried so far. *)
Definition fill (prev x : float) : float := if isnan x then prev else x.

Fixpoint ffill_from (prev : float) (col : list float) : list float :=
  match col with
  | [] => []
  | x :: rest => fill prev x :: ffill_from (fill prev x) rest
  end.

(** [col.ffill()] *)
Definition ffill (col : list float) : list float := ffill_from NaN col.

(** [data.ffill()] on a Series: same index, values filled. *)
Definition series_ffill (data : Series) : Series :=
  combine (map fst data) (ffill (map snd data)).

(** [name or series_id] *)
Definition name_or (name series_id : string) : string :=
  if String.eqb name "" then series_id else name.

Definition fetch_data_with_ffill (fred : Provider) (series_id : string)
    (start_date : Z) (name : string) : UI Series :=
  match fred series_id start_date with
  | Returns data =>
      if Nat.ltb 0 (List.length data)
      then ret (series_ffill data)
      else ret []
  | Raises e =>
      _ <~ st_error ("❌ " ++ name_or name series_id ++ " 수집 실패: " ++ e)%string ;;
      ret []
  end.

(** ** Alignment *)

Module Raw.
(** A row of the frame before the derived columns are added. *)
Record Row : Type := mk {
  date : Z;
  RP : float;
  RRP : float;
  Reserves : float;
  SOFR : float;
  IORB : float
}.
End Raw.

Fixpoint insert_date (d : Z) (index : list Z) : list Z :=
  match index with
  | [] => [d]
  | x :: rest =>
      if d <? x then d :: index
      else if d =? x then index
      else x :: insert_date d rest
  end.

(** The sorted union of the indexes of the series. *)
Definition union_indexes (all_data : list Series) : list Z :=
  fold_right insert_date [] (List.concat (map (map fst) all_data)).

(** The value of a series at a date of the joined index; missing is [nan]. *)
Fixpoint at_date (data : Series) (d : Z) : float :=
  match data with
  | [] => NaN
  | (d', v) :: rest => if d =? d' then v else at_date rest d
  end.

(** [pd.DataFrame(all_data)] for the five series. *)
Definition DataFrame_of (rp rrp reserves sofr iorb : Series) : list Raw.Row :=
  map (fun d => Raw.mk d (at_date rp d) (at_date rrp d) (at_date reserves d)
                       (at_date sofr d) (at_date iorb d))
      (union_indexes [rp; rrp; reserves; sofr; iorb]).

Definition fill_row (prev r : Raw.Row) : Raw.Row :=
  Raw.mk (Raw.date r)
         (fill (Raw.RP prev) (Raw.RP r))
         (fill (Raw.RRP prev) (Raw.RRP r))
         (fill (Raw.Reserves prev) (Raw.Reserves r))
         (fill (Raw.SOFR prev) (Raw.SOFR r))
         (fill (Raw.IORB prev) (Raw.IORB r)).

Fixpoint ffill_rows (prev : Raw.Row) (df : list Raw.Row) : list Raw.Row :=
  match df with
  | [] => []
  | r :: rest => fill_row prev r :: ffill_rows (fill_row prev r) rest
  end.

(** [df.ffill()] *)
Definition df_ffill (df : list Raw.Row) : list Raw.Row :=
  ffill_rows (Raw.mk 0 NaN NaN NaN NaN NaN) df.

(** [df[df.index >= start_date]] *)
Definition from_date (start_date : Z) (df : list Raw.Row) : list Raw.Row :=
  filter (fun r => start_date <=? Raw.date r) df.

(** ** Rolling statistics *)

(** The rows of the window of length [w] that ends at position [i]. *)
Definition window (w i : nat) (col : list float) : list float :=
  skipn (i + 1 - w) (firstn (i + 1) col).

Definition fsum (l : list float) : float := fold_left fadd l (lit 0).

(** The mean of the observations of a window that are not missing; [nan]
    when there are fewer than [min_periods = 1] of them.  The sum and the
    quotient are exact here: binary64 rounds both, so the value pandas gives
    can differ from this one in its last places. *)
Definition mean (win : list float) : float :=
  let obs := filter notna win in
  if Nat.leb 1 (List.length obs)
  then (fsum obs / lit (Z.of_nat (List.length obs)))%float
  else NaN.

(** [col.rolling(window=w, min_periods=1).mean()] *)
Definition rolling_mean (w : nat) (col : list float) : list float :=
  map (fun i => mean (window w i col)) (seq 0 (List.length col)).

Definition MA_at (col : list float) (i : nat) : MA :=
  mkMA (nth i (rolling_mean 7 col) NaN)
       (nth i (rolling_mean 30 col) NaN)
       (nth i (rolling_mean 60 col) NaN).

(** The derived spread of a row. *)
Definition spread_of (r : Raw.Row) : float :=
  ((Raw.SOFR r - Raw.IORB r) * lit 100)%float.

(** The [Spread_bps] column and the twelve rolling-average columns. *)
Definition add_derived (df : list Raw.Row) : DataFrame :=
  map (fun ir : nat * Raw.Row =>
         let (i, r) := ir in
         mkRow (Raw.date r) (Raw.RP r) (Raw.RRP r) (Raw.Reserves r)
               (Raw.SOFR r) (Raw.IORB r) (spread_of r)
               (MA_at (map Raw.RP df) i)
               (MA_at (map Raw.RRP df) i)
               (MA_at (map Raw.Reserves df) i)
               (MA_at (map spread_of df) i))
      (combine (seq 0 (List.length df)) df).

(** ** fetch_liquidity_data *)

Definition align (start_date : Z) (rp rrp reserves sofr iorb : Series)
    : list Raw.Row :=
  from_date start_date (df_ffill (DataFrame_of rp rrp reserves sofr iorb)).

(** An exception that leaves a function. *)
Inductive Exn : Type :=
| TypeError.

(** What a function that may raise gives. *)
Inductive Result (A : Type) : Type :=
| Value (a : A)
| Raise (e : Exn).

Arguments Value {A} a.
Arguments Raise {A} e.

(** [fetch_data_with_ffill] returns a series without rows only as
    [pd.Series()], for a failed fetch or a fetch without observations; that
    series has no date index. *)
Definition undated (data : Series) : bool :=
  match data with
  | [] => true
  | _ :: _ => false
  end.

(** The index of [pd.DataFrame(all_data)] is the union of the five indexes.
    With five dated series it is the sorted union of their dates.  With the
    index of [pd.Series()] among them the union is no [DatetimeIndex] (its
    dtype is object, or integer when all five are empty), and its comparison
    with the string [start_date] in [df[df.index >= start_date]] raises
    [TypeError]. *)
Definition fetch_liquidity_data (fred : Provider) (start_date : Z)
    : UI (Result DataFrame) :=
  rp_data <~ fetch_data_with_ffill fred "RPONTSYD" start_date "RP (Repo)" ;;
  rrp_data <~ fetch_data_with_ffill fred "RRPONTSYD" start_date "RRP (Reverse Repo)" ;;
  reserves_data <~ fetch_data_with_ffill fred "WRESBAL" start_date "은행 지준금" ;;
  sofr_data <~ fetch_data_with_ffill fred "SOFR" start_date "SOFR" ;;
  iorb_data <~ fetch_data_with_ffill fred "IORB" start_date "IORB" ;;
  if existsb undated [rp_data; rrp_data; reserves_data; sofr_data; iorb_data] then
    ret (Raise TypeError)
  else
    ret (Value (add_derived
                  (align start_date rp_data rrp_data reserves_data sofr_data
                         iorb_data))).

(** ** The data load of main *)

(** How [main] goes on after its data load: it shows
    [f"❌ 데이터 로드 실패: {str(e)}"] for the exception [e] of
    [fetch_liquidity_data] and returns, it shows the error of the empty
    frame and returns, or it assesses the frame ([None] when
    [assess_liquidity_status] raises). *)
Inductive Load : Type :=
| LoadFailed (e : Exn)
| NoData
| Assessed (df : DataFrame) (assessment : option Assessment).

(** The messages collected are the warnings of the fetches and the error of
    the empty frame; the message of the load failure, whose text ends with
    the [str(e)] of pandas, is carried by the outcome [LoadFailed e]. *)
Definition main_load (fred : Provider) (start_date : Z) : UI Load :=
  loaded <~ fetch_liquidity_data fred start_date ;;
  match loaded with
  | Raise e => ret (LoadFailed e)
  | Value df =>
      match df with
      | [] =>
          _ <~ st_error "❌ 데이터를 불러올 수 없습니다." ;;
          ret NoData
      | _ :: _ => ret (Assessed df (assess_liquidity_status df))
      end
  end.

(** ** Columns and rows by name *)

(** The columns of the frame [fetch_liquidity_data] returns, in order. *)
Definition columns : dict (Row -> float) :=
  [ ("RP", RP); ("RRP", RRP); ("Reserves", Reserves);
    ("SOFR", SOFR); ("IORB", IORB); ("Spread_bps", Spread_bps);
    ("RP_MA7", fun r => MA7 (RP_MA r));
    ("RP_MA30", fun r => MA30 (RP_MA r));
    ("RP_MA60", fun r => MA60 (RP_MA r));
    ("RRP_MA7", fun r => MA7 (RRP_MA r));
    ("RRP_MA30", fun r => MA30 (RRP_MA r));
    ("RRP_MA60", fun r => MA60 (RRP_MA r));
    ("Reserves_MA7", fun r => MA7 (Reserves_MA r));
    ("Reserves_MA30", fun r => MA30 (Reserves_MA r));
    ("Reserves_MA60", fun r => MA60 (Reserves_MA r));
    ("Spread_bps_MA7", fun r => MA7 (Spread_bps_MA r));
    ("Spread_bps_MA30", fun r => MA30 (Spread_bps_MA r));
    ("Spread_bps_MA60", fun r => MA60 (Spread_bps_MA r)) ].

(** [df[col]]; [None] stands for [KeyError]. *)
Definition getcol (df : DataFrame) (col : string) : option (list float) :=
  f <- getitem columns col ;;
  Some (map f df).

(** [row[col]] for a row of the frame. *)
Definition getval (row : Row) (col : string) : option float :=
  f <- getitem columns col ;;
  Some (f row).

(** [d[k] = v]: the value of an existing key is replaced in place, a new
    key goes to the end. *)
Fixpoint setitem {V : Type} (d : dict V) (k : string) (v : V) : dict V :=
  match d with
  | [] => [(k, v)]
  | (k', v') :: d' =>
      if String.eqb k k' then (k, v) :: d' else (k', v') :: setitem d' k v
  end.

(** [d.get(k, default)] *)
Definition get_default {V : Type} (d : dict V) (k : string) (default : V) : V :=
  match getitem d k with
  | Some v => v
  | None => default
  end.

(** [df.tail(n)] *)
Definition tail {A : Type} (n : nat) (df : list A) : list A :=
  skipn (List.length df - n) df.

(** [l[-n:]] on a Python list *)
Definition last_n {A : Type} (n : nat) (l : list A) : list A :=
  skipn (List.length l - n) l.

(** [col.iloc[0]]; [None] stands for [IndexError]. *)
Definition iloc_0 {A : Type} (col : list A) : option A := nth_error col 0.

(** ** The 30-row changes of the AI context and prompts *)

(** [df.tail(30) if len(df) >= 30 else df] *)
Definition last_30d (df : DataFrame) : DataFrame :=
  if Nat.leb 30 (List.length df) then tail 30 df else df.

(** The body of the loop over the four columns in
    [generate_liquidity_context] and [generate_gemini_analysis]. *)
Definition change_of (last_30d : DataFrame) (latest : Row) (col : string)
    : option float :=
  if Nat.leb 2 (List.length last_30d) then
    column <- getcol last_30d col ;;
    first <- iloc_0 column ;;
    if (first != lit 0)%float then
      latest_col <- getval latest col ;;
      Some ((latest_col - first) / first * lit 100)%float
    else
      Some (lit 0)
  else
    Some (lit 0).

Fixpoint changes_loop (last_30d : DataFrame) (latest : Row) (cols : list string)
    (changes : dict float) : option (dict float) :=
  match cols with
  | [] => Some changes
  | col :: rest =>
      change <- change_of last_30d latest col ;;
      changes_loop last_30d latest rest (setitem changes col change)
  end.

(** The [changes] dict both functions build from the frame. *)
Definition changes_30d (df : DataFrame) : option (dict float) :=
  latest <- iloc_neg df 1 ;;
  changes_loop (last_30d df) latest ["RP"; "RRP"; "Reserves"; "Spread_bps"] [].

(** ** The session and the login form *)

(** A chat message: [{"role": ..., "content": ...}]. *)
Record Msg : Type := mkMsg { role : string; content : string }.

(** The keys of [st.session_state] the program uses; [None] is an absent
    key, and an absent ['password_correct'] reads as [False]. *)
Record SessionState : Type := mkSession {
  password_correct : bool;
  liquidity_context : option string;
  advanced_chat_messages : option (list Msg)
}.

(** What reading [st.secrets] gives at the login: an exception, or the
    secrets with their ["passwords"] section when there is one. *)
Inductive SecretsAccess : Type :=
| SecretsError (e : string)
| Secrets (passwords : option (dict string)).

(** The widgets of the form ["credentials"]. *)
Record Form : Type := mkForm {
  username : string;
  password : string;
  submit_btn : bool
}.

(** How a function of the script ends: it returns, or it calls [st.rerun()],
    whose exception is not an [Exception] and so passes through
    [except Exception]. *)
Inductive Control (A : Type) : Type :=
| Returned (a : A)
| Rerun.

Arguments Returned {A} a.
Arguments Rerun {A}.

(** [check_password]: the session after the call, the messages shown with
    [st.error], and how the call ends. *)
Definition check_password (session : SessionState) (secrets : SecretsAccess)
    (form : Form) : SessionState * list string * Control bool :=
  if password_correct session then
    (session, [], Returned true)
  else if submit_btn form then
    match secrets with
    | Secrets (Some passwords) =>
        match getitem passwords (username form) with
        | Some stored =>
            if String.eqb (password form) stored then
              (mkSession true (liquidity_context session)
                         (advanced_chat_messages session),
               [], Rerun)
            else
              (session, ["😕 비밀번호가 올바르지 않습니다."], Returned false)
        | None =>
            (session, ["😕 존재하지 않는 아이디입니다."], Returned false)
        end
    | Secrets None =>
        (session, ["😕 존재하지 않는 아이디입니다."], Returned false)
    | SecretsError e =>
        (session, [("로그인 오류: " ++ e)%string], Returned false)
    end
  else
    (session, [], Returned false).

(** Where a run of the script stands after [if not check_password():
    st.stop()]. *)
Inductive Access : Type :=
| Granted
| Stopped
| Rerunning.

Definition login_gate (session : SessionState) (secrets : SecretsAccess)
    (form : Form) : SessionState * list string * Access :=
  match check_password session secrets form with
  | (session', errors, Returned true) => (session', errors, Granted)
  | (session', errors, Returned false) => (session', errors, Stopped)
  | (session', errors, Rerun) => (session', errors, Rerunning)
  end.

(** ** The AI services and the chat *)

(** What a call to an AI service gives: an exception or the text. *)
Inductive Reply : Type :=
| Fails (e : string)
| Says (text : string).

(** [genai.GenerativeModel(model).generate_content(prompt).text] *)
Definition Gemini : Type := string -> string -> Reply.

(** [OPENAI_CLIENT.chat.completions.create(model=model, messages=messages,
    temperature=0.3).choices[0].message.content] *)
Definition OpenAI : Type := string -> list Msg -> Reply.

(** The module-level settings the functions read. *)
Record Config : Type := mkConfig {
  GEMINI_AVAILABLE : bool;
  OPENAI_ENABLED : bool;
  OPENAI_MODEL_CHAT : string
}.

Definition GEMINI_MODEL_CHAT : string := "gemini-2.5-flash".

(** The line feed of the Python strings. *)
Definition LF : string := String (Ascii.ascii_of_nat 10) EmptyString.

(** The f-string [system_instruction], before and after [{context}]. *)
Definition system_instruction_before : string :=
  "
        당신은 연준 유동성 정책, 매크로 경제, 시장 리스크 관리 전문가입니다.
        
        [현재 실시간 유동성 분석 데이터]
        ".

Definition system_instruction_after : string :=
  "
        
        [지시사항]
        1. 위 [유동성 분석 데이터]의 수치(RP, RRP, 지준금, 스프레드)를 근거로 답변하세요.
        2. 유동성 긴축/완화가 주식, 채권, 금, 암호화폐 등 자산군에 미치는 영향을 설명하세요.
        3. 2008 금융위기, 2020 코로나 위기 등 과거 유사 패턴과 비교하여 인사이트를 제공하세요.
        4. 감정적 희망보다는 통계와 역사적 패턴에 기반한 객관적 뷰를 제시하세요.
        5. 한국어로 간결하고 명확하게 답변하세요.
        ".

Definition system_instruction (context : string) : string :=
  (system_instruction_before ++ context ++ system_instruction_after)%string.

(** ["User" if msg['role'] == 'user' else "AI"] *)
Definition role_label (msg : Msg) : string :=
  if String.eqb (role msg) "user" then "User" else "AI".

(** The loop over [chat_history[-10:]] that extends [full_prompt]. *)
Definition history_lines (full_prompt : string) (history : list Msg) : string :=
  fold_left
    (fun full_prompt msg =>
       (full_prompt ++ role_label msg ++ ": " ++ content msg ++ LF)%string)
    history full_prompt.

Definition query_advanced_chat (config : Config) (gemini : Gemini) (openai : OpenAI)
    (prompt context model_choice : string) (chat_history : list Msg) : string :=
  let system_instruction := system_instruction context in
  if String.eqb model_choice "Gemini" then
    if negb (GEMINI_AVAILABLE config) then
      "⚠️ Gemini API 설정이 필요합니다."
    else
      let full_prompt :=
        (system_instruction ++ LF ++ LF ++ "[이전 대화 내역]" ++ LF)%string in
      let full_prompt := history_lines full_prompt (last_n 10 chat_history) in
      let full_prompt :=
        (full_prompt ++ LF ++ "[User 질문]: " ++ prompt ++ LF ++ "[AI 답변]:")%string in
      match gemini GEMINI_MODEL_CHAT full_prompt with
      | Says text => text
      | Fails e => ("⚠️ Gemini 오류: " ++ e)%string
      end
  else
    if negb (OPENAI_ENABLED config) then
      "⚠️ OpenAI API 설정이 필요합니다."
    else
      let messages :=
        [mkMsg "system" system_instruction]
          ++ last_n 6 chat_history
          ++ [mkMsg "user" prompt] in
      match openai (OPENAI_MODEL_CHAT config) messages with
      | Says text => text
      | Fails e => ("⚠️ OpenAI 오류: " ++ e)%string
      end.

(** ** The chat tab of main *)

Definition quick_questions : list string :=
  [ "💰 현재 유동성 상태는 위험한가요?";
    "📊 RRP 급감이 주식시장에 미치는 영향은?";
    "🔴 지준금 감소 시 어떤 자산이 유리한가요?";
    "⚠️ 스프레드 확대는 무엇을 의미하나요?";
    "💡 지금 추천하는 리스크 관리 전략은?" ].

(** The widgets of the tab in one run of the script: the option selected in
    the radio, the clear button, the quick-question buttons by index, and
    what [st.chat_input] returns. *)
Record ChatInput : Type := mkChatInput {
  radio : nat;
  clear_btn : bool;
  quick_btn : nat -> bool;
  user_input : option string
}.

(** The truth value of an optional string in [if x:]. *)
Definition truthy (x : option string) : bool :=
  match x with
  | Some s => negb (String.eqb s "")
  | None => false
  end.

Definition available_models (config : Config) : list string :=
  let available_models := [] in
  let available_models :=
    if OPENAI_ENABLED config then available_models ++ ["OpenAI"]
    else available_models in
  let available_models :=
    if GEMINI_AVAILABLE config then available_models ++ ["Gemini"]
    else available_models in
  available_models.

(** [st.radio(label, options, index=0)]: one of the options. *)
Definition st_radio (options : list string) (selected : nat) : option string :=
  match nth_error options selected with
  | Some option => Some option
  | None => hd_error options
  end.

(** The loop over [enumerate(quick_questions)]. *)
Definition triggered (quick_btn : nat -> bool) : option string :=
  fold_left
    (fun triggered_prompt iq =>
       if quick_btn (fst iq) then Some (snd iq) else triggered_prompt)
    (combine (seq 0 (List.length quick_questions)) quick_questions)
    None.

(** [session_state.advanced_chat_messages = messages] *)
Definition set_messages (session : SessionState) (messages : list Msg)
    : SessionState :=
  mkSession (password_correct session) (liquidity_context session) (Some messages).

(** The tab: the session after it, the messages shown with [st.error], and
    whether it returns or asks for a rerun. *)
Definition chat_tab (config : Config) (gemini : Gemini) (openai : OpenAI)
    (session : SessionState) (input : ChatInput)
    : SessionState * list string * Control unit :=
  let available_models := available_models config in
  let (model_choice, errors) :=
    match available_models with
    | [] => (None, ["API 키가 없습니다."])
    | _ => (st_radio available_models (radio input), [])
    end in
  if clear_btn input then
    (set_messages session [], errors, Rerun)
  else
    let messages :=
      match advanced_chat_messages session with
      | Some messages => messages
      | None => []
      end in
    let session := set_messages session messages in
    let triggered_prompt := triggered (quick_btn input) in
    let final_prompt :=
      if truthy triggered_prompt then triggered_prompt else user_input input in
    match final_prompt with
    | Some prompt =>
        if truthy final_prompt then
          if truthy model_choice then
            let model := match model_choice with Some m => m | None => "" end in
            let messages := messages ++ [mkMsg "user" prompt] in
            let context := match liquidity_context session with
                           | Some context => context
                           | None => ""
                           end in
            let response :=
              query_advanced_chat config gemini openai prompt context model
                                  messages in
            let messages := messages ++ [mkMsg "assistant" response] in
            (set_messages session messages, errors, Returned tt)
          else
            (session, errors ++ ["AI 모델을 선택해주세요."], Returned tt)
        else
          (session, errors, Returned tt)
    | None => (session, errors, Returned tt)
    end.

(** ** A run of the chat tab under the Streamlit runner *)

(** Where a run of the tab ends.  When a widget is touched while the script
    runs, the Streamlit runner ends the run inside the next call of [st.*]
    and starts a new one; the statements between two such calls are not
    interrupted, and [query_advanced_chat] makes no such call. *)
Inductive RunEnd : Type :=
| Completed
| StoppedInPanel
| StoppedInHistory
| StoppedInAnswer.

(** The session a run leaves.  [StoppedInPanel] is a stop in a call of the
    control panel, before the clear button takes effect and before the
    history is initialised; [StoppedInHistory] a stop in a call between the
    initialisation of the history and the [append] of the question;
    [StoppedInAnswer] a stop in a call between the [append] of the question
    and the [append] of the answer ([st.chat_message], [st.spinner],
    [st.markdown]).  A run that does not reach the calls of a stop ends as
    it does without it. *)
Definition chat_tab_run (stop : RunEnd) (config : Config) (gemini : Gemini)
    (openai : OpenAI) (session : SessionState) (input : ChatInput)
    : SessionState :=
  let completed := fst (fst (chat_tab config gemini openai session input)) in
  let messages :=
    match advanced_chat_messages session with
    | Some messages => messages
    | None => []
    end in
  match stop with
  | Completed => completed
  | StoppedInPanel => session
  | StoppedInHistory =>
      if clear_btn input then completed else set_messages session messages
  | StoppedInAnswer =>
      if clear_btn input then completed
      else
        let model_choice :=
          match available_models config with
          | [] => None
          | _ => st_radio (available_models config) (radio input)
          end in
        let triggered_prompt := triggered (quick_btn input) in
        let final_prompt :=
          if truthy triggered_prompt then triggered_prompt else user_input input in
        match final_prompt with
        | Some prompt =>
            if (truthy final_prompt && truthy model_choice)%bool then
              set_messages session (messages ++ [mkMsg "user" prompt])
            else completed
        | None => completed
        end
  end.

(** ** Errors of the Gemini service *)

(** [str.lower] on the letters A to Z; the other characters it changes are
    outside ASCII and play no part in the search for an ASCII word. *)
Definition lower_char (c : Ascii.ascii) : Ascii.ascii :=
  let n := Ascii.nat_of_ascii c in
  if (Nat.leb 65 n && Nat.leb n 90)%bool then Ascii.ascii_of_nat (n + 32) else c.

Fixpoint lower (s : string) : string :=
  match s with
  | EmptyString => EmptyString
  | String c rest => String (lower_char c) (lower rest)
  end.

(** [needle in hay] *)
Fixpoint contains (needle hay : string) : bool :=
  (String.prefix needle hay
   || match hay with
      | EmptyString => false
      | String _ rest => contains needle rest
      end)%bool.

(** ["quota" in error_msg.lower() or "429" in error_msg] *)
Definition quota_error (error_msg : string) : bool :=
  (contains "quota" (lower error_msg) || contains "429" error_msg)%bool.

(** ** generate_gemini_single_indicator *)

(** The values the prompt of one indicator is written from; the text of the
    template around them is fixed. *)
Record IndicatorPrompt : Type := mkIndicatorPrompt {
  p_display_name : string;
  p_unit : string;
  p_latest : float;
  p_change_7d : float;
  p_change_30d : float;
  p_ma7 : float;
  p_ma30 : float;
  p_ma60 : float;
  p_status_info : Status;
  p_overall : Overall;
  p_depth : string
}.

(** [genai.GenerativeModel('gemini-2.0-flash-exp').generate_content(prompt,
    generation_config={'max_output_tokens': n, 'temperature': 0.7}).text] *)
Definition IndicatorService : Type := IndicatorPrompt -> nat -> Reply.

(** The function up to its prompt; [None] stands for the [KeyError] or
    [IndexError] that leaves the function. *)
Definition single_indicator_prompt (df : DataFrame) (assessment : Assessment)
    (indicator depth : string) : option IndicatorPrompt :=
  let '(col, display_name, unit, key_for_assessment) :=
    if String.eqb indicator "Spread" then
      ("Spread_bps", "SOFR - IORB 스프레드", "bps", "Spread")
    else
      (indicator,
       get_default [ ("RP", "RP (Repo)");
                     ("RRP", "RRP (Reverse Repo)");
                     ("Reserves", "은행 지준금") ] indicator indicator,
       "B", indicator) in
  latest <- iloc_neg df 1 ;;
  let last_30d := last_30d df in
  change_7d <-
    (if Nat.leb 7 (List.length df) then
       column <- getcol df col ;;
       ref <- iloc_neg column 7 ;;
       if (ref != lit 0)%float then
         last <- iloc_neg column 1 ;;
         Some ((last - ref) / ref * lit 100)%float
       else Some (lit 0)
     else Some (lit 0)) ;;
  change_30d <-
    (if Nat.leb 2 (List.length last_30d) then
       column <- getcol last_30d col ;;
       first <- iloc_0 column ;;
       if (first != lit 0)%float then
         last <- iloc_neg column 1 ;;
         Some ((last - first) / first * lit 100)%float
       else Some (lit 0)
     else Some (lit 0)) ;;
  ma7_col <- getcol df (col ++ "_MA7")%string ;;
  ma7 <- iloc_neg ma7_col 1 ;;
  ma30_col <- getcol df (col ++ "_MA30")%string ;;
  ma30 <- iloc_neg ma30_col 1 ;;
  ma60_col <- getcol df (col ++ "_MA60")%string ;;
  ma60 <- iloc_neg ma60_col 1 ;;
  status_info <- getitem (assessments assessment) key_for_assessment ;;
  latest_col <- getval latest col ;;
  Some (mkIndicatorPrompt display_name unit latest_col change_7d change_30d
                          ma7 ma30 ma60 status_info (overall assessment) depth).

Definition generate_gemini_single_indicator (config : Config)
    (service : IndicatorService) (df : DataFrame) (assessment : Assessment)
    (indicator depth : string) : option string :=
  if negb (GEMINI_AVAILABLE config) then
    Some "
### ⚠️ Gemini AI 분석을 사용할 수 없습니다

Gemini API 키가 설정되지 않았습니다.
"
  else
    prompt <- single_indicator_prompt df assessment indicator depth ;;
    match service prompt (if String.eqb depth "딥다이브" then 2048 else 1024)%nat with
    | Says text => Some text
    | Fails error_msg =>
        if quota_error error_msg then
          Some "⚠️ API 할당량 초과. 잠시 후 다시 시도하세요."
        else
          Some ("⚠️ AI 개별 지표 분석 생성 중 오류 발생: " ++ error_msg)%string
    end.

(** ** generate_gemini_analysis *)

(** The double quote of the Python strings. *)
Definition DQ : string := String (Ascii.ascii_of_nat 34) EmptyString.

(** The values the prompt of the comprehensive analysis is written from. *)
Record AnalysisPrompt : Type := mkAnalysisPrompt {
  a_latest : Row;
  a_changes : dict float;
  a_assessment : Assessment
}.

(** [genai.GenerativeModel('gemini-2.0-flash-exp').generate_content(prompt,
    generation_config={'max_output_tokens': 2048, 'temperature': 0.7}).text] *)
Definition AnalysisService : Type := AnalysisPrompt -> Reply.

(** The text returned when the quota of the service is exhausted, as a
    function of the six values its f-string prints. *)
Definition quota_summary (status rp rrp reserves spread recommendation : string)
    : string :=
  ("
### ⚠️ Gemini API 할당량 초과

현재 Gemini API의 무료 tier 할당량을 초과했습니다.

**해결 방법:**
1. **잠시 대기**: 10-60분 후 다시 시도
2. **할당량 확인**: [사용량 확인](https://ai.dev/usage?tab=rate-limit)

**현재 상태 요약 (수동 분석):**
- 종합 평가: " ++ status ++ "
- RP: " ++ rp ++ "
- RRP: " ++ rrp ++ "
- 지준금: " ++ reserves ++ "
- 스프레드: " ++ spread ++ "

**권고사항**: " ++ recommendation ++ "
")%string.

Definition generate_gemini_analysis (config : Config) (service : AnalysisService)
    (df : DataFrame) (assessment : Assessment) : option string :=
  if negb (GEMINI_AVAILABLE config) then
    Some ("
### ⚠️ Gemini AI 분석을 사용할 수 없습니다

Gemini API 키가 설정되지 않았습니다. 

**Gemini API 키 설정 방법:**
1. [Google AI Studio](https://makersuite.google.com/app/apikey)에서 API 키 발급
2. Streamlit Cloud의 App settings → Secrets에 추가:
```toml
   GEMINI_API_KEY = " ++ DQ ++ "your_key_here" ++ DQ ++ "
```
3. 앱 재시작
")%string
  else
    latest <- iloc_neg df 1 ;;
    changes <- changes_loop (last_30d df) latest
                            ["RP"; "RRP"; "Reserves"; "Spread_bps"] [] ;;
    rp <- getitem (assessments assessment) "RP" ;;
    rrp <- getitem (assessments assessment) "RRP" ;;
    res <- getitem (assessments assessment) "Reserves" ;;
    spread <- getitem (assessments assessment) "Spread" ;;
    match service (mkAnalysisPrompt latest changes assessment) with
    | Says text => Some text
    | Fails error_msg =>
        if quota_error error_msg then
          Some (quota_summary (overall_status (overall assessment))
                              (level rp) (level rrp) (level res) (level spread)
                              (recommendation (overall assessment)))
        else
          Some ("⚠️ AI 분석 생성 중 오류 발생: " ++ error_msg)%string
    end.

(** ** The banner of the overall assessment in main *)

Definition status_color : dict string :=
  [ ("🟢 양호", "green"); ("🟡 주의", "orange");
    ("🟠 경고", "orange"); ("🔴 위험", "red") ].

(** [status_color.get(assessment['overall']['status'], 'gray')] *)
Definition banner_color (assessment : Assessment) : string :=
  get_default status_color (overall_status (overall assessment)) "gray".

(** * Specification-side definitions and sample data *)

(** ** The severity tiers, as the specification names them *)

Inductive Tier : Type := Danger | Warning | Caution | Normal.

Definition tier_level (t : Tier) : string :=
  match t with
  | Danger => "🔴 위험"
  | Warning => "🟠 경고"
  | Caution => "🟡 주의"
  | Normal => "🟢 정상"
  end.

Definition tier_score (t : Tier) : Z :=
  match t with
  | Danger => 0
  | Warning => 1
  | Caution => 2
  | Normal => 3
  end.

(** A status carries the level and the ordinal score of a tier. *)
Definition classified (st : Status) (t : Tier) : Prop :=
  level st = tier_level t /\ score st = tier_score t.

(** An ordered band table: the first band whose condition holds wins. *)
Fixpoint first_match (bands : list (bool * Tier)) (otherwise : Tier) : Tier :=
  match bands with
  | [] => otherwise
  | (condition, t) :: rest => if condition then t else first_match rest otherwise
  end.

Ltac by_bands :=
  unfold classified, first_match;
  repeat match goal with
         | |- context [if ?c then _ else _] => destruct c
         end;
  split; reflexivity.

(** ** Sample frames *)

Definition no_MA : MA := mkMA NaN NaN NaN.

(** A row given by its four tracked values. *)
Definition sample_row (rp rrp reserves spread : Z) : Row :=
  mkRow 0 (lit rp) (lit rrp) (lit reserves) NaN NaN (lit spread)
        no_MA no_MA no_MA no_MA.

(** Thirty rows: reserves 3800 in the row read by [iloc[-30]], 3500 in the
    latest row. *)
Definition falling_reserves : DataFrame :=
  sample_row 5 350 3800 5 :: repeat (sample_row 5 350 3700 5) 28
    ++ [sample_row 5 350 3500 5].

(** The spec's sample row: primary volume 55, reverse volume 350, reserves
    3100, spread 5. *)
Definition mixed_frame : DataFrame := [sample_row 55 350 3100 5].

(** Thirty rows whose reserve balance is 0 in the row read by [iloc[-30]]
    and 3500 in the latest row. *)
Definition zero_reference : DataFrame :=
  sample_row 5 350 0 5 :: repeat (sample_row 5 350 3400 5) 28
    ++ [sample_row 5 350 3500 5].

(** The change as the claim words it: the reference value lies 30 rows
    before the latest row. *)
Definition change_on_30_rows_before (df : DataFrame) (latest : Row) : option float :=
  ref <- nth_error (rev (map Reserves df)) 30 ;;
  Some ((Reserves latest - ref) / ref * lit 100)%float.

(** Thirty-one rows: 3800 thirty rows before the latest row, 3500 from the
    next row on. *)
Definition early_drop : DataFrame :=
  sample_row 5 350 3800 5 :: repeat (sample_row 5 350 3500 5) 30.

(** ** Frames that differ in one value of the latest row *)

(** The row [r] with one of its values replaced. *)
Definition with_RP (r : Row) (v : float) : Row :=
  mkRow (date r) v (RRP r) (Reserves r) (SOFR r) (IORB r) (Spread_bps r)
        (RP_MA r) (RRP_MA r) (Reserves_MA r) (Spread_bps_MA r).

Definition with_RRP (r : Row) (v : float) : Row :=
  mkRow (date r) (RP r) v (Reserves r) (SOFR r) (IORB r) (Spread_bps r)
        (RP_MA r) (RRP_MA r) (Reserves_MA r) (Spread_bps_MA r).

Definition with_Reserves (r : Row) (v : float) : Row :=
  mkRow (date r) (RP r) (RRP r) v (SOFR r) (IORB r) (Spread_bps r)
        (RP_MA r) (RRP_MA r) (Reserves_MA r) (Spread_bps_MA r).

Definition with_Spread_bps (r : Row) (v : float) : Row :=
  mkRow (date r) (RP r) (RRP r) (Reserves r) (SOFR r) (IORB r) v
        (RP_MA r) (RRP_MA r) (Reserves_MA r) (Spread_bps_MA r).

(** The ordinal score the assessment of [df] gives an indicator. *)
Definition score_of (df : DataFrame) (indicator : string) : option Z :=
  a <- assess_liquidity_status df ;;
  st <- getitem (assessments a) indicator ;;
  Some (score st).

(** The change of a frame whose latest row is [x], from the rows before it. *)
Definition change_after (past : DataFrame) (x : Row) : option float :=
  if Nat.leb 29 (List.length past) then
    ref <- iloc_neg (map Reserves past) 29 ;;
    Some ((Reserves x - ref) / ref * lit 100)%float
  else
    Some (lit 0).

Ltac by_mono :=
  unfold first_match;
  repeat match goal with
         | |- context [if ?c then _ else _] => destruct c
         end;
  simpl;
  repeat match goal with
         | H : true = true -> _ |- _ => specialize (H eq_refl)
         end;
  try discriminate; try lia.

(** ** The parts of the risk-signal list *)

(** The entries of the indicators whose ordinal score is at most 1, in the
    order of the assessments. *)
Definition level_signals (a : Assessment) : list Signal :=
  flat_map (fun kv : string * Status =>
              if score (snd kv) <=? 1
              then [IndicatorRisk (fst kv) (message (snd kv))]
              else [])
           (assessments a).

(** The abrupt-move entry of a column, decided by its change alone. *)
Definition abrupt (name : string) (change limit : float) : list Signal :=
  if (fabs change > limit)%float then [AbruptMove name change] else [].

(** Seven calm rows whose primary lending volume moves from 5 to 12. *)
Definition calm_jump : DataFrame :=
  sample_row 5 350 3500 5 :: repeat (sample_row 6 350 3500 5) 5
    ++ [sample_row 12 350 3500 5].

(** ** The parts of a fetch *)

(** The warning [fetch_data_with_ffill] shows when the provider fails. *)
Definition failure_warning (series_id name e : string) : string :=
  ("❌ " ++ name_or name series_id ++ " 수집 실패: " ++ e)%string.

(** The series and the warnings one fetch contributes. *)
Definition fetched (fred : Provider) (start_date : Z) (series_id name : string)
    : Series :=
  fst (fetch_data_with_ffill fred series_id start_date name).

Definition warned (fred : Provider) (start_date : Z) (series_id name : string)
    : list string :=
  snd (fetch_data_with_ffill fred series_id start_date name).

(** A provider that fails on the reserve balances and answers the other
    four series. *)
Definition failing_reserves : Provider :=
  fun series_id _ =>
    if String.eqb series_id "WRESBAL" then Raises "Bad Request"
    else if String.eqb series_id "RPONTSYD" then Returns [(1, lit 10); (2, lit 12)]
    else if String.eqb series_id "RRPONTSYD" then Returns [(1, lit 300)]
    else Returns [(1, lit 4)].

(** The same provider when it answers the reserve balances without any
    observation. *)
Definition no_reserve_observation : Provider :=
  fun series_id start_date =>
    if String.eqb series_id "WRESBAL" then Returns []
    else failing_reserves series_id start_date.

(** ** Plain means and tracked columns *)

(** The plain mean of a list of numbers. *)
Definition plain_mean (xs : list Q) : Q :=
  fold_right Qplus 0%Q xs / inject_Z (Z.of_nat (List.length xs)).

(** The four tracked columns with their rolling averages, and the three
    window lengths with their columns. *)
Definition tracked : list ((Row -> float) * (Row -> MA)) :=
  [ (RP, RP_MA); (RRP, RRP_MA); (Reserves, Reserves_MA);
    (Spread_bps, Spread_bps_MA) ].

Definition windows : list (nat * (MA -> float)) :=
  [ (7%nat, MA7); (30%nat, MA30); (60%nat, MA60) ].

(** A raw row given by its date and its primary lending volume. *)
Definition raw_row (d rp : Z) : Raw.Row :=
  Raw.mk d (lit rp) (lit 350) (lit 3500) (lit 4) (lit 4).

Definition three_rows : list Raw.Row :=
  [raw_row 1 10; raw_row 2 20; raw_row 3 60].

Definition eight_rows : list Raw.Row :=
  [ raw_row 1 1; raw_row 2 2; raw_row 3 3; raw_row 4 4;
    raw_row 5 5; raw_row 6 6; raw_row 7 7; raw_row 8 8 ].

(** ** The forward-fill law *)

(** [v] is the most recent observation of the series that is not missing,
    at or before the date [d]; it is [nan] when there is none. *)
Definition most_recent (data : Series) (d : Z) (v : float) : Prop :=
  (exists d',
     In (d', v) data /\ d' <= d /\ notna v = true /\
     forall d'' v'', In (d'', v'') data -> d' < d'' <= d -> notna v'' = false)
  \/
  (v = NaN /\
   forall d'' v'', In (d'', v'') data -> d'' <= d -> notna v'' = false).

(** Five small series: the primary lending volume has a missing value on
    day 3, the reserves are observed on days 1 and 6 only. *)
Definition sample_rp : Series := [(1, lit 10); (3, NaN); (5, lit 12)].

Definition sample_rrp : Series := [(2, lit 300); (5, lit 310)].

Definition sample_reserves : Series := [(1, lit 3400); (6, lit 3300)].

Definition sample_sofr : Series := [(1, lit 5); (5, lit 6)].

Definition sample_iorb : Series := [(1, lit 4); (5, lit 4)].

Ltac unique_dates :=
  repeat (constructor; [simpl; intuition discriminate |]); constructor.

(** ** More sample frames *)

(** A row whose values are all missing. *)
Definition missing_row : Row :=
  mkRow 1 NaN NaN NaN NaN NaN NaN no_MA no_MA no_MA no_MA.

Definition missing_frame : DataFrame := [missing_row].

(** ** Fetches without data *)

(** The provider raises on the series, or returns no observation. *)
Definition no_data (fred : Provider) (start_date : Z) (series_id : string) : Prop :=
  (exists e, fred series_id start_date = Raises e)
  \/ fred series_id start_date = Returns [].

(** ** Changes since a reference row *)

(** The guarded change of a column between the first row of [l] and the
    latest row. *)
Definition change_since (l : DataFrame) (latest : Row) (f : Row -> float) : float :=
  match l with
  | first :: _ :: _ =>
      if (f first != lit 0)%float
      then ((f latest - f first) / f first * lit 100)%float
      else lit 0
  | _ => lit 0
  end.

(** ** The login over several runs of the script *)

(** One interaction of the user with the page, as the Streamlit runtime
    drives the script: it runs with the form as filled in, and once more
    without a submission when it asked for a rerun. *)
Definition interaction (session : SessionState) (secrets : SecretsAccess)
    (form : Form) : SessionState * list string * Access :=
  match login_gate session secrets form with
  | (session', errors, Rerunning) =>
      match login_gate session' secrets
                       (mkForm (username form) (password form) false) with
      | (session'', errors', access) => (session'', errors ++ errors', access)
      end
  | result => result
  end.

(** A sequence of interactions, the session going from one to the next. *)
Fixpoint interactions (session : SessionState) (secrets : SecretsAccess)
    (forms : list Form) : SessionState :=
  match forms with
  | [] => session
  | form :: rest =>
      interactions (fst (fst (interaction session secrets form))) secrets rest
  end.

(** The form is submitted with a user name of the ["passwords"] section and
    the password stored for it. *)
Definition valid_credentials (secrets : SecretsAccess) (form : Form) : Prop :=
  submit_btn form = true /\
  exists passwords,
    secrets = Secrets (Some passwords) /\
    getitem passwords (username form) = Some (password form).

(** A secrets file with one user, and a session that is not logged in. *)
Definition one_user : SecretsAccess := Secrets (Some [("alice", "pw1")]).

Definition logged_out : SessionState := mkSession false None None.

(** ** The chat history over several runs *)

(** A history made of questions of the user, each followed by its answer. *)
Inductive alternating : list Msg -> Prop :=
| alternating_nil : alternating []
| alternating_pair (history : list Msg) (question answer : string) :
    alternating history ->
    alternating (history ++ [mkMsg "user" question; mkMsg "assistant" answer]).

(** The history of a session; an absent key counts as no message. *)
Definition history_of (session : SessionState) : list Msg :=
  match advanced_chat_messages session with
  | Some messages => messages
  | None => []
  end.

(** A history in which every answer directly follows a question of the
    user: questions may stay without an answer. *)
Inductive answers_follow : list Msg -> Prop :=
| answers_follow_nil : answers_follow []
| answers_follow_question (history : list Msg) (question : string) :
    answers_follow history ->
    answers_follow (history ++ [mkMsg "user" question])
| answers_follow_pair (history : list Msg) (question answer : string) :
    answers_follow history ->
    answers_follow (history ++ [mkMsg "user" question; mkMsg "assistant" answer]).

(** Runs of the chat tab one after the other, each with where it ends, its
    widgets and what the two services answer during that run. *)
Fixpoint chat_runs (config : Config) (session : SessionState)
    (runs : list (RunEnd * Gemini * OpenAI * ChatInput)) : SessionState :=
  match runs with
  | [] => session
  | (stop, gemini, openai, input) :: rest =>
      chat_runs config
                (chat_tab_run stop config gemini openai session input) rest
  end.

(** Where a run ends. *)
Definition run_end (run : RunEnd * Gemini * OpenAI * ChatInput) : RunEnd :=
  fst (fst (fst run)).

(** The text [query_advanced_chat] returns for a reply of a service. *)
Definition text_of (error_prefix : string) (reply : Reply) : string :=
  match reply with
  | Says text => text
  | Fails e => (error_prefix ++ e)%string
  end.

(** A configuration with both services, services that echo what they are
    sent, and a chat input that only types a question. *)
Definition both_services : Config := mkConfig true true "gpt-4o".

Definition echo_gemini : Gemini := fun _ prompt => Says prompt.

Definition count_openai : OpenAI :=
  fun _ messages => Says (String.concat "|" (map content messages)).

Definition typed (question : string) : ChatInput :=
  mkChatInput 0 false (fun _ => false) (Some question).

(** ** The data of a run of main *)

(** The identifiers of the five series. *)
Definition series_ids : list string :=
  ["RPONTSYD"; "RRPONTSYD"; "WRESBAL"; "SOFR"; "IORB"].

(** The five series as [fetch_liquidity_data] fetches them. *)
Definition fetched_series (fred : Provider) (start_date : Z) : list Series :=
  [ fetched fred start_date "RPONTSYD" "RP (Repo)";
    fetched fred start_date "RRPONTSYD" "RRP (Reverse Repo)";
    fetched fred start_date "WRESBAL" "은행 지준금";
    fetched fred start_date "SOFR" "SOFR";
    fetched fred start_date "IORB" "IORB" ].

(** The frame built from the five fetched series. *)
Definition joined_frame (fred : Provider) (start_date : Z) : DataFrame :=
  add_derived
    (align start_date
       (fetched fred start_date "RPONTSYD" "RP (Repo)")
       (fetched fred start_date "RRPONTSYD" "RRP (Reverse Repo)")
       (fetched fred start_date "WRESBAL" "은행 지준금")
       (fetched fred start_date "SOFR" "SOFR")
       (fetched fred start_date "IORB" "IORB")).

(** One of the five series has a date that is not before the start date. *)
Definition has_data (fred : Provider) (start_date : Z) : Prop :=
  exists data d,
    In data (fetched_series fred start_date) /\
    In d (map fst data) /\ start_date <= d.

(** A provider that is down, and one whose observations all lie before the
    start date 5. *)
Definition provider_down : Provider := fun _ _ => Raises "down".

Definition stale_provider : Provider := fun _ _ => Returns [(1, lit 4)].

(** ** The indicators of the analysis selector *)

(** The options of the selectbox, each with its column of the frame and
    the rolling averages of that column. *)
Definition indicator_columns : list (string * ((Row -> float) * (Row -> MA))) :=
  [ ("RP", (RP, RP_MA));
    ("RRP", (RRP, RRP_MA));
    ("Reserves", (Reserves, Reserves_MA));
    ("Spread", (Spread_bps, Spread_bps_MA)) ].

(** A string split before its last [k] characters. *)
Fixpoint split_suffix (k : nat) (s : string) : string * string :=
  if Nat.leb (String.length s) k then (EmptyString, s)
  else
    match s with
    | EmptyString => (EmptyString, EmptyString)
    | String c rest =>
        let (before, suffix) := split_suffix k rest in
        (String c before, suffix)
    end.

(** ** The question of a run of the chat tab *)

(** The question the tab goes on with: the quick question whose button was
    pressed, otherwise what was typed in the chat input. *)
Definition asked (input : ChatInput) : option string :=
  if truthy (triggered (quick_btn input))
  then triggered (quick_btn input)
  else user_input input.

(** The second quick-question button is pressed while a text is typed. *)
Definition quick_and_typed : ChatInput :=
  mkChatInput 0 false (fun i => Nat.eqb i 1) (Some "typed text").

(** * Properties *)

(** ** Comparisons *)

Lemma Qltb_lt (x y : Q) : Qltb x y = true <-> (x < y)%Q.
Proof.
  unfold Qltb. rewrite negb_true_iff.
  destruct (Qle_bool y x) eqn:E.
  - apply Qle_bool_iff in E. split; [discriminate | intro; lra].
  - split; [intros _ | reflexivity].
    destruct (Qlt_le_dec x y) as [Hlt | Hle]; [exact Hlt |].
    apply Qle_bool_iff in Hle. congruence.
Qed.

Lemma Qltb_ge (x y : Q) : Qltb x y = false <-> (y <= x)%Q.
Proof.
  unfold Qltb. rewrite negb_false_iff. apply Qle_bool_iff.
Qed.

Lemma Qeq_bool_false (x y : Q) : Qeq_bool x y = false <-> ~ (x == y)%Q.
Proof.
  split.
  - intros E H. apply Qeq_bool_iff in H. congruence.
  - intro H. destruct (Qeq_bool x y) eqn:E; [| reflexivity].
    apply Qeq_bool_iff in E. contradiction.
Qed.

(** ** The band tables *)

Lemma rp_status_bands (v : float) :
  classified (rp_status v)
    (first_match [ ((v > lit 50)%float, Danger);
                   ((v > lit 30)%float, Warning);
                   ((v > lit 20)%float, Caution) ] Normal).
Proof.
  unfold rp_status, WARNING_LEVELS.RP.danger, WARNING_LEVELS.RP.warning,
    WARNING_LEVELS.RP.normal.
  by_bands.
Qed.

Lemma rrp_status_bands (v : float) :
  classified (rrp_status v)
    (first_match [ ((v < lit 100)%float, Danger);
                   ((v < lit 200)%float, Warning);
                   ((v < lit 300)%float, Caution) ] Normal).
Proof.
  unfold rrp_status, WARNING_LEVELS.RRP.danger, WARNING_LEVELS.RRP.warning,
    WARNING_LEVELS.RRP.normal.
  by_bands.
Qed.

Lemma res_status_bands (v change : float) :
  classified (res_status v change)
    (first_match [ ((v < lit 3000)%float, Danger);
                   ((v < lit 3200)%float, Warning);
                   ((change < lit (-5))%float, Caution) ] Normal).
Proof.
  unfold res_status, WARNING_LEVELS.Reserves.danger,
    WARNING_LEVELS.Reserves.warning.
  by_bands.
Qed.

Lemma spread_status_bands (v : float) :
  classified (spread_status v)
    (first_match [ ((v > lit 100)%float, Danger);
                   ((v > lit 20)%float, Warning);
                   ((v > lit 10)%float, Caution) ] Normal).
Proof.
  unfold spread_status, WARNING_LEVELS.Spread.danger,
    WARNING_LEVELS.Spread.warning, WARNING_LEVELS.Spread.normal.
  by_bands.
Qed.

(** What a successful assessment is made of. *)
Lemma assess_inv (df : DataFrame) (a : Assessment) :
  assess_liquidity_status df = Some a ->
  exists latest change,
    iloc_neg df 1 = Some latest /\
    res_change_30d df latest = Some change /\
    assessments a =
      [ ("RP", rp_status (RP latest));
        ("RRP", rrp_status (RRP latest));
        ("Reserves", res_status (Reserves latest) change);
        ("Spread", spread_status (Spread_bps latest)) ] /\
    overall a = overall_of (total_score (assessments a)).
Proof.
  unfold assess_liquidity_status, bind. intro H.
  destruct (iloc_neg df 1) as [latest |] eqn:Hlast; [| discriminate].
  destruct (res_change_30d df latest) as [change |] eqn:Hchg; [| discriminate].
  injection H as <-. exists latest, change. auto.
Qed.

(** A value at or above a threshold is not below it. *)
Lemma flt_false_of_fle (t v : float) : fle t v -> (v < t)%float = false.
Proof.
  destruct t as [x | | |], v as [y | | |]; simpl; try tauto; try reflexivity.
  intro H. apply Qltb_ge. exact H.
Qed.

(** ** Negative indexing *)

Lemma iloc_neg_Some {A : Type} (l : list A) (k : nat) :
  (1 <= k <= List.length l)%nat -> exists x, iloc_neg l k = Some x.
Proof.
  intros [H1 Hk]. unfold iloc_neg.
  rewrite (proj2 (Nat.leb_le _ _) H1), (proj2 (Nat.leb_le _ _) Hk). simpl.
  destruct (nth_error l (List.length l - k)) as [x |] eqn:En.
  - exists x. reflexivity.
  - apply nth_error_None in En. lia.
Qed.

(** Counting back from the end is counting forward in the reversed list. *)
Lemma iloc_neg_rev {A : Type} (l : list A) (k : nat) :
  iloc_neg l (S k) = nth_error (rev l) k.
Proof.
  unfold iloc_neg. rewrite nth_error_rev.
  change (Nat.leb 1 (S k)) with true. rewrite andb_true_l.
  destruct (Nat.leb_spec (S k) (List.length l)),
    (Nat.ltb_spec k (List.length l)); try lia; reflexivity.
Qed.

Lemma iloc_neg_last {A : Type} (l : list A) (x : A) :
  iloc_neg (l ++ [x]) 1 = Some x.
Proof.
  rewrite iloc_neg_rev, rev_app_distr. reflexivity.
Qed.

(** On a frame with a row the assessment is produced. *)
Lemma assess_total (df : DataFrame) :
  df <> [] -> exists a, assess_liquidity_status df = Some a.
Proof.
  intro Hne.
  destruct (iloc_neg_Some df 1) as [latest Hl].
  { destruct df; [contradiction | simpl; lia]. }
  assert (exists change, res_change_30d df latest = Some change) as [change Hc].
  { unfold res_change_30d.
    destruct (Nat.leb 30 (List.length df)) eqn:E; [| eexists; reflexivity].
    apply Nat.leb_le in E.
    destruct (iloc_neg_Some (map Reserves df) 30) as [ref Hr].
    { rewrite length_map. lia. }
    rewrite Hr. eexists. reflexivity. }
  unfold assess_liquidity_status. rewrite Hl. simpl. rewrite Hc. simpl.
  eexists. reflexivity.
Qed.

(** C1. On every frame with a row, each of the four indicators is classified
    by its band table read from the most severe band to the least severe one,
    the first band that matches being the result; for the reserve balances
    the third band is the trend rule, so a latest value at or above 3200
    whose 30-observation change is below -5 is classified caution, score 2. *)
Theorem C1_first_match_wins (df : DataFrame) (Hrow : df <> []) :
  exists a latest change rp rrp res spread,
    assess_liquidity_status df = Some a /\
    iloc_neg df 1 = Some latest /\
    res_change_30d df latest = Some change /\
    getitem (assessments a) "RP" = Some rp /\
    getitem (assessments a) "RRP" = Some rrp /\
    getitem (assessments a) "Reserves" = Some res /\
    getitem (assessments a) "Spread" = Some spread /\
    classified rp
      (first_match [ ((RP latest > lit 50)%float, Danger);
                     ((RP latest > lit 30)%float, Warning);
                     ((RP latest > lit 20)%float, Caution) ] Normal) /\
    classified rrp
      (first_match [ ((RRP latest < lit 100)%float, Danger);
                     ((RRP latest < lit 200)%float, Warning);
                     ((RRP latest < lit 300)%float, Caution) ] Normal) /\
    classified res
      (first_match [ ((Reserves latest < lit 3000)%float, Danger);
                     ((Reserves latest < lit 3200)%float, Warning);
                     ((change < lit (-5))%float, Caution) ] Normal) /\
    classified spread
      (first_match [ ((Spread_bps latest > lit 100)%float, Danger);
                     ((Spread_bps latest > lit 20)%float, Warning);
                     ((Spread_bps latest > lit 10)%float, Caution) ] Normal) /\
    (fle (lit 3200) (Reserves latest) ->
     (change < lit (-5))%float = true ->
     level res = "🟡 주의" /\ score res = 2).
Proof.
  destruct (assess_total df Hrow) as [a Ha].
  destruct (assess_inv df a Ha) as (latest & change & Hl & Hc & Has & _).
  exists a, latest, change, (rp_status (RP latest)), (rrp_status (RRP latest)),
    (res_status (Reserves latest) change), (spread_status (Spread_bps latest)).
  rewrite Has.
  repeat match goal with |- _ /\ _ => split end;
    try reflexivity; try assumption.
  - apply rp_status_bands.
  - apply rrp_status_bands.
  - apply res_status_bands.
  - apply spread_status_bands.
  - intros Hv Htrend.
    pose proof (res_status_bands (Reserves latest) change) as [Hlev Hsc].
    assert ((Reserves latest < lit 3000)%float = false) as E1.
    { apply flt_false_of_fle.
      destruct (Reserves latest) as [q | | |]; simpl in *; try tauto.
      unfold inject_Z in *. unfold Qle in *. simpl in *. lia. }
    rewrite (flt_false_of_fle _ _ Hv), E1, Htrend in Hlev, Hsc.
    split; assumption.
Qed.

(** The sample of the specification: latest 3500 against 3800 gives a change
    of -150/19 (about -7.89) and the caution tier. *)
Lemma C1_falling_reserves_caution :
  falling_reserves <> [] /\
  exists a res change,
    assess_liquidity_status falling_reserves = Some a /\
    res_change_30d falling_reserves (sample_row 5 350 3500 5) = Some change /\
    feq change (Fin (-150 # 19)) /\
    getitem (assessments a) "Reserves" = Some res /\
    level res = "🟡 주의" /\ score res = 2.
Proof.
  assert (Hne : falling_reserves <> []) by discriminate.
  split; [exact Hne |].
  destruct (C1_first_match_wins falling_reserves Hne)
    as (a & latest & change & rp & rrp & res & spread & Ha & Hl & Hc
        & _ & _ & Hres & _ & _ & _ & _ & _ & Htrend).
  vm_compute in Hl. injection Hl as <-.
  exists a, res, change.
  assert (Hc' := Hc). vm_compute in Hc'. injection Hc' as <-.
  repeat split; try assumption; try reflexivity.
  - apply Htrend; vm_compute; [discriminate | reflexivity].
  - apply Htrend; vm_compute; [discriminate | reflexivity].
Defined.

(** ** The aggregate scorer *)

Lemma tier_score_range (t : Tier) : 0 <= tier_score t <= 3.
Proof. destruct t; simpl; lia. Qed.

Lemma classified_score_range (st : Status) (t : Tier) :
  classified st t -> 0 <= score st <= 3.
Proof. intros [_ ->]. apply tier_score_range. Qed.

Lemma total_score_four (k1 k2 k3 k4 : string) (s1 s2 s3 s4 : Status) :
  total_score [(k1, s1); (k2, s2); (k3, s3); (k4, s4)]
  = score s1 + score s2 + score s3 + score s4.
Proof. unfold total_score, values. simpl. lia. Qed.

Lemma overall_of_score (s : Z) :
  overall_score (overall_of s) = s /\ max_score (overall_of s) = 12.
Proof.
  unfold overall_of.
  destruct (10 <=? s); [split; reflexivity |].
  destruct (7 <=? s); [split; reflexivity |].
  destruct (4 <=? s); split; reflexivity.
Qed.

(** The overall tier as a step function of the composite score. *)
Lemma overall_of_steps (s : Z) :
  (10 <= s ->
   overall_status (overall_of s) = "🟢 양호" /\ overall_level (overall_of s) = "NORMAL") /\
  (7 <= s < 10 ->
   overall_status (overall_of s) = "🟡 주의" /\ overall_level (overall_of s) = "CAUTION") /\
  (4 <= s < 7 ->
   overall_status (overall_of s) = "🟠 경고" /\ overall_level (overall_of s) = "WARNING") /\
  (s < 4 ->
   overall_status (overall_of s) = "🔴 위험" /\ overall_level (overall_of s) = "DANGER").
Proof.
  unfold overall_of.
  destruct (Z.leb_spec 10 s); [repeat split; intros; try lia; reflexivity |].
  destruct (Z.leb_spec 7 s); [repeat split; intros; try lia; reflexivity |].
  destruct (Z.leb_spec 4 s); repeat split; intros; try lia; reflexivity.
Qed.

(** C2. On every frame with a row the composite score is the sum of the four
    ordinal scores, it lies between 0 and 12, the overall tier is given by
    the steps 10, 7 and 4 of that sum read from the highest down, and two
    frames with the same sum get the same overall assessment. *)
Theorem C2_composite_is_sum (df : DataFrame) (Hrow : df <> []) :
  exists a rp rrp res spread,
    assess_liquidity_status df = Some a /\
    assessments a = [("RP", rp); ("RRP", rrp); ("Reserves", res); ("Spread", spread)] /\
    overall_score (overall a) = score rp + score rrp + score res + score spread /\
    0 <= overall_score (overall a) <= 12 /\
    max_score (overall a) = 12 /\
    (10 <= overall_score (overall a) ->
     overall_status (overall a) = "🟢 양호" /\ overall_level (overall a) = "NORMAL") /\
    (7 <= overall_score (overall a) < 10 ->
     overall_status (overall a) = "🟡 주의" /\ overall_level (overall a) = "CAUTION") /\
    (4 <= overall_score (overall a) < 7 ->
     overall_status (overall a) = "🟠 경고" /\ overall_level (overall a) = "WARNING") /\
    (overall_score (overall a) < 4 ->
     overall_status (overall a) = "🔴 위험" /\ overall_level (overall a) = "DANGER") /\
    (forall df' a',
       assess_liquidity_status df' = Some a' ->
       overall_score (overall a') = overall_score (overall a) ->
       overall a' = overall a).
Proof.
  destruct (assess_total df Hrow) as [a Ha].
  destruct (assess_inv df a Ha) as (latest & change & _ & _ & Has & Hov).
  exists a, (rp_status (RP latest)), (rrp_status (RRP latest)),
    (res_status (Reserves latest) change), (spread_status (Spread_bps latest)).
  assert (Hsum : overall_score (overall a)
                 = score (rp_status (RP latest)) + score (rrp_status (RRP latest))
                   + score (res_status (Reserves latest) change)
                   + score (spread_status (Spread_bps latest))).
  { rewrite Hov, Has, total_score_four. apply overall_of_score. }
  pose proof (classified_score_range _ _ (rp_status_bands (RP latest))).
  pose proof (classified_score_range _ _ (rrp_status_bands (RRP latest))).
  pose proof (classified_score_range _ _ (res_status_bands (Reserves latest) change)).
  pose proof (classified_score_range _ _ (spread_status_bands (Spread_bps latest))).
  split; [exact Ha |]. split; [exact Has |]. split; [exact Hsum |].
  split; [lia |].
  split; [rewrite Hov; apply overall_of_score |].
  assert (Hs : overall_score (overall a) = total_score (assessments a)).
  { rewrite Hov at 1. apply overall_of_score. }
  rewrite Hs. rewrite Hov at 1 2 3 4 5 6 7 8.
  pose proof (overall_of_steps (total_score (assessments a))) as (S1 & S2 & S3 & S4).
  repeat (split; [assumption |]).
  intros df' a' Ha' Heq.
  destruct (assess_inv df' a' Ha') as (_ & _ & _ & _ & _ & Hov').
  rewrite Hov, Hov'. f_equal.
  rewrite Hov' in Heq.
  destruct (overall_of_score (total_score (assessments a'))) as [E _].
  congruence.
Qed.

(** The spec's sample: scores 0, 3, 1 and 3 sum to 7, the caution tier. *)
Lemma C2_mixed_frame_caution :
  mixed_frame <> [] /\
  exists a rp rrp res spread,
    assess_liquidity_status mixed_frame = Some a /\
    assessments a = [("RP", rp); ("RRP", rrp); ("Reserves", res); ("Spread", spread)] /\
    (score rp, score rrp, score res, score spread) = (0, 3, 1, 3) /\
    overall_score (overall a) = 7 /\
    overall_level (overall a) = "CAUTION".
Proof.
  assert (Hne : mixed_frame <> []) by discriminate.
  split; [exact Hne |].
  destruct (C2_composite_is_sum mixed_frame Hne)
    as (a & rp & rrp & res & spread & Ha & Has & Hsum & _ & _ & _ & Hstep & _).
  exists a, rp, rrp, res, spread.
  assert (Ha' := Ha). vm_compute in Ha'. injection Ha' as <-.
  injection Has as <- <- <- <-.
  split; [reflexivity |]. split; [reflexivity |]. split; [reflexivity |].
  split; [exact Hsum |].
  apply Hstep. vm_compute. split; [discriminate | reflexivity].
Defined.

(** ** Percentage changes *)

(** The guarded change of the signal detector is 0 on a zero reference. *)
Lemma change_7d_zero_reference (col : list float) (ref : float) :
  iloc_neg col 7 = Some ref -> feq ref (lit 0) -> change_7d col = Some (lit 0).
Proof.
  intros Href Hz. unfold change_7d. rewrite Href. simpl.
  destruct ref as [r | | |]; simpl in Hz; try contradiction.
  unfold fne, lit.
  apply Qeq_bool_iff in Hz. rewrite Hz. reflexivity.
Qed.

(** C3. The reserve-balance change of the classifier divides by the
    reference value without testing it: on a reference of 0 the change is
    [+inf], and that is the number put in the message; the 7-observation
    changes on the same kind of column are 0. *)
Theorem C3_reserve_change_unguarded :
  iloc_neg (map Reserves zero_reference) 30 = Some (lit 0) /\
  res_change_30d zero_reference (sample_row 5 350 3500 5) = Some PInf /\
  (exists a,
     assess_liquidity_status zero_reference = Some a /\
     option_map message (getitem (assessments a) "Reserves")
     = Some (Fmt "지준금 안정적 (30일 변화: " PInf "%)")) /\
  change_7d (lit 0 :: repeat (lit 3400) 5 ++ [lit 3500]) = Some (lit 0).
Proof.
  split; [reflexivity |]. split; [reflexivity |]. split.
  - eexists. split; reflexivity.
  - reflexivity.
Qed.

(** ** The reference row of the reserve-balance change *)

(** C4, as stated, fails: with 3800 thirty rows before a latest 3500 the
    claimed change is -150/19 and would force the caution tier, but the code
    reads the row after it, finds a change of 0 and answers normal. *)
Lemma C4_reference_not_30_rows_before :
  exists a res claimed change,
    iloc_neg early_drop 1 = Some (sample_row 5 350 3500 5) /\
    nth_error (rev (map Reserves early_drop)) 30 = Some (lit 3800) /\
    change_on_30_rows_before early_drop (sample_row 5 350 3500 5) = Some claimed /\
    feq claimed (Fin (-150 # 19)) /\
    (claimed < lit (-5))%float = true /\
    res_change_30d early_drop (sample_row 5 350 3500 5) = Some change /\
    feq change (lit 0) /\
    ~ feq change claimed /\
    assess_liquidity_status early_drop = Some a /\
    getitem (assessments a) "Reserves" = Some res /\
    score res = 3.
Proof.
  eexists. eexists. eexists. eexists.
  repeat match goal with |- _ /\ _ => split end; try reflexivity.
  vm_compute. discriminate.
Qed.

Lemma res_status_caution_inv (v change : float) :
  score (res_status v change) = 2 ->
  (v < lit 3200)%float = false /\ (change < lit (-5))%float = true.
Proof.
  destruct (res_status_bands v change) as [_ Hs]. rewrite Hs.
  unfold first_match.
  destruct (v < lit 3000)%float eqn:E1; [discriminate |].
  destruct (v < lit 3200)%float; [discriminate |].
  destruct (change < lit (-5))%float; [auto | discriminate].
Qed.

(** C4, amended. The reference value of the reserve-balance change is the
    30th row counted from the end with the latest row counted first, that
    is 29 rows before the latest row; the change is
    (latest - reference) / reference * 100; and on a frame of fewer than 30
    rows the change is 0 and the reserve balances are never classified
    caution. *)
Theorem C4_reference_29_rows_before (df : DataFrame) (latest : Row)
    (Hlast : iloc_neg df 1 = Some latest) :
  nth_error (rev (map Reserves df)) 0 = Some (Reserves latest) /\
  ((30 <= List.length df)%nat ->
   exists ref,
     nth_error (rev (map Reserves df)) 29 = Some ref /\
     res_change_30d df latest = Some ((Reserves latest - ref) / ref * lit 100)%float /\
     (forall l r : Q,
        Reserves latest = Fin l -> ref = Fin r -> ~ (r == 0)%Q ->
        exists c, res_change_30d df latest = Some (Fin c)
                  /\ (c == (l - r) / r * 100)%Q)) /\
  ((List.length df < 30)%nat ->
   res_change_30d df latest = Some (lit 0) /\
   forall a res,
     assess_liquidity_status df = Some a ->
     getitem (assessments a) "Reserves" = Some res ->
     score res <> 2 /\ level res <> "🟡 주의").
Proof.
  split; [| split].
  - rewrite <- iloc_neg_rev.
    unfold iloc_neg in *. rewrite length_map.
    destruct (Nat.leb 1 1 && Nat.leb 1 (List.length df))%bool; [| discriminate].
    rewrite nth_error_map, Hlast. reflexivity.
  - intro Hlen.
    destruct (iloc_neg_Some (map Reserves df) 30) as [ref Href].
    { rewrite length_map. lia. }
    exists ref. rewrite <- iloc_neg_rev.
    assert (E : res_change_30d df latest
                = Some ((Reserves latest - ref) / ref * lit 100)%float).
    { unfold res_change_30d.
      rewrite (proj2 (Nat.leb_le _ _) Hlen), Href. reflexivity. }
    split; [exact Href |]. split; [exact E |].
    intros l r Hl Hr Hnz. rewrite E, Hl, Hr. simpl.
    rewrite (proj2 (Qeq_bool_false r 0) Hnz).
    eexists. split; [reflexivity |]. unfold lit, inject_Z. reflexivity.
  - intro Hlen.
    assert (E : res_change_30d df latest = Some (lit 0)).
    { unfold res_change_30d. rewrite (proj2 (Nat.leb_gt _ _) Hlen). reflexivity. }
    split; [exact E |].
    intros a res Ha Hres.
    destruct (assess_inv df a Ha) as (latest' & change & Hl' & Hc & Has & _).
    rewrite Hlast in Hl'. injection Hl' as <-.
    rewrite E in Hc. injection Hc as <-.
    rewrite Has in Hres. simpl in Hres. injection Hres as <-.
    assert (Hscore : score (res_status (Reserves latest) (lit 0)) <> 2).
    { intro H2. apply res_status_caution_inv in H2 as [_ H2]. discriminate. }
    split; [exact Hscore |].
    intro Hlev. apply Hscore.
    destruct (res_status_bands (Reserves latest) (lit 0)) as [Hl Hs].
    rewrite Hs. rewrite Hl in Hlev.
    destruct (first_match _ _); try discriminate. reflexivity.
Qed.

(** On the thirty rows of [falling_reserves] the reference is the first row,
    29 rows before the latest one. *)
Lemma C4_falling_reserves_reference :
  iloc_neg falling_reserves 1 = Some (sample_row 5 350 3500 5) /\
  exists ref,
    nth_error (rev (map Reserves falling_reserves)) 29 = Some ref /\
    ref = lit 3800 /\
    res_change_30d falling_reserves (sample_row 5 350 3500 5)
    = Some ((lit 3500 - ref) / ref * lit 100)%float.
Proof.
  assert (Hl : iloc_neg falling_reserves 1 = Some (sample_row 5 350 3500 5))
    by reflexivity.
  split; [exact Hl |].
  destruct (C4_reference_29_rows_before falling_reserves _ Hl)
    as (_ & H30 & _).
  destruct H30 as (ref & Href & Hc & _); [vm_compute; lia |].
  exists ref. split; [exact Href |]. split; [| exact Hc].
  vm_compute in Href. injection Href as <-. reflexivity.
Defined.

(** ** Monotonicity of the band tables *)

Lemma fgt_mono (t lo hi : float) :
  fle lo hi -> (lo > t)%float = true -> (hi > t)%float = true.
Proof.
  unfold fgt.
  destruct t as [x | | |], lo as [l | | |], hi as [h | | |]; simpl;
    try tauto; try discriminate; try reflexivity.
  intros Hle Hlt. apply Qltb_lt in Hlt. apply Qltb_lt. lra.
Qed.

Lemma flt_mono (t lo hi : float) :
  fle lo hi -> (hi < t)%float = true -> (lo < t)%float = true.
Proof.
  destruct t as [x | | |], lo as [l | | |], hi as [h | | |]; simpl;
    try tauto; try discriminate; try reflexivity.
  intros Hle Hlt. apply Qltb_lt in Hlt. apply Qltb_lt. lra.
Qed.

(** With the reference fixed and the latest value at or above 3200, a
    smaller latest value keeps a change that is below -5 below -5. *)
Lemma change_below_mono (ref lo hi : float) :
  fle lo hi ->
  (lo < lit 3200)%float = false ->
  ((hi - ref) / ref * lit 100 < lit (-5))%float = true ->
  ((lo - ref) / ref * lit 100 < lit (-5))%float = true.
Proof.
  intros Hle Hlo.
  assert (Hlo' : fle (lit 3200) lo).
  { destruct lo as [l | | |]; simpl in *; try tauto; try discriminate.
    apply Qltb_ge in Hlo. exact Hlo. }
  clear Hlo.
  destruct ref as [r | | |], lo as [l | | |], hi as [h | | |];
    simpl in Hle, Hlo'; try tauto; simpl;
    try discriminate; try reflexivity.
  - (* finite reference, finite values *)
    unfold inject_Z in *.
    destruct (Qeq_bool r 0) eqn:Er.
    + apply Qeq_bool_iff in Er.
      unfold inf_of_sign.
      assert (Qltb 0 ((l - r) * 1) = true) as -> by (apply Qltb_lt; lra).
      assert (Qltb 0 ((h - r) * 1) = true) as -> by (apply Qltb_lt; lra).
      intro H; exact H.
    + apply Qeq_bool_false in Er.
      simpl. intro H. apply Qltb_lt in H. apply Qltb_lt.
      assert (Hinv : (r * / r == 1)%Q) by (apply Qmult_inv_r; exact Er).
      unfold Qdiv, inject_Z in *.
      destruct (Qlt_le_dec 0 r) as [Hpos | Hneg].
      * assert (0 < / r)%Q by (apply Qinv_lt_0_compat; exact Hpos).
        assert (0 <= (h - l) * / r)%Q by (apply Qmult_le_0_compat; lra).
        lra.
      * assert (r < 0)%Q by (destruct (Qlt_le_dec r 0); [assumption | exfalso; apply Er; lra]).
        assert (/ r < 0)%Q by nra.
        assert (0 <= l * (- / r))%Q by (apply Qmult_le_0_compat; lra).
        lra.
  - (* finite reference, the larger value is +inf *)
    unfold inject_Z in *.
    destruct (Qeq_bool r 0) eqn:Er.
    + apply Qeq_bool_iff in Er.
      assert (Qltb r 0 = false) as -> by (apply Qltb_ge; lra).
      unfold inf_of_sign.
      assert (Qltb 0 ((l - r) * 1) = true) as -> by (apply Qltb_lt; lra).
      intro H; exact H.
    + apply Qeq_bool_false in Er.
      destruct (Qltb r 0) eqn:Eneg; simpl; [| discriminate].
      intros _. apply Qltb_lt in Eneg. apply Qltb_lt.
      assert (Hinv : (r * / r == 1)%Q) by (apply Qmult_inv_r; exact Er).
      unfold Qdiv, inject_Z in *.
      assert (/ r < 0)%Q by nra.
      assert (0 <= l * (- / r))%Q by (apply Qmult_le_0_compat; lra).
      lra.
Qed.

Lemma iloc_neg_app_last {A : Type} (l : list A) (x : A) (k : nat) :
  iloc_neg (l ++ [x]) (S (S k)) = iloc_neg l (S k).
Proof.
  rewrite !iloc_neg_rev, rev_app_distr. reflexivity.
Qed.

Lemma res_change_30d_snoc (past : DataFrame) (x : Row) :
  res_change_30d (past ++ [x]) x = change_after past x.
Proof.
  unfold res_change_30d, change_after.
  rewrite length_app, Nat.add_comm. simpl List.length.
  change (Nat.leb 30 (1 + List.length past)) with (Nat.leb 29 (List.length past)).
  rewrite map_app. simpl map. rewrite iloc_neg_app_last. reflexivity.
Qed.

Lemma score_of_snoc (past : DataFrame) (x : Row) (indicator : string) :
  score_of (past ++ [x]) indicator =
  (change <- change_after past x ;;
   st <- getitem [ ("RP", rp_status (RP x));
                   ("RRP", rrp_status (RRP x));
                   ("Reserves", res_status (Reserves x) change);
                   ("Spread", spread_status (Spread_bps x)) ] indicator ;;
   Some (score st)).
Proof.
  unfold score_of, assess_liquidity_status.
  rewrite iloc_neg_last. simpl bind at 1. cbv beta.
  rewrite res_change_30d_snoc.
  destruct (change_after past x); reflexivity.
Qed.

Lemma change_after_Some (past : DataFrame) (x : Row) :
  exists change, change_after past x = Some change.
Proof.
  rewrite <- res_change_30d_snoc.
  destruct (assess_total (past ++ [x])) as [a Ha].
  { destruct past; discriminate. }
  destruct (assess_inv _ _ Ha) as (latest & change & Hl & Hc & _).
  rewrite iloc_neg_last in Hl. injection Hl as <-.
  exists change. exact Hc.
Qed.

Lemma rp_status_mono (lo hi : float) :
  fle lo hi -> score (rp_status hi) <= score (rp_status lo).
Proof.
  intro Hle.
  destruct (rp_status_bands lo) as [_ ->], (rp_status_bands hi) as [_ ->].
  pose proof (fgt_mono (lit 50) lo hi Hle).
  pose proof (fgt_mono (lit 30) lo hi Hle).
  pose proof (fgt_mono (lit 20) lo hi Hle).
  by_mono.
Qed.

Lemma spread_status_mono (lo hi : float) :
  fle lo hi -> score (spread_status hi) <= score (spread_status lo).
Proof.
  intro Hle.
  destruct (spread_status_bands lo) as [_ ->], (spread_status_bands hi) as [_ ->].
  pose proof (fgt_mono (lit 100) lo hi Hle).
  pose proof (fgt_mono (lit 20) lo hi Hle).
  pose proof (fgt_mono (lit 10) lo hi Hle).
  by_mono.
Qed.

Lemma rrp_status_mono (lo hi : float) :
  fle lo hi -> score (rrp_status lo) <= score (rrp_status hi).
Proof.
  intro Hle.
  destruct (rrp_status_bands lo) as [_ ->], (rrp_status_bands hi) as [_ ->].
  pose proof (flt_mono (lit 100) lo hi Hle).
  pose proof (flt_mono (lit 200) lo hi Hle).
  pose proof (flt_mono (lit 300) lo hi Hle).
  by_mono.
Qed.

Lemma res_status_mono (ref lo hi : float) :
  fle lo hi ->
  score (res_status lo ((lo - ref) / ref * lit 100)%float)
  <= score (res_status hi ((hi - ref) / ref * lit 100)%float).
Proof.
  intro Hle.
  destruct (res_status_bands lo ((lo - ref) / ref * lit 100)%float) as [_ ->].
  destruct (res_status_bands hi ((hi - ref) / ref * lit 100)%float) as [_ ->].
  pose proof (flt_mono (lit 3000) lo hi Hle).
  pose proof (flt_mono (lit 3200) lo hi Hle).
  pose proof (change_below_mono ref lo hi Hle) as Hc.
  unfold first_match.
  destruct (lo < lit 3000)%float; [by_mono |].
  destruct (hi < lit 3000)%float; [intuition discriminate |].
  destruct (lo < lit 3200)%float; [by_mono |].
  destruct (hi < lit 3200)%float; [intuition discriminate |].
  specialize (Hc eq_refl).
  destruct ((hi - ref) / ref * lit 100 < lit (-5))%float.
  - rewrite (Hc eq_refl). simpl; lia.
  - by_mono.
Qed.

Lemma res_status_const_mono (lo hi : float) :
  fle lo hi ->
  score (res_status lo (lit 0)) <= score (res_status hi (lit 0)).
Proof.
  intro Hle.
  destruct (res_status_bands lo (lit 0)) as [_ ->].
  destruct (res_status_bands hi (lit 0)) as [_ ->].
  pose proof (flt_mono (lit 3000) lo hi Hle).
  pose proof (flt_mono (lit 3200) lo hi Hle).
  change (lit 0 < lit (-5))%float with false.
  by_mono.
Qed.

(** C5. Take any frame and replace one value of its latest row by two
    comparable values [lo <= hi].  For the primary lending volume and for
    the spread the larger value never gets the higher score; for the reverse
    lending volume and for the reserve balances (the rows before the latest
    one, hence the reference of the change, being the same) the smaller
    value never gets the higher score. *)
Theorem C5_monotone_in_danger_direction
    (past : DataFrame) (r : Row) (lo hi : float) (Hle : fle lo hi) :
  (exists s_lo s_hi,
     score_of (past ++ [with_RP r lo]) "RP" = Some s_lo /\
     score_of (past ++ [with_RP r hi]) "RP" = Some s_hi /\
     s_hi <= s_lo) /\
  (exists s_lo s_hi,
     score_of (past ++ [with_Spread_bps r lo]) "Spread" = Some s_lo /\
     score_of (past ++ [with_Spread_bps r hi]) "Spread" = Some s_hi /\
     s_hi <= s_lo) /\
  (exists s_lo s_hi,
     score_of (past ++ [with_RRP r lo]) "RRP" = Some s_lo /\
     score_of (past ++ [with_RRP r hi]) "RRP" = Some s_hi /\
     s_lo <= s_hi) /\
  (exists s_lo s_hi,
     score_of (past ++ [with_Reserves r lo]) "Reserves" = Some s_lo /\
     score_of (past ++ [with_Reserves r hi]) "Reserves" = Some s_hi /\
     s_lo <= s_hi).
Proof.
  repeat split.
  - destruct (change_after_Some past (with_RP r lo)) as [c1 H1].
    destruct (change_after_Some past (with_RP r hi)) as [c2 H2].
    rewrite !score_of_snoc, H1, H2. simpl.
    do 2 eexists. repeat split. apply rp_status_mono, Hle.
  - destruct (change_after_Some past (with_Spread_bps r lo)) as [c1 H1].
    destruct (change_after_Some past (with_Spread_bps r hi)) as [c2 H2].
    rewrite !score_of_snoc, H1, H2. simpl.
    do 2 eexists. repeat split. apply spread_status_mono, Hle.
  - destruct (change_after_Some past (with_RRP r lo)) as [c1 H1].
    destruct (change_after_Some past (with_RRP r hi)) as [c2 H2].
    rewrite !score_of_snoc, H1, H2. simpl.
    do 2 eexists. repeat split. apply rrp_status_mono, Hle.
  - rewrite !score_of_snoc. unfold change_after.
    destruct (Nat.leb 29 (List.length past)) eqn:E.
    + destruct (iloc_neg_Some (map Reserves past) 29) as [ref Href].
      { rewrite length_map. apply Nat.leb_le in E. lia. }
      rewrite Href. simpl.
      do 2 eexists. repeat split. apply res_status_mono, Hle.
    + simpl. do 2 eexists. repeat split. apply res_status_const_mono, Hle.
Qed.

(** With 3800 as the reference, a latest reserve balance of 3500 is scored
    2 and the larger 4000 is scored 3. *)
Lemma C5_reserves_3500_4000 :
  fle (lit 3500) (lit 4000) /\
  exists s_lo s_hi,
    score_of (firstn 29 falling_reserves ++ [with_Reserves (sample_row 5 350 0 5) (lit 3500)])
             "Reserves" = Some s_lo /\
    score_of (firstn 29 falling_reserves ++ [with_Reserves (sample_row 5 350 0 5) (lit 4000)])
             "Reserves" = Some s_hi /\
    s_lo <= s_hi /\ s_lo = 2 /\ s_hi = 3.
Proof.
  assert (Hle : fle (lit 3500) (lit 4000)) by (vm_compute; discriminate).
  split; [exact Hle |].
  destruct (C5_monotone_in_danger_direction
              (firstn 29 falling_reserves) (sample_row 5 350 0 5) _ _ Hle)
    as (_ & _ & _ & s_lo & s_hi & Hlo & Hhi & Hs).
  exists s_lo, s_hi.
  split; [exact Hlo |]. split; [exact Hhi |]. split; [exact Hs |].
  vm_compute in Hlo, Hhi. injection Hlo as <-. injection Hhi as <-.
  split; reflexivity.
Defined.

(** ** Risk signals *)

Lemma indicator_signals_four (a : Assessment) (rp rrp res spread : Status) :
  assessments a = [("RP", rp); ("RRP", rrp); ("Reserves", res); ("Spread", spread)] ->
  indicator_signals a ["RP"; "RRP"; "Reserves"; "Spread"] [] = Some (level_signals a).
Proof.
  intro Has. unfold level_signals, indicator_signals. rewrite Has. simpl.
  destruct (score rp <=? 1), (score rrp <=? 1), (score res <=? 1),
    (score spread <=? 1); reflexivity.
Qed.

Lemma change_7d_Some (col : list float) :
  (7 <= List.length col)%nat -> exists change, change_7d col = Some change.
Proof.
  intro Hlen. unfold change_7d.
  destruct (iloc_neg_Some col 7) as [ref ->]; [lia |].
  destruct (iloc_neg_Some col 1) as [last ->]; [lia |].
  simpl. destruct (ref != lit 0)%float; eexists; reflexivity.
Qed.

Lemma abrupt_signals_long (df : DataFrame) (signals : list Signal) :
  (7 <= List.length df)%nat ->
  exists rp_change rrp_change,
    change_7d (map RP df) = Some rp_change /\
    change_7d (map RRP df) = Some rrp_change /\
    abrupt_signals df signals
    = Some (signals ++ abrupt "RP" rp_change (lit 50)
                    ++ abrupt "RRP" rrp_change (lit 30)).
Proof.
  intro Hlen.
  destruct (change_7d_Some (map RP df)) as [c1 H1]; [rewrite length_map; lia |].
  destruct (change_7d_Some (map RRP df)) as [c2 H2]; [rewrite length_map; lia |].
  exists c1, c2. split; [exact H1 |]. split; [exact H2 |].
  unfold abrupt_signals, abrupt.
  rewrite (proj2 (Nat.leb_le _ _) Hlen), H1, H2. unfold bind.
  destruct (fabs c1 > lit 50)%float, (fabs c2 > lit 30)%float;
    rewrite <- ?app_assoc, ?app_nil_r; reflexivity.
Qed.

Lemma abrupt_signals_short (df : DataFrame) (signals : list Signal) :
  (List.length df < 7)%nat -> abrupt_signals df signals = Some signals.
Proof.
  intro Hlen. unfold abrupt_signals.
  rewrite (proj2 (Nat.leb_gt _ _) Hlen). reflexivity.
Qed.

Lemma level_signals_no_abrupt (a : Assessment) (name : string) (c : float) :
  ~ In (AbruptMove name c) (level_signals a).
Proof.
  unfold level_signals. rewrite in_flat_map.
  intros ([k st] & _ & Hin). simpl in Hin.
  destruct (score st <=? 1); simpl in Hin; [| contradiction].
  destruct Hin as [Hin | []]. discriminate.
Qed.

Lemma in_abrupt (name name' : string) (c c' limit : float) :
  In (AbruptMove name c) (abrupt name' c' limit) <->
  name = name' /\ c = c' /\ (fabs c' > limit)%float = true.
Proof.
  unfold abrupt. destruct (fabs c' > limit)%float; simpl.
  - split.
    + intros [H | []]. injection H as <- <-. auto.
    + intros (-> & -> & _). auto.
  - split; [contradiction | intros (_ & _ & H); discriminate].
Qed.

(** The guarded 7-observation change, spelled out. *)
Lemma change_7d_spec (col : list float) (change : float) :
  change_7d col = Some change ->
  exists ref last,
    nth_error (rev col) 6 = Some ref /\
    nth_error (rev col) 0 = Some last /\
    change = if (ref != lit 0)%float
             then ((last - ref) / ref * lit 100)%float
             else lit 0.
Proof.
  unfold change_7d. rewrite <- !iloc_neg_rev.
  destruct (iloc_neg col 7) as [ref |] eqn:Href; [| discriminate].
  unfold bind.
  destruct (iloc_neg col 1) as [last |] eqn:Hlast.
  - intro H. exists ref, last. split; [reflexivity |]. split; [reflexivity |].
    destruct (ref != lit 0)%float; injection H as <-; reflexivity.
  - exfalso. unfold iloc_neg in *.
    destruct (Nat.leb 1 7 && Nat.leb 7 (List.length col))%bool eqn:E7;
      [| discriminate].
    apply andb_true_iff in E7 as [_ E7]. apply Nat.leb_le in E7.
    destruct (Nat.leb_spec 1 (List.length col)); [| lia].
    simpl in Hlast. apply nth_error_None in Hlast. lia.
Qed.

(** C9. On every frame of at least 7 rows the risk-signal list is the
    entries of the indicators scored at most 1, followed by the abrupt-move
    entry of the primary lending volume, followed by that of the reverse
    lending volume; an abrupt-move entry is present exactly when the
    magnitude of the 7-observation change of its column exceeds 50
    (respectively 30), whatever the scores are. *)
Theorem C9_abrupt_moves_appended (df : DataFrame)
    (Hlen : (7 <= List.length df)%nat) :
  exists a rp_change_7d rrp_change_7d signals,
    assess_liquidity_status df = Some a /\
    change_7d (map RP df) = Some rp_change_7d /\
    change_7d (map RRP df) = Some rrp_change_7d /\
    risk_signals df a = Some signals /\
    signals = level_signals a
                ++ abrupt "RP" rp_change_7d (lit 50)
                ++ abrupt "RRP" rrp_change_7d (lit 30) /\
    (In (AbruptMove "RP" rp_change_7d) signals
     <-> (fabs rp_change_7d > lit 50)%float = true) /\
    (In (AbruptMove "RRP" rrp_change_7d) signals
     <-> (fabs rrp_change_7d > lit 30)%float = true).
Proof.
  destruct (assess_total df) as [a Ha].
  { destruct df; [simpl in Hlen; lia | discriminate]. }
  destruct (assess_inv df a Ha) as (latest & change & _ & _ & Has & _).
  destruct (abrupt_signals_long df (level_signals a) Hlen)
    as (c1 & c2 & H1 & H2 & Hab).
  exists a, c1, c2. eexists.
  split; [exact Ha |]. split; [exact H1 |]. split; [exact H2 |].
  split.
  { unfold risk_signals. rewrite (indicator_signals_four a _ _ _ _ Has).
    exact Hab. }
  split; [reflexivity |].
  split.
  - rewrite !in_app_iff, !in_abrupt. split.
    + intros [H | [H | H]].
      * exfalso. eapply level_signals_no_abrupt, H.
      * tauto.
      * destruct H as (H & _). discriminate.
    + intro H. right. left. auto.
  - rewrite !in_app_iff, !in_abrupt. split.
    + intros [H | [H | H]].
      * exfalso. eapply level_signals_no_abrupt, H.
      * destruct H as (H & _). discriminate.
      * tauto.
    + intro H. right. right. auto.
Qed.

(** A frame whose four indicators are all scored normal still raises the
    abrupt-move signal of the primary lending volume: 5 to 12 is +140. *)
Lemma C9_calm_jump_signal :
  (7 <= List.length calm_jump)%nat /\
  exists a change,
    assess_liquidity_status calm_jump = Some a /\
    map (fun kv => score (snd kv)) (assessments a) = [3; 3; 3; 3] /\
    risk_signals calm_jump a = Some [AbruptMove "RP" change] /\
    feq change (lit 140).
Proof.
  assert (Hlen : (7 <= List.length calm_jump)%nat) by (vm_compute; lia).
  split; [exact Hlen |].
  destruct (C9_abrupt_moves_appended calm_jump Hlen)
    as (a & c1 & c2 & signals & Ha & H1 & H2 & Hsig & Heq & _).
  exists a, c1.
  vm_compute in Ha. injection Ha as <-.
  vm_compute in H1. injection H1 as <-.
  vm_compute in H2. injection H2 as <-.
  split; [reflexivity |]. split; [reflexivity |].
  split; [rewrite Hsig, Heq; reflexivity | reflexivity].
Defined.

(** C10. On a frame of 1 to 6 rows no 7-observation change is computed: the
    risk-signal list is exactly the entries of the indicators scored at most
    1, it holds no abrupt-move entry, and when it is empty the section shows
    the all-clear line. *)
Theorem C10_short_frame_no_abrupt_moves (df : DataFrame)
    (Hrow : df <> []) (Hlen : (List.length df < 7)%nat) :
  exists a,
    assess_liquidity_status df = Some a /\
    risk_signals df a = Some (level_signals a) /\
    (forall name change, ~ In (AbruptMove name change) (level_signals a)) /\
    (level_signals a = [] ->
     risk_section df = Some [success "✅ 현재 심각한 위험 신호 없음"]) /\
    (level_signals a <> [] ->
     risk_section df = Some (map warning (level_signals a))).
Proof.
  destruct (assess_total df Hrow) as [a Ha].
  destruct (assess_inv df a Ha) as (latest & change & _ & _ & Has & _).
  assert (Hsig : risk_signals df a = Some (level_signals a)).
  { unfold risk_signals. rewrite (indicator_signals_four a _ _ _ _ Has).
    apply abrupt_signals_short, Hlen. }
  exists a. split; [exact Ha |]. split; [exact Hsig |].
  split; [intros; apply level_signals_no_abrupt |].
  unfold risk_section. rewrite Ha. simpl. rewrite Hsig. simpl.
  split.
  - intros ->. reflexivity.
  - intro Hne. destruct (level_signals a); [contradiction | reflexivity].
Qed.

(** The one-row sample frame: the entries of the two indicators scored 0
    and 1, and nothing else. *)
Lemma C10_mixed_frame_signals :
  mixed_frame <> [] /\ (List.length mixed_frame < 7)%nat /\
  exists a,
    assess_liquidity_status mixed_frame = Some a /\
    risk_signals mixed_frame a
    = Some [ IndicatorRisk "RP" (Str "RP 급증 - 긴급 유동성 수요");
             IndicatorRisk "Reserves"
               (Fmt "지준금 감소 추세 (30일 변화: " (lit 0) "%)") ].
Proof.
  assert (Hne : mixed_frame <> []) by discriminate.
  assert (Hlen : (List.length mixed_frame < 7)%nat) by (vm_compute; lia).
  split; [exact Hne |]. split; [exact Hlen |].
  destruct (C10_short_frame_no_abrupt_moves mixed_frame Hne Hlen)
    as (a & Ha & Hsig & _).
  exists a. split; [exact Ha |].
  rewrite Hsig. vm_compute in Ha. injection Ha as <-. reflexivity.
Defined.

(** A calm one-row frame takes the all-clear branch. *)
Example calm_row_all_clear :
  risk_section [sample_row 5 350 3500 5]
  = Some [success "✅ 현재 심각한 위험 신호 없음"].
Proof. reflexivity. Qed.

(** ** Fetching *)

Lemma fetch_raises (fred : Provider) (start_date : Z) (series_id name e : string) :
  fred series_id start_date = Raises e ->
  fetch_data_with_ffill fred series_id start_date name
  = ([], [failure_warning series_id name e]).
Proof.
  intro H. unfold fetch_data_with_ffill. rewrite H. reflexivity.
Qed.

Lemma fetch_no_observation (fred : Provider) (start_date : Z) (series_id name : string) :
  fred series_id start_date = Returns [] ->
  fetch_data_with_ffill fred series_id start_date name = ([], []).
Proof.
  intro H. unfold fetch_data_with_ffill. rewrite H. reflexivity.
Qed.

(** The five fetches are always made; the frame is built from their results
    when none of them is the undated empty series. *)
Lemma fetch_liquidity_data_unfold (fred : Provider) (start_date : Z) :
  fetch_liquidity_data fred start_date =
  ( (if existsb undated
          [ fetched fred start_date "RPONTSYD" "RP (Repo)";
            fetched fred start_date "RRPONTSYD" "RRP (Reverse Repo)";
            fetched fred start_date "WRESBAL" "은행 지준금";
            fetched fred start_date "SOFR" "SOFR";
            fetched fred start_date "IORB" "IORB" ]
     then Raise TypeError
     else Value (add_derived
                   (align start_date
                      (fetched fred start_date "RPONTSYD" "RP (Repo)")
                      (fetched fred start_date "RRPONTSYD" "RRP (Reverse Repo)")
                      (fetched fred start_date "WRESBAL" "은행 지준금")
                      (fetched fred start_date "SOFR" "SOFR")
                      (fetched fred start_date "IORB" "IORB")))),
    warned fred start_date "RPONTSYD" "RP (Repo)"
      ++ warned fred start_date "RRPONTSYD" "RRP (Reverse Repo)"
      ++ warned fred start_date "WRESBAL" "은행 지준금"
      ++ warned fred start_date "SOFR" "SOFR"
      ++ warned fred start_date "IORB" "IORB" ).
Proof.
  unfold fetch_liquidity_data, fetched, warned, ui_bind.
  destruct (fetch_data_with_ffill fred "RPONTSYD" start_date "RP (Repo)") as [d1 l1].
  destruct (fetch_data_with_ffill fred "RRPONTSYD" start_date "RRP (Reverse Repo)")
    as [d2 l2].
  destruct (fetch_data_with_ffill fred "WRESBAL" start_date "은행 지준금") as [d3 l3].
  destruct (fetch_data_with_ffill fred "SOFR" start_date "SOFR") as [d4 l4].
  destruct (fetch_data_with_ffill fred "IORB" start_date "IORB") as [d5 l5].
  cbn [fst snd].
  destruct (existsb undated [d1; d2; d3; d4; d5]);
    unfold ret; rewrite app_nil_r; reflexivity.
Qed.

(** C8. The provider raises on the reserve balances and answers the four
    other series.  The failed fetch yields the empty series with one warning
    that names the series (by its identifier when no name is given), and
    the four sibling fetches yield their series.
    The date filter of [fetch_liquidity_data] then raises on the frame
    joined with the undated empty series: no frame is returned, and [main]
    ends with the load failure after the warning.  The pipeline is aborted
    in the same way, without a warning, when the provider answers the series
    without any observation. *)
Theorem C8_failed_fetch_aborts_load :
  fetch_data_with_ffill failing_reserves "WRESBAL" 1 "은행 지준금"
  = ([], ["❌ 은행 지준금 수집 실패: Bad Request"]) /\
  fetch_data_with_ffill failing_reserves "WRESBAL" 1 ""
  = ([], ["❌ WRESBAL 수집 실패: Bad Request"]) /\
  fetch_data_with_ffill failing_reserves "RPONTSYD" 1 "RP (Repo)"
  = ([(1, lit 10); (2, lit 12)], []) /\
  fetch_data_with_ffill failing_reserves "RRPONTSYD" 1 "RRP (Reverse Repo)"
  = ([(1, lit 300)], []) /\
  fetch_data_with_ffill failing_reserves "SOFR" 1 "SOFR" = ([(1, lit 4)], []) /\
  fetch_data_with_ffill failing_reserves "IORB" 1 "IORB" = ([(1, lit 4)], []) /\
  fetch_liquidity_data failing_reserves 1
  = (Raise TypeError, ["❌ 은행 지준금 수집 실패: Bad Request"]) /\
  main_load failing_reserves 1
  = (LoadFailed TypeError, ["❌ 은행 지준금 수집 실패: Bad Request"]) /\
  fetch_data_with_ffill no_reserve_observation "WRESBAL" 1 "은행 지준금" = ([], []) /\
  fetch_liquidity_data no_reserve_observation 1 = (Raise TypeError, []) /\
  main_load no_reserve_observation 1 = (LoadFailed TypeError, []).
Proof.
  split; [reflexivity |]. split; [reflexivity |].
  split; [reflexivity |]. split; [reflexivity |].
  split; [reflexivity |]. split; [reflexivity |].
  split; [rewrite fetch_liquidity_data_unfold; reflexivity |].
  split; [unfold main_load; rewrite fetch_liquidity_data_unfold; reflexivity |].
  split; [reflexivity |].
  split; [rewrite fetch_liquidity_data_unfold; reflexivity |].
  unfold main_load. rewrite fetch_liquidity_data_unfold. reflexivity.
Qed.

(** ** Rolling averages *)

Lemma nth_rolling_mean (w i : nat) (col : list float) :
  (i < List.length col)%nat ->
  nth i (rolling_mean w col) NaN = mean (window w i col).
Proof.
  intro Hi. unfold rolling_mean.
  rewrite (nth_indep _ NaN (mean (window w 0 col)))
    by (rewrite length_map, length_seq; exact Hi).
  rewrite (map_nth (fun i => mean (window w i col))).
  rewrite seq_nth by exact Hi. reflexivity.
Qed.

Lemma window_length (w i : nat) (col : list float) :
  (i < List.length col)%nat ->
  List.length (window w i col) = Nat.min (i + 1) w.
Proof.
  intro Hi. unfold window. rewrite length_skipn, length_firstn. lia.
Qed.

Lemma window_expanding (w i : nat) (col : list float) :
  (i + 1 <= w)%nat -> window w i col = firstn (i + 1) col.
Proof.
  intro H. unfold window.
  replace (i + 1 - w)%nat with 0%nat by lia. reflexivity.
Qed.

(** The rows of the frame up to position [i] are the rows before the window
    followed by the window. *)
Lemma window_trailing (w i : nat) (col : list float) :
  firstn (i + 1) col = firstn (i + 1 - w) col ++ window w i col.
Proof.
  unfold window.
  rewrite <- (firstn_skipn (i + 1 - w) (firstn (i + 1) col)) at 1.
  f_equal. rewrite firstn_firstn. f_equal. lia.
Qed.

Lemma fold_left_fadd_Fin (xs : list Q) (a : Q) :
  exists s, fold_left fadd (map Fin xs) (Fin a) = Fin s
            /\ (s == a + fold_right Qplus 0 xs)%Q.
Proof.
  revert a. induction xs as [| x xs IH]; intro a; simpl.
  - exists a. split; [reflexivity | lra].
  - destruct (IH (a + x)%Q) as (s & Hs & Heq).
    exists s. split; [exact Hs | lra].
Qed.

Lemma mean_of_observations (win : list float) (xs : list Q) :
  filter notna win = map Fin xs -> xs <> [] ->
  exists m, mean win = Fin m /\ (m == plain_mean xs)%Q.
Proof.
  intros Hobs Hne. unfold mean. rewrite Hobs, length_map.
  destruct xs as [| x xs]; [contradiction |].
  change (Nat.leb 1 (List.length (x :: xs))) with true. cbv iota.
  unfold fsum, lit.
  destruct (fold_left_fadd_Fin (x :: xs) (inject_Z 0)) as (s & -> & Hs).
  unfold fdiv.
  assert (Hpos : (0 < inject_Z (Z.of_nat (List.length (x :: xs))))%Q).
  { unfold Qlt, inject_Z. simpl. lia. }
  assert (Hnz : Qeq_bool (inject_Z (Z.of_nat (List.length (x :: xs)))) 0 = false).
  { apply Qeq_bool_false. lra. }
  rewrite Hnz. eexists. split; [reflexivity |].
  unfold plain_mean. rewrite Hs.
  change (inject_Z 0) with 0%Q. rewrite Qplus_0_l. reflexivity.
Qed.

Lemma mean_without_observation (win : list float) :
  filter notna win = [] -> mean win = NaN.
Proof. intro H. unfold mean. rewrite H. reflexivity. Qed.

(** The rows of the augmented frame. *)
Lemma nth_error_combine_seq {A : Type} (l : list A) (s k : nat) :
  nth_error (combine (seq s (List.length l)) l) k
  = option_map (pair (s + k)%nat) (nth_error l k).
Proof.
  revert s k. induction l as [| x l IH]; intros s k.
  - destruct k; reflexivity.
  - destruct k; simpl.
    + rewrite Nat.add_0_r. reflexivity.
    + rewrite IH. replace (S s + k)%nat with (s + S k)%nat by lia. reflexivity.
Qed.

Lemma add_derived_nth (df : list Raw.Row) (k : nat) (r : Row) :
  nth_error (add_derived df) k = Some r ->
  exists x,
    nth_error df k = Some x /\
    r = mkRow (Raw.date x) (Raw.RP x) (Raw.RRP x) (Raw.Reserves x)
              (Raw.SOFR x) (Raw.IORB x) (spread_of x)
              (MA_at (map Raw.RP df) k)
              (MA_at (map Raw.RRP df) k)
              (MA_at (map Raw.Reserves df) k)
              (MA_at (map spread_of df) k).
Proof.
  unfold add_derived. rewrite nth_error_map, nth_error_combine_seq.
  destruct (nth_error df k) as [x |]; [| discriminate].
  simpl. intro H. injection H as <-. exists x. auto.
Qed.

Lemma add_derived_columns (df : list Raw.Row) :
  map RP (add_derived df) = map Raw.RP df /\
  map RRP (add_derived df) = map Raw.RRP df /\
  map Reserves (add_derived df) = map Raw.Reserves df /\
  map Spread_bps (add_derived df) = map spread_of df /\
  List.length (add_derived df) = List.length df.
Proof.
  unfold add_derived.
  assert (G : forall (B : Type) (f : Row -> B) (g : Raw.Row -> B) (F : nat -> Raw.Row -> Row),
             (forall i x, f (F i x) = g x) ->
             forall (l : list Raw.Row) (s : nat),
               map f (map (fun ir : nat * Raw.Row => let (i, r) := ir in F i r)
                          (combine (seq s (List.length l)) l)) = map g l).
  { intros B f g F HF l. induction l as [| x l IH]; intro s; simpl.
    - reflexivity.
    - rewrite HF, IH. reflexivity. }
  repeat split; try (apply G; reflexivity).
  rewrite length_map, length_combine, length_seq. lia.
Qed.

Lemma MA_at_window (col : list float) (i w : nat) (sel : MA -> float) :
  In (w, sel) windows -> (i < List.length col)%nat ->
  sel (MA_at col i) = mean (window w i col).
Proof.
  intros Hw Hi. unfold windows in Hw. simpl in Hw.
  destruct Hw as [H | [H | [H | []]]]; injection H as <- <-;
    unfold MA_at; simpl; apply nth_rolling_mean, Hi.
Qed.

(** C6, as stated, fails once a full window of history exists: on the
    primary lending volumes 1, 2, ..., 8 the MA7 of row 8 is 5, the mean of
    the last 7 rows, and not 4, the mean of the first min(8, 7) = 7 rows. *)
Lemma C6_not_the_first_rows :
  exists r m,
    nth_error (add_derived eight_rows) 7 = Some r /\
    MA7 (RP_MA r) = Fin m /\
    (m == 5)%Q /\
    firstn (Nat.min 8 7) (map RP (add_derived eight_rows))
    = map Fin [1; 2; 3; 4; 5; 6; 7]%Q /\
    (plain_mean [1; 2; 3; 4; 5; 6; 7] == 4)%Q /\
    ~ (m == plain_mean [1; 2; 3; 4; 5; 6; 7])%Q.
Proof.
  eexists. eexists.
  split; [reflexivity |]. split; [reflexivity |].
  split; [reflexivity |]. split; [reflexivity |].
  split; [reflexivity |].
  vm_compute. discriminate.
Qed.

(** C6, amended. In every aligned frame, each of the three rolling averages
    (windows 7, 30, 60) of each tracked column at row k = i + 1 is the plain
    mean of the values that are not missing among the last min(k, w) rows
    up to and including row k; while k <= w these rows are all the rows 1
    to k (the expanding window); the average is [nan] only when every value
    of the window is missing. *)
Theorem C6_trailing_window_mean
    (raw : list Raw.Row) (col : Row -> float) (ma : Row -> MA)
    (w : nat) (sel : MA -> float) (i : nat) (r : Row)
    (Hcol : In (col, ma) tracked) (Hw : In (w, sel) windows)
    (Hrow : nth_error (add_derived raw) i = Some r) :
  let column := map col (add_derived raw) in
  let win := window w i column in
  sel (ma r) = mean win /\
  List.length win = Nat.min (i + 1) w /\
  firstn (i + 1) column = firstn (i + 1 - w) column ++ win /\
  ((i + 1 <= w)%nat -> win = firstn (i + 1) column) /\
  (forall xs, filter notna win = map Fin xs -> xs <> [] ->
              exists m, sel (ma r) = Fin m /\ (m == plain_mean xs)%Q) /\
  (filter notna win = [] -> sel (ma r) = NaN).
Proof.
  intros column win.
  destruct (add_derived_columns raw) as (Crp & Crrp & Cres & Cspr & Clen).
  assert (Hi : (i < List.length column)%nat).
  { unfold column. rewrite length_map.
    apply nth_error_Some. rewrite Hrow. discriminate. }
  assert (Hsel : sel (ma r) = mean win).
  { destruct (add_derived_nth raw i r Hrow) as (x & _ & ->).
    unfold win, column in *. unfold tracked in Hcol. simpl in Hcol.
    destruct Hcol as [H | [H | [H | [H | []]]]]; injection H as <- <-;
      cbn [RP_MA RRP_MA Reserves_MA Spread_bps_MA];
      rewrite ?Crp, ?Crrp, ?Cres, ?Cspr in *;
      apply MA_at_window; assumption. }
  split; [exact Hsel |].
  split; [apply window_length, Hi |].
  split; [apply window_trailing |].
  split; [apply window_expanding |].
  split.
  - intros xs Hobs Hne. rewrite Hsel. apply mean_of_observations; assumption.
  - intro Hnone. rewrite Hsel. apply mean_without_observation, Hnone.
Qed.

(** Three observations 10, 20, 60: the MA60 of row 3 is their mean 30, the
    window being all three rows. *)
Lemma C6_three_observations :
  In (RP, RP_MA) tracked /\ In (60%nat, MA60) windows /\
  exists r m,
    nth_error (add_derived three_rows) 2 = Some r /\
    window 60 2 (map RP (add_derived three_rows)) = map Fin [10; 20; 60]%Q /\
    MA60 (RP_MA r) = Fin m /\
    (m == plain_mean [10; 20; 60])%Q /\
    (m == 30)%Q.
Proof.
  assert (Hcol : In (RP, RP_MA) tracked) by (left; reflexivity).
  assert (Hw : In (60%nat, MA60) windows) by (right; right; left; reflexivity).
  split; [exact Hcol |]. split; [exact Hw |].
  pose (r := nth 2 (add_derived three_rows) (sample_row 0 0 0 0)).
  assert (Hrow : nth_error (add_derived three_rows) 2 = Some r) by reflexivity.
  destruct (C6_trailing_window_mean three_rows RP RP_MA 60 MA60 2 r Hcol Hw Hrow)
    as (_ & _ & _ & _ & Hmean & _).
  destruct (Hmean [10; 20; 60]%Q) as (m & Hm & Heq);
    [reflexivity | discriminate |].
  exists r, m.
  split; [exact Hrow |]. split; [reflexivity |]. split; [exact Hm |].
  split; [exact Heq |].
  rewrite Heq. reflexivity.
Defined.

(** The MA60 of the first observation is that observation. *)
Example first_row_MA60 :
  exists r m,
    nth_error (add_derived three_rows) 0 = Some r /\
    RP r = Fin 10 /\ MA60 (RP_MA r) = Fin m /\ (m == 10)%Q.
Proof.
  eexists. eexists. repeat split; reflexivity.
Qed.

(** ** Alignment and forward fill *)

(** What forward fill puts at a position: the last value not missing at or
    before it, or the carried value when there is none. *)
Lemma ffill_from_nth (col : list float) (prev : float) (i : nat) (v : float) :
  nth_error (ffill_from prev col) i = Some v ->
  (exists j,
     (j <= i)%nat /\ nth_error col j = Some v /\ notna v = true /\
     forall j' x, (j < j' <= i)%nat -> nth_error col j' = Some x -> notna x = false)
  \/
  (v = prev /\
   forall j' x, (j' <= i)%nat -> nth_error col j' = Some x -> notna x = false).
Proof.
  revert prev i. induction col as [| x col IH]; intros prev i H.
  - destruct i; discriminate.
  - destruct i as [| i]; simpl in H.
    + injection H as <-. unfold fill, notna.
      destruct (isnan x) eqn:Ex.
      * right. split; [reflexivity |].
        intros j' y Hj Hy. assert (j' = 0)%nat as -> by lia.
        simpl in Hy. injection Hy as <-. unfold notna. rewrite Ex. reflexivity.
      * left. exists 0%nat. repeat split; auto.
        { rewrite Ex. reflexivity. }
        intros j' y Hj. lia.
    + apply IH in H. destruct H as [(j & Hj & Hv & Hn & Hafter) | (-> & Hall)].
      * left. exists (S j). repeat split; auto; try lia.
        intros j' y Hj' Hy. destruct j' as [| j']; [lia |].
        simpl in Hy. apply (Hafter j' y); [lia | exact Hy].
      * unfold fill. destruct (isnan x) eqn:Ex.
        { right. split; [reflexivity |].
          intros j' y Hj' Hy. destruct j' as [| j'].
          - simpl in Hy. injection Hy as <-. unfold notna. rewrite Ex. reflexivity.
          - simpl in Hy. apply (Hall j' y); [lia | exact Hy]. }
        { left. exists 0%nat. repeat split; auto; try lia.
          - unfold notna. rewrite Ex. reflexivity.
          - intros j' y Hj' Hy. destruct j' as [| j']; [lia |].
            simpl in Hy. apply (Hall j' y); [lia | exact Hy]. }
Qed.

Lemma at_date_In (data : Series) (d : Z) :
  notna (at_date data d) = true -> In (d, at_date data d) data.
Proof.
  induction data as [| [d' v] data IH]; simpl; intro H.
  - discriminate.
  - destruct (Z.eqb_spec d d') as [-> | Hne]; [left; reflexivity |].
    right. apply IH, H.
Qed.

Lemma In_at_date (data : Series) (d : Z) (v : float) :
  NoDup (map fst data) -> In (d, v) data -> at_date data d = v.
Proof.
  induction data as [| [d' v'] data IH]; simpl; intros Hnd Hin.
  - contradiction.
  - inversion Hnd as [| ? ? Hnotin Hnd']; subst.
    destruct Hin as [H | H].
    + injection H as -> ->. rewrite Z.eqb_refl. reflexivity.
    + destruct (Z.eqb_spec d d') as [-> | Hne].
      * exfalso. apply Hnotin. apply (in_map fst) in H. exact H.
      * apply IH; assumption.
Qed.

(** In a strictly increasing index, positions and dates are ordered alike. *)
Lemma sorted_nth_lt (index : list Z) (i j : nat) (a b : Z) :
  StronglySorted Z.lt index ->
  nth_error index i = Some a -> nth_error index j = Some b ->
  (i < j)%nat -> a < b.
Proof.
  intro Hs. revert i j. induction Hs as [| x index Hs IH Hall];
    intros i j Ha Hb Hij.
  - destruct i; discriminate.
  - destruct j as [| j]; [lia |].
    simpl in Hb. destruct i as [| i]; simpl in Ha.
    + injection Ha as <-. rewrite Forall_forall in Hall.
      apply Hall. eapply nth_error_In, Hb.
    + apply (IH i j); [assumption | assumption | lia].
Qed.

Lemma sorted_nth_le (index : list Z) (i j : nat) (a b : Z) :
  StronglySorted Z.lt index ->
  nth_error index i = Some a -> nth_error index j = Some b ->
  a <= b -> (i <= j)%nat.
Proof.
  intros Hs Ha Hb Hab.
  destruct (Nat.le_gt_cases i j) as [H | H]; [exact H |].
  pose proof (sorted_nth_lt index j i b a Hs Hb Ha H). lia.
Qed.

Lemma insert_date_In (d x : Z) (index : list Z) :
  In x (insert_date d index) <-> x = d \/ In x index.
Proof.
  induction index as [| y index IH]; simpl.
  - intuition.
  - destruct (Z.ltb_spec d y); [simpl; intuition |].
    destruct (Z.eqb_spec d y) as [-> | Hne]; simpl; [intuition |].
    rewrite IH. intuition.
Qed.

Lemma insert_date_sorted (d : Z) (index : list Z) :
  StronglySorted Z.lt index -> StronglySorted Z.lt (insert_date d index).
Proof.
  intro Hs. induction Hs as [| y index Hs IH Hall]; simpl.
  - constructor; constructor.
  - destruct (Z.ltb_spec d y) as [Hlt | Hge].
    + constructor; [constructor; assumption |].
      constructor; [exact Hlt |].
      rewrite Forall_forall in *. intros z Hz. specialize (Hall z Hz). lia.
    + destruct (Z.eqb_spec d y) as [-> | Hne]; [constructor; assumption |].
      constructor; [exact IH |].
      rewrite Forall_forall in *. intros z Hz.
      apply insert_date_In in Hz as [-> | Hz]; [lia | auto].
Qed.

Lemma union_indexes_sorted (all_data : list Series) :
  StronglySorted Z.lt (union_indexes all_data).
Proof.
  unfold union_indexes.
  induction (List.concat (map (map fst) all_data)) as [| d l IH]; simpl.
  - constructor.
  - apply insert_date_sorted, IH.
Qed.

(** The joined index holds exactly the dates of the series: an outer join. *)
Lemma union_indexes_In (all_data : list Series) (d : Z) :
  In d (union_indexes all_data) <->
  exists data, In data all_data /\ In d (map fst data).
Proof.
  unfold union_indexes.
  assert (H : forall l, In d (fold_right insert_date [] l) <-> In d l).
  { induction l as [| x l IH]; simpl; [tauto |].
    rewrite insert_date_In, IH. intuition. }
  rewrite H, in_concat. split.
  - intros (l & Hl & Hd). apply in_map_iff in Hl as (data & <- & Hdata).
    exists data. auto.
  - intros (data & Hdata & Hd). exists (map fst data).
    split; [apply in_map, Hdata | exact Hd].
Qed.

(** Row-wise forward fill is column-wise forward fill. *)
Lemma ffill_rows_columns (prev : Raw.Row) (df : list Raw.Row) :
  map Raw.date (ffill_rows prev df) = map Raw.date df /\
  map Raw.RP (ffill_rows prev df) = ffill_from (Raw.RP prev) (map Raw.RP df) /\
  map Raw.RRP (ffill_rows prev df) = ffill_from (Raw.RRP prev) (map Raw.RRP df) /\
  map Raw.Reserves (ffill_rows prev df)
  = ffill_from (Raw.Reserves prev) (map Raw.Reserves df) /\
  map Raw.SOFR (ffill_rows prev df) = ffill_from (Raw.SOFR prev) (map Raw.SOFR df) /\
  map Raw.IORB (ffill_rows prev df) = ffill_from (Raw.IORB prev) (map Raw.IORB df).
Proof.
  revert prev. induction df as [| r df IH]; intro prev; simpl.
  - repeat split.
  - destruct (IH (fill_row prev r)) as (H0 & H1 & H2 & H3 & H4 & H5).
    rewrite H0, H1, H2, H3, H4, H5. repeat split.
Qed.

(** The columns of the joined and filled frame, before rows are dropped. *)
Lemma df_ffill_columns (rp rrp reserves sofr iorb : Series) :
  let index := union_indexes [rp; rrp; reserves; sofr; iorb] in
  let df := df_ffill (DataFrame_of rp rrp reserves sofr iorb) in
  map Raw.date df = index /\
  map Raw.RP df = ffill (map (at_date rp) index) /\
  map Raw.RRP df = ffill (map (at_date rrp) index) /\
  map Raw.Reserves df = ffill (map (at_date reserves) index) /\
  map Raw.SOFR df = ffill (map (at_date sofr) index) /\
  map Raw.IORB df = ffill (map (at_date iorb) index).
Proof.
  intros index df. unfold df, df_ffill, DataFrame_of. fold index.
  destruct (ffill_rows_columns (Raw.mk 0 NaN NaN NaN NaN NaN)
              (map (fun d => Raw.mk d (at_date rp d) (at_date rrp d)
                                    (at_date reserves d) (at_date sofr d)
                                    (at_date iorb d)) index))
    as (H0 & H1 & H2 & H3 & H4 & H5).
  rewrite H0, H1, H2, H3, H4, H5, !map_map. simpl.
  rewrite map_id. unfold ffill. repeat split.
Qed.

(** In a column joined on a sorted index that holds the dates of the
    series and then filled, every cell is the most recent observation. *)
Lemma ffill_most_recent (data : Series) (index : list Z) (i : nat) (d : Z) (v : float) :
  NoDup (map fst data) ->
  StronglySorted Z.lt index ->
  (forall d', In d' (map fst data) -> In d' index) ->
  nth_error index i = Some d ->
  nth_error (ffill (map (at_date data) index)) i = Some v ->
  most_recent data d v.
Proof.
  intros Hnd Hs Hsub Hd Hv.
  assert (Hpos : forall d'' v'' (P : nat -> Prop),
             In (d'', v'') data ->
             (forall j', nth_error index j' = Some d'' -> P j') ->
             exists j', nth_error index j' = Some d'' /\ P j' /\
                        nth_error (map (at_date data) index) j' = Some v'').
  { intros d'' v'' P Hin HP.
    destruct (In_nth_error index d'') as [j' Hj'].
    { apply Hsub. apply (in_map fst) in Hin. exact Hin. }
    exists j'. split; [exact Hj' |]. split; [apply HP, Hj' |].
    rewrite nth_error_map, Hj'. simpl. f_equal. apply In_at_date; assumption. }
  apply ffill_from_nth in Hv.
  destruct Hv as [(j & Hj & Hcol & Hn & Hafter) | (-> & Hall)].
  - left. rewrite nth_error_map in Hcol.
    destruct (nth_error index j) as [d' |] eqn:Hd'; [| discriminate].
    simpl in Hcol. injection Hcol as <-.
    exists d'. split; [apply at_date_In, Hn |].
    split.
    { destruct (Nat.eq_dec j i) as [-> | Hne].
      - rewrite Hd in Hd'. injection Hd' as <-. lia.
      - pose proof (sorted_nth_lt index j i d' d Hs Hd' Hd). lia. }
    split; [exact Hn |].
    intros d'' v'' Hin [Hlo Hhi].
    destruct (Hpos d'' v'' (fun j' => (j < j' <= i)%nat) Hin) as (j' & Hj' & Hr & Hc).
    { intros j' Hj'. split.
      - destruct (Nat.le_gt_cases j' j) as [Hle | Hgt]; [| exact Hgt].
        destruct (Nat.eq_dec j' j) as [-> | Hne].
        + rewrite Hd' in Hj'. injection Hj' as <-. lia.
        + pose proof (sorted_nth_lt index j' j d'' d' Hs Hj' Hd'). lia.
      - apply (sorted_nth_le index j' i d'' d Hs Hj' Hd Hhi). }
    apply (Hafter j' v'' Hr Hc).
  - right. split; [reflexivity |].
    intros d'' v'' Hin Hle.
    destruct (Hpos d'' v'' (fun j' => (j' <= i)%nat) Hin) as (j' & Hj' & Hr & Hc).
    { intros j' Hj'. apply (sorted_nth_le index j' i d'' d Hs Hj' Hd Hle). }
    apply (Hall j' v'' Hr Hc).
Qed.

Lemma map_filter_comm {A B : Type} (f : A -> B) (p : B -> bool) (l : list A) :
  map f (filter (fun x => p (f x)) l) = filter p (map f l).
Proof.
  induction l as [| x l IH]; simpl; [reflexivity |].
  destruct (p (f x)); simpl; rewrite IH; reflexivity.
Qed.

Lemma map_numbered {A B C : Type} (f : B -> C) (g : A -> C) (F : nat -> A -> B) :
  (forall i x, f (F i x) = g x) ->
  forall (l : list A) (s : nat),
    map f (map (fun ir : nat * A => let (i, r) := ir in F i r)
               (combine (seq s (List.length l)) l)) = map g l.
Proof.
  intros HF l. induction l as [| x l IH]; intro s; simpl.
  - reflexivity.
  - rewrite HF, IH. reflexivity.
Qed.

Lemma add_derived_dates (df : list Raw.Row) :
  map date (add_derived df) = map Raw.date df.
Proof.
  unfold add_derived. apply map_numbered. reflexivity.
Qed.

(** Every row of the joined and filled frame holds, in each raw column, the
    most recent observation of the series of that column. *)
Lemma df_ffill_row (rp rrp reserves sofr iorb : Series) (x : Raw.Row) :
  NoDup (map fst rp) -> NoDup (map fst rrp) -> NoDup (map fst reserves) ->
  NoDup (map fst sofr) -> NoDup (map fst iorb) ->
  In x (df_ffill (DataFrame_of rp rrp reserves sofr iorb)) ->
  most_recent rp (Raw.date x) (Raw.RP x) /\
  most_recent rrp (Raw.date x) (Raw.RRP x) /\
  most_recent reserves (Raw.date x) (Raw.Reserves x) /\
  most_recent sofr (Raw.date x) (Raw.SOFR x) /\
  most_recent iorb (Raw.date x) (Raw.IORB x).
Proof.
  intros N1 N2 N3 N4 N5 Hin.
  destruct (df_ffill_columns rp rrp reserves sofr iorb)
    as (C0 & C1 & C2 & C3 & C4 & C5).
  set (index := union_indexes [rp; rrp; reserves; sofr; iorb]) in *.
  set (df := df_ffill (DataFrame_of rp rrp reserves sofr iorb)) in *.
  apply In_nth_error in Hin as [i Hi].
  assert (Hd : nth_error index i = Some (Raw.date x)).
  { rewrite <- C0, nth_error_map, Hi. reflexivity. }
  assert (Hs : StronglySorted Z.lt index) by apply union_indexes_sorted.
  assert (Hsub : forall data, In data [rp; rrp; reserves; sofr; iorb] ->
                              forall d', In d' (map fst data) -> In d' index).
  { intros data Hdata d' Hd'. apply union_indexes_In. exists data. auto. }
  repeat split.
  - apply (ffill_most_recent rp index i); auto.
    + apply Hsub. simpl. auto.
    + rewrite <- C1, nth_error_map, Hi. reflexivity.
  - apply (ffill_most_recent rrp index i); auto.
    + apply Hsub. simpl. auto.
    + rewrite <- C2, nth_error_map, Hi. reflexivity.
  - apply (ffill_most_recent reserves index i); auto.
    + apply Hsub. simpl. auto.
    + rewrite <- C3, nth_error_map, Hi. reflexivity.
  - apply (ffill_most_recent sofr index i); auto.
    + apply Hsub. simpl. auto.
    + rewrite <- C4, nth_error_map, Hi. reflexivity.
  - apply (ffill_most_recent iorb index i); auto.
    + apply Hsub. simpl. tauto.
    + rewrite <- C5, nth_error_map, Hi. reflexivity.
Qed.

(** C7. For five series with unique dates, the aligned frame has one row per
    date of the sorted union of their dates that is not before the start
    date; in each such row every raw column holds the most recent
    observation of its series that is not missing at or before the date of
    the row, observations before the start date included (the fill comes
    before the drop), or [nan] when there is none; and the spread column is
    (market rate - administered rate) * 100. *)
Theorem C7_forward_fill_law
    (start_date : Z) (rp rrp reserves sofr iorb : Series)
    (Hrp : NoDup (map fst rp)) (Hrrp : NoDup (map fst rrp))
    (Hreserves : NoDup (map fst reserves))
    (Hsofr : NoDup (map fst sofr)) (Hiorb : NoDup (map fst iorb)) :
  let index := union_indexes [rp; rrp; reserves; sofr; iorb] in
  let df := add_derived (align start_date rp rrp reserves sofr iorb) in
  StronglySorted Z.lt index /\
  (forall d, In d index <->
             exists data, In data [rp; rrp; reserves; sofr; iorb]
                          /\ In d (map fst data)) /\
  map date df = filter (fun d => start_date <=? d) index /\
  forall r, In r df ->
    start_date <= date r /\
    most_recent rp (date r) (RP r) /\
    most_recent rrp (date r) (RRP r) /\
    most_recent reserves (date r) (Reserves r) /\
    most_recent sofr (date r) (SOFR r) /\
    most_recent iorb (date r) (IORB r) /\
    Spread_bps r = ((SOFR r - IORB r) * lit 100)%float.
Proof.
  intros index df.
  split; [apply union_indexes_sorted |].
  split; [apply union_indexes_In |].
  split.
  - unfold df, align, from_date.
    rewrite add_derived_dates.
    rewrite (map_filter_comm Raw.date (fun d => start_date <=? d)).
    destruct (df_ffill_columns rp rrp reserves sofr iorb) as (C0 & _).
    rewrite C0. reflexivity.
  - intros r Hr. apply In_nth_error in Hr as [k Hk].
    destruct (add_derived_nth _ k r Hk) as (x & Hx & ->). simpl.
    apply nth_error_In in Hx. unfold align, from_date in Hx.
    apply filter_In in Hx as [Hx Hstart].
    apply Z.leb_le in Hstart.
    destruct (df_ffill_row rp rrp reserves sofr iorb x Hrp Hrrp Hreserves
                Hsofr Hiorb Hx) as (M1 & M2 & M3 & M4 & M5).
    repeat split; assumption.
Qed.

(** The sample series from day 3 on: the row of day 3 carries the primary
    lending volume and the reserves of day 1 and the reverse lending volume
    of day 2, all observed before the start date. *)
Lemma C7_sample_alignment :
  NoDup (map fst sample_rp) /\ NoDup (map fst sample_rrp) /\
  NoDup (map fst sample_reserves) /\
  NoDup (map fst sample_sofr) /\ NoDup (map fst sample_iorb) /\
  let df := add_derived
              (align 3 sample_rp sample_rrp sample_reserves sample_sofr sample_iorb) in
  map date df = [3; 5; 6] /\
  map RP df = [lit 10; lit 12; lit 12] /\
  map RRP df = [lit 300; lit 310; lit 310] /\
  map Reserves df = [lit 3400; lit 3400; lit 3300] /\
  (forall r, In r df ->
             most_recent sample_rp (date r) (RP r) /\
             most_recent sample_reserves (date r) (Reserves r)).
Proof.
  assert (N1 : NoDup (map fst sample_rp)) by unique_dates.
  assert (N2 : NoDup (map fst sample_rrp)) by unique_dates.
  assert (N3 : NoDup (map fst sample_reserves)) by unique_dates.
  assert (N4 : NoDup (map fst sample_sofr)) by unique_dates.
  assert (N5 : NoDup (map fst sample_iorb)) by unique_dates.
  repeat (split; [assumption |]).
  destruct (C7_forward_fill_law 3 sample_rp sample_rrp sample_reserves
              sample_sofr sample_iorb N1 N2 N3 N4 N5)
    as (_ & _ & Hdates & Hrows).
  intro df. split; [exact Hdates |].
  split; [reflexivity |]. split; [reflexivity |]. split; [reflexivity |].
  intros r Hr. destruct (Hrows r Hr) as (_ & M1 & _ & M3 & _).
  split; assumption.
Defined.

(** ** The frame of the whole pipeline *)

Lemma ffill_from_length (prev : float) (col : list float) :
  List.length (ffill_from prev col) = List.length col.
Proof.
  revert prev. induction col as [| x col IH]; intro prev; simpl.
  - reflexivity.
  - rewrite IH. reflexivity.
Qed.

Lemma series_ffill_dates (data : Series) :
  map fst (series_ffill data) = map fst data.
Proof.
  unfold series_ffill, ffill.
  assert (H : forall (ds : list Z) (vs : list float),
             List.length ds = List.length vs -> map fst (combine ds vs) = ds).
  { induction ds as [| d ds IH]; intros [| v vs] Hlen; simpl in *;
      try reflexivity; try discriminate.
    rewrite IH by lia. reflexivity. }
  apply H. rewrite ffill_from_length, !length_map. reflexivity.
Qed.

(** A fetched series has unique dates when the provider's answer has. *)
Lemma fetched_unique_dates (fred : Provider) (start_date : Z)
    (series_id name : string) :
  (forall data, fred series_id start_date = Returns data -> NoDup (map fst data)) ->
  NoDup (map fst (fetched fred start_date series_id name)).
Proof.
  intro Hnd. unfold fetched, fetch_data_with_ffill.
  destruct (fred series_id start_date) as [e | data]; simpl; [constructor |].
  destruct (Nat.ltb 0 (List.length data)); simpl; [| constructor].
  rewrite series_ffill_dates. apply Hnd. reflexivity.
Qed.

(** The forward-fill law on the frame [fetch_liquidity_data] returns, with
    respect to the five fetched series. *)
Lemma fetch_liquidity_data_most_recent (fred : Provider) (start_date : Z) (r : Row) :
  (forall series_id data,
     fred series_id start_date = Returns data -> NoDup (map fst data)) ->
  forall df,
  fst (fetch_liquidity_data fred start_date) = Value df ->
  In r df ->
  start_date <= date r /\
  most_recent (fetched fred start_date "RPONTSYD" "RP (Repo)") (date r) (RP r) /\
  most_recent (fetched fred start_date "RRPONTSYD" "RRP (Reverse Repo)")
              (date r) (RRP r) /\
  most_recent (fetched fred start_date "WRESBAL" "은행 지준금")
              (date r) (Reserves r).
Proof.
  intros Hnd df Hdf Hr. rewrite fetch_liquidity_data_unfold in Hdf. cbn [fst] in Hdf.
  destruct (existsb undated _); [discriminate Hdf |]. injection Hdf as <-.
  apply In_nth_error in Hr as [k Hk].
  destruct (add_derived_nth _ k r Hk) as (x & Hx & ->). simpl.
  apply nth_error_In in Hx. unfold align, from_date in Hx.
  apply filter_In in Hx as [Hx Hstart]. apply Z.leb_le in Hstart.
  destruct (df_ffill_row _ _ _ _ _ x
              (fetched_unique_dates fred start_date _ _ (Hnd _))
              (fetched_unique_dates fred start_date _ _ (Hnd _))
              (fetched_unique_dates fred start_date _ _ (Hnd _))
              (fetched_unique_dates fred start_date _ _ (Hnd _))
              (fetched_unique_dates fred start_date _ _ (Hnd _)) Hx)
    as (M1 & M2 & M3 & _).
  repeat split; assumption.
Qed.

(** * Further properties of the pipeline *)

(** ** Missing values and the classifier *)

Lemma fsub_NaN_l (b : float) : (NaN - b)%float = NaN.
Proof. destruct b; reflexivity. Qed.

Lemma flt_NaN_l (b : float) : (NaN < b)%float = false.
Proof. reflexivity. Qed.

Lemma flt_NaN_r (a : float) : (a < NaN)%float = false.
Proof. destruct a; reflexivity. Qed.

(** The change of the classifier is [nan] or 0 when the latest reserve
    balance is missing: never below -5. *)
Lemma res_change_of_missing (df : DataFrame) (latest : Row) (change : float) :
  Reserves latest = NaN ->
  res_change_30d df latest = Some change ->
  (change < lit (-5))%float = false.
Proof.
  intros Hnan. unfold res_change_30d.
  destruct (Nat.leb 30 (List.length df)).
  - destruct (iloc_neg (map Reserves df) 30) as [ref |]; simpl; [| discriminate].
    intro H. injection H as <-. rewrite Hnan, fsub_NaN_l. reflexivity.
  - intro H. injection H as <-. reflexivity.
Qed.

(** The overall assessment of a set of four scores. *)
Lemma assess_scores (df : DataFrame) (a : Assessment) :
  assess_liquidity_status df = Some a ->
  exists latest change,
    iloc_neg df 1 = Some latest /\
    res_change_30d df latest = Some change /\
    assessments a =
      [ ("RP", rp_status (RP latest));
        ("RRP", rrp_status (RRP latest));
        ("Reserves", res_status (Reserves latest) change);
        ("Spread", spread_status (Spread_bps latest)) ] /\
    overall a = overall_of (score (rp_status (RP latest))
                            + score (rrp_status (RRP latest))
                            + score (res_status (Reserves latest) change)
                            + score (spread_status (Spread_bps latest))).
Proof.
  intro Ha. destruct (assess_inv df a Ha) as (latest & change & Hl & Hc & Has & Hov).
  exists latest, change. repeat split; try assumption.
  rewrite Hov, Has, total_score_four. reflexivity.
Qed.

Lemma status_of_missing :
  classified (rp_status NaN) Normal /\
  classified (rrp_status NaN) Normal /\
  classified (spread_status NaN) Normal.
Proof. repeat split. Qed.

Lemma res_status_of_missing (df : DataFrame) (latest : Row) (change : float) :
  Reserves latest = NaN ->
  res_change_30d df latest = Some change ->
  classified (res_status (Reserves latest) change) Normal.
Proof.
  intros Hn Hc. pose proof (res_change_of_missing df latest change Hn Hc) as Hlt.
  unfold res_status. rewrite Hn, Hlt. split; reflexivity.
Qed.

(** Extra. A latest value that is missing is never a reason for concern to the
    classifier: the indicator whose latest value is [nan] is classified
    normal with score 3, so a latest row whose four tracked values are all
    missing yields the full composite score 12 and the overall level
    NORMAL. *)
Theorem missing_value_is_scored_normal (df : DataFrame) (latest : Row) (a : Assessment)
    (Hlast : iloc_neg df 1 = Some latest)
    (Ha : assess_liquidity_status df = Some a) :
  (RP latest = NaN -> exists st, getitem (assessments a) "RP" = Some st
                                 /\ classified st Normal) /\
  (RRP latest = NaN -> exists st, getitem (assessments a) "RRP" = Some st
                                  /\ classified st Normal) /\
  (Reserves latest = NaN -> exists st, getitem (assessments a) "Reserves" = Some st
                                       /\ classified st Normal) /\
  (Spread_bps latest = NaN -> exists st, getitem (assessments a) "Spread" = Some st
                                         /\ classified st Normal) /\
  (RP latest = NaN -> RRP latest = NaN -> Reserves latest = NaN ->
   Spread_bps latest = NaN ->
   overall_score (overall a) = 12 /\ overall_level (overall a) = "NORMAL").
Proof.
  destruct (assess_scores df a Ha) as (latest' & change & Hl & Hc & Has & Hov).
  rewrite Hlast in Hl. injection Hl as <-.
  destruct status_of_missing as (Srp & Srrp & Sspread).
  rewrite Has, Hov.
  split; [intros ->; eexists; split; [reflexivity | exact Srp] |].
  split; [intros ->; eexists; split; [reflexivity | exact Srrp] |].
  split.
  { intro Hn. eexists. split; [reflexivity |].
    apply (res_status_of_missing df); assumption. }
  split; [intros ->; eexists; split; [reflexivity | exact Sspread] |].
  intros H1 H2 H3 H4.
  destruct (res_status_of_missing df latest change H3 Hc) as [_ ->].
  rewrite H1, H2, H4. split; reflexivity.
Qed.

(** The frame of one row without any value gets the full score. *)
Lemma missing_row_is_scored_normal :
  iloc_neg missing_frame 1 = Some missing_row /\
  exists a,
    assess_liquidity_status missing_frame = Some a /\
    overall_score (overall a) = 12 /\ overall_level (overall a) = "NORMAL".
Proof.
  assert (Hl : iloc_neg missing_frame 1 = Some missing_row) by reflexivity.
  split; [exact Hl |].
  destruct (assess_liquidity_status missing_frame) as [a |] eqn:Ha;
    [| vm_compute in Ha; discriminate Ha].
  exists a. split; [reflexivity |].
  apply (missing_value_is_scored_normal missing_frame missing_row a Hl Ha);
    reflexivity.
Defined.

(** ** Rows of the aligned frame *)

(** The rows of the aligned frame come from the rows of the joined and
    filled frame. *)
Lemma add_derived_align_row (start_date : Z) (rp rrp reserves sofr iorb : Series)
    (r : Row) :
  In r (add_derived (align start_date rp rrp reserves sofr iorb)) ->
  exists x,
    In x (df_ffill (DataFrame_of rp rrp reserves sofr iorb)) /\
    start_date <= Raw.date x /\
    date r = Raw.date x /\ RP r = Raw.RP x /\ RRP r = Raw.RRP x /\
    Reserves r = Raw.Reserves x /\ SOFR r = Raw.SOFR x /\ IORB r = Raw.IORB x /\
    Spread_bps r = ((Raw.SOFR x - Raw.IORB x) * lit 100)%float.
Proof.
  intro Hr. apply In_nth_error in Hr as [k Hk].
  destruct (add_derived_nth _ k r Hk) as (x & Hx & ->).
  apply nth_error_In in Hx. unfold align, from_date in Hx.
  apply filter_In in Hx as [Hx Hstart]. apply Z.leb_le in Hstart.
  exists x. repeat split; assumption.
Qed.

Lemma iloc_neg_In {A : Type} (l : list A) (k : nat) (x : A) :
  iloc_neg l k = Some x -> In x l.
Proof.
  unfold iloc_neg.
  destruct (Nat.leb 1 k && Nat.leb k (List.length l))%bool; [| discriminate].
  apply nth_error_In.
Qed.

(** ** The overall level and the risk signals *)

(** Whatever the length of the frame, the risk-signal list starts with the
    entries of the indicators scored at most 1 and goes on with abrupt-move
    entries only. *)
Lemma risk_signals_shape (df : DataFrame) (a : Assessment) :
  assess_liquidity_status df = Some a ->
  exists moves,
    risk_signals df a = Some (level_signals a ++ moves) /\
    forall s, In s moves -> exists name change, s = AbruptMove name change.
Proof.
  intro Ha. destruct (assess_inv df a Ha) as (latest & change & _ & _ & Has & _).
  unfold risk_signals. rewrite (indicator_signals_four a _ _ _ _ Has).
  unfold bind.
  destruct (Nat.le_gt_cases 7 (List.length df)) as [Hlen | Hlen].
  - destruct (abrupt_signals_long df (level_signals a) Hlen)
      as (c1 & c2 & _ & _ & ->).
    eexists. split; [reflexivity |].
    intros s Hs. apply in_app_iff in Hs.
    unfold abrupt in Hs.
    destruct (fabs c1 > lit 50)%float, (fabs c2 > lit 30)%float;
      simpl in Hs; intuition (subst; eauto).
  - rewrite (abrupt_signals_short df _ Hlen).
    exists []. rewrite app_nil_r. split; [reflexivity |]. intros s [].
Qed.

(** The entries of the four indicators, one by one. *)
Lemma level_signals_four (a : Assessment) (rp rrp res spread : Status) :
  assessments a = [("RP", rp); ("RRP", rrp); ("Reserves", res); ("Spread", spread)] ->
  level_signals a =
    (if score rp <=? 1 then [IndicatorRisk "RP" (message rp)] else [])
    ++ (if score rrp <=? 1 then [IndicatorRisk "RRP" (message rrp)] else [])
    ++ (if score res <=? 1 then [IndicatorRisk "Reserves" (message res)] else [])
    ++ (if score spread <=? 1 then [IndicatorRisk "Spread" (message spread)] else []).
Proof.
  intro Has. unfold level_signals. rewrite Has. simpl.
  rewrite app_nil_r. reflexivity.
Qed.

(** Extra. What the risk-signal section shows is consistent with the overall
    level.  The all-clear line is shown only when the composite score is at
    least 8, hence never under the overall levels WARNING and DANGER; under
    these two levels at least one indicator entry is shown, and at least
    three under DANGER; under the overall level NORMAL at most one indicator
    entry is shown. *)
Theorem overall_level_and_signals (df : DataFrame) (Hrow : df <> []) :
  exists a shown,
    assess_liquidity_status df = Some a /\
    risk_section df = Some shown /\
    (shown = [success "✅ 현재 심각한 위험 신호 없음"] ->
     8 <= overall_score (overall a)) /\
    (overall_score (overall a) < 7 ->
     exists indicator text, In (warning (IndicatorRisk indicator text)) shown) /\
    (overall_score (overall a) < 4 -> (3 <= List.length (level_signals a))%nat) /\
    (10 <= overall_score (overall a) -> (List.length (level_signals a) <= 1)%nat).
Proof.
  destruct (assess_total df Hrow) as [a Ha].
  destruct (assess_scores df a Ha) as (latest & change & _ & _ & Has & Hov).
  destruct (risk_signals_shape df a Ha) as (moves & Hsig & Hmoves).
  pose proof (level_signals_four a _ _ _ _ Has) as Hlev.
  pose proof (classified_score_range _ _ (rp_status_bands (RP latest))) as R1.
  pose proof (classified_score_range _ _ (rrp_status_bands (RRP latest))) as R2.
  pose proof (classified_score_range _ _ (res_status_bands (Reserves latest) change)) as R3.
  pose proof (classified_score_range _ _ (spread_status_bands (Spread_bps latest))) as R4.
  assert (Hscore : overall_score (overall a)
                   = score (rp_status (RP latest)) + score (rrp_status (RRP latest))
                     + score (res_status (Reserves latest) change)
                     + score (spread_status (Spread_bps latest))).
  { rewrite Hov. apply overall_of_score. }
  exists a, (show_signals (level_signals a ++ moves)).
  split; [exact Ha |].
  split; [unfold risk_section; rewrite Ha; simpl; rewrite Hsig; reflexivity |].
  rewrite Hscore, Hlev. clear Hscore Hlev Hov Has Hsig.
  set (s1 := score (rp_status (RP latest))) in *.
  set (s2 := score (rrp_status (RRP latest))) in *.
  set (s3 := score (res_status (Reserves latest) change)) in *.
  set (s4 := score (spread_status (Spread_bps latest))) in *.
  repeat split.
  - unfold show_signals.
    destruct (s1 <=? 1) eqn:E1; [intro H; simpl in H; discriminate H |].
    destruct (s2 <=? 1) eqn:E2; [intro H; simpl in H; discriminate H |].
    destruct (s3 <=? 1) eqn:E3; [intro H; simpl in H; discriminate H |].
    destruct (s4 <=? 1) eqn:E4; [intro H; simpl in H; discriminate H |].
    intros _. apply Z.leb_gt in E1, E2, E3, E4. lia.
  - intro Hlow. unfold show_signals.
    destruct (s1 <=? 1) eqn:E1;
      [do 2 eexists; simpl; left; reflexivity |].
    destruct (s2 <=? 1) eqn:E2;
      [do 2 eexists; simpl; left; reflexivity |].
    destruct (s3 <=? 1) eqn:E3;
      [do 2 eexists; simpl; left; reflexivity |].
    destruct (s4 <=? 1) eqn:E4;
      [do 2 eexists; simpl; left; reflexivity |].
    apply Z.leb_gt in E1, E2, E3, E4. lia.
  - intro Hlow.
    destruct (Z.leb_spec s1 1), (Z.leb_spec s2 1), (Z.leb_spec s3 1),
      (Z.leb_spec s4 1); simpl; lia.
  - intro Hhigh.
    destruct (Z.leb_spec s1 1), (Z.leb_spec s2 1), (Z.leb_spec s3 1),
      (Z.leb_spec s4 1); simpl; lia.
Qed.

(** On the sample frame (scores 0, 3, 1, 3, composite 7) two indicator
    entries are shown. *)
Lemma mixed_frame_shows_two_entries :
  mixed_frame <> [] /\
  exists a shown,
    assess_liquidity_status mixed_frame = Some a /\
    risk_section mixed_frame = Some shown /\
    List.length shown = 2%nat /\
    shown <> [success "✅ 현재 심각한 위험 신호 없음"].
Proof.
  assert (Hrow : mixed_frame <> []) by discriminate.
  split; [exact Hrow |].
  destruct (overall_level_and_signals mixed_frame Hrow)
    as (a & shown & Ha & Hshown & Hclear & _).
  exists a, shown. split; [exact Ha |]. split; [exact Hshown |].
  split.
  - vm_compute in Hshown. injection Hshown as <-. reflexivity.
  - intro Heq. apply Hclear in Heq.
    vm_compute in Ha. injection Ha as <-. vm_compute in Heq. apply Heq. reflexivity.
Defined.

(** ** No gap once a series has started *)

Lemma most_recent_available (data : Series) (d : Z) (v : float) :
  most_recent data d v ->
  (notna v = true <->
   exists d0 v0, In (d0, v0) data /\ d0 <= d /\ notna v0 = true).
Proof.
  intros [(d' & Hin & Hle & Hn & _) | (-> & Hnone)].
  - split; [intros _; exists d', v; auto | intros _; exact Hn].
  - split; [discriminate |].
    intros (d0 & v0 & Hin & Hle & Hn).
    rewrite (Hnone d0 v0 Hin Hle) in Hn. discriminate.
Qed.

(** Extra. In the aligned frame a raw column has a value in a row exactly
    when its series has an observation that is not missing at or before the
    date of the row: the column is missing before the series starts and has
    no gap afterwards. *)
Theorem no_gap_once_started
    (start_date : Z) (rp rrp reserves sofr iorb : Series)
    (Hrp : NoDup (map fst rp)) (Hrrp : NoDup (map fst rrp))
    (Hreserves : NoDup (map fst reserves))
    (Hsofr : NoDup (map fst sofr)) (Hiorb : NoDup (map fst iorb))
    (r : Row)
    (Hr : In r (add_derived (align start_date rp rrp reserves sofr iorb))) :
  let started (data : Series) :=
    exists d0 v0, In (d0, v0) data /\ d0 <= date r /\ notna v0 = true in
  (notna (RP r) = true <-> started rp) /\
  (notna (RRP r) = true <-> started rrp) /\
  (notna (Reserves r) = true <-> started reserves) /\
  (notna (SOFR r) = true <-> started sofr) /\
  (notna (IORB r) = true <-> started iorb).
Proof.
  intro started. unfold started.
  destruct (add_derived_align_row _ _ _ _ _ _ r Hr)
    as (x & Hx & _ & -> & -> & -> & -> & -> & -> & _).
  destruct (df_ffill_row rp rrp reserves sofr iorb x Hrp Hrrp Hreserves
              Hsofr Hiorb Hx) as (M1 & M2 & M3 & M4 & M5).
  repeat split; try (apply most_recent_available; assumption);
    apply (proj2 (most_recent_available _ _ _ ltac:(eassumption))).
Qed.

(** On the sample series from day 3 on, the first row has a primary lending
    volume: the series started on day 1. *)
Lemma sample_rp_started :
  NoDup (map fst sample_rp) /\ NoDup (map fst sample_rrp) /\
  NoDup (map fst sample_reserves) /\
  NoDup (map fst sample_sofr) /\ NoDup (map fst sample_iorb) /\
  exists r,
    In r (add_derived
            (align 3 sample_rp sample_rrp sample_reserves sample_sofr sample_iorb)) /\
    date r = 3 /\
    notna (RP r) = true /\
    exists d0 v0, In (d0, v0) sample_rp /\ d0 <= date r /\ notna v0 = true.
Proof.
  assert (N1 : NoDup (map fst sample_rp)) by unique_dates.
  assert (N2 : NoDup (map fst sample_rrp)) by unique_dates.
  assert (N3 : NoDup (map fst sample_reserves)) by unique_dates.
  assert (N4 : NoDup (map fst sample_sofr)) by unique_dates.
  assert (N5 : NoDup (map fst sample_iorb)) by unique_dates.
  repeat (split; [assumption |]).
  pose (r := nth 0 (add_derived
                      (align 3 sample_rp sample_rrp sample_reserves sample_sofr
                             sample_iorb))
                 missing_row).
  assert (Hr : In r (add_derived
                       (align 3 sample_rp sample_rrp sample_reserves sample_sofr
                              sample_iorb)))
    by (left; reflexivity).
  exists r. split; [exact Hr |]. split; [reflexivity |]. split; [reflexivity |].
  destruct (no_gap_once_started 3 _ _ _ _ _ N1 N2 N3 N4 N5 r Hr) as (Hgap & _).
  apply Hgap. reflexivity.
Defined.

(** ** The 30-row changes of the AI context *)

Lemma change_of_value (l : DataFrame) (latest : Row) (col : string)
    (f : Row -> float) :
  getitem columns col = Some f ->
  change_of l latest col = Some (change_since l latest f).
Proof.
  intro Hf. unfold change_of, change_since, getcol, getval. rewrite Hf.
  destruct l as [| first [| second l]]; try reflexivity.
  cbn [List.length Nat.leb bind map iloc_0 nth_error].
  destruct (f first != lit 0)%float; reflexivity.
Qed.

Lemma tail_first {A : Type} (n : nat) (l : list A) :
  (1 <= n <= List.length l)%nat -> iloc_0 (tail n l) = iloc_neg l n.
Proof.
  intros [H1 Hn]. unfold iloc_0, tail, iloc_neg.
  rewrite nth_error_skipn, Nat.add_0_r.
  rewrite (proj2 (Nat.leb_le _ _) H1), (proj2 (Nat.leb_le _ _) Hn). reflexivity.
Qed.

Lemma changes_30d_value (df : DataFrame) (latest : Row) :
  iloc_neg df 1 = Some latest ->
  changes_30d df =
  Some [ ("RP", change_since (last_30d df) latest RP);
         ("RRP", change_since (last_30d df) latest RRP);
         ("Reserves", change_since (last_30d df) latest Reserves);
         ("Spread_bps", change_since (last_30d df) latest Spread_bps) ].
Proof.
  intro Hl. unfold changes_30d. rewrite Hl. cbn [bind changes_loop].
  rewrite (change_of_value _ _ "RP" RP eq_refl). cbn [bind].
  rewrite (change_of_value _ _ "RRP" RRP eq_refl). cbn [bind].
  rewrite (change_of_value _ _ "Reserves" Reserves eq_refl). cbn [bind].
  rewrite (change_of_value _ _ "Spread_bps" Spread_bps eq_refl). reflexivity.
Qed.

Lemma fne_zero_false (x : float) : feq x (lit 0) -> (x != lit 0)%float = false.
Proof.
  destruct x as [q | | |]; simpl; try contradiction.
  intro H. apply Qeq_bool_iff in H. unfold lit. rewrite H. reflexivity.
Qed.

(** Extra. The 30-row changes that [generate_liquidity_context] and
    [generate_gemini_analysis] put in their text are always defined on a
    frame with a row: the dict has the four keys in order; the reference row
    is [iloc[-30]] when the frame has 30 rows or more and the first row of
    the frame otherwise; a change whose reference value is 0 is 0 (never
    infinite), and on a frame of one row all four changes are 0. *)
Theorem changes_30d_guarded (df : DataFrame) (Hrow : df <> []) :
  exists latest first c_rp c_rrp c_res c_spread,
    iloc_neg df 1 = Some latest /\
    iloc_0 (last_30d df) = Some first /\
    ((30 <= List.length df)%nat -> iloc_neg df 30 = Some first) /\
    ((List.length df < 30)%nat -> nth_error df 0 = Some first) /\
    changes_30d df = Some [ ("RP", c_rp); ("RRP", c_rrp);
                            ("Reserves", c_res); ("Spread_bps", c_spread) ] /\
    (feq (RP first) (lit 0) -> c_rp = lit 0) /\
    (feq (RRP first) (lit 0) -> c_rrp = lit 0) /\
    (feq (Reserves first) (lit 0) -> c_res = lit 0) /\
    (feq (Spread_bps first) (lit 0) -> c_spread = lit 0) /\
    (List.length df = 1%nat ->
     c_rp = lit 0 /\ c_rrp = lit 0 /\ c_res = lit 0 /\ c_spread = lit 0).
Proof.
  destruct (iloc_neg_Some df 1) as [latest Hl].
  { destruct df; [contradiction | simpl; lia]. }
  assert (Hfirst : exists first,
             iloc_0 (last_30d df) = Some first /\
             ((30 <= List.length df)%nat -> iloc_neg df 30 = Some first) /\
             ((List.length df < 30)%nat -> nth_error df 0 = Some first)).
  { unfold last_30d. destruct (Nat.leb_spec 30 (List.length df)) as [H30 | H30].
    - destruct (iloc_neg_Some df 30) as [first Hf]; [lia |].
      exists first. rewrite tail_first by lia.
      split; [exact Hf |]. split; [intros _; exact Hf | lia].
    - destruct df as [| first df]; [contradiction |].
      exists first. split; [reflexivity |]. split; [lia | reflexivity]. }
  destruct Hfirst as (first & Hf & H30 & Hshort).
  exists latest, first.
  do 4 eexists.
  split; [exact Hl |]. split; [exact Hf |].
  split; [exact H30 |]. split; [exact Hshort |].
  split; [apply changes_30d_value, Hl |].
  unfold change_since.
  destruct (last_30d df) as [| first' [| second rest]] eqn:El;
    try discriminate Hf.
  - (* one row *)
    repeat (split; [intros _; reflexivity |]). intros _. repeat split.
  - injection Hf as ->.
    split; [intro Hz; rewrite (fne_zero_false _ Hz); reflexivity |].
    split; [intro Hz; rewrite (fne_zero_false _ Hz); reflexivity |].
    split; [intro Hz; rewrite (fne_zero_false _ Hz); reflexivity |].
    split; [intro Hz; rewrite (fne_zero_false _ Hz); reflexivity |].
    intro Hone. exfalso. unfold last_30d in El.
    destruct (Nat.leb_spec 30 (List.length df)); [lia |].
    rewrite El in Hone. simpl in Hone. lia.
Qed.

(** On the frame whose reserve balance 29 rows back is 0, the change of the
    context is 0. *)
Lemma zero_reference_context_change :
  zero_reference <> [] /\
  exists first c_rp c_rrp c_res c_spread,
    iloc_0 (last_30d zero_reference) = Some first /\
    Reserves first = lit 0 /\
    changes_30d zero_reference
    = Some [ ("RP", c_rp); ("RRP", c_rrp);
             ("Reserves", c_res); ("Spread_bps", c_spread) ] /\
    c_res = lit 0.
Proof.
  assert (Hrow : zero_reference <> []) by discriminate.
  split; [exact Hrow |].
  destruct (changes_30d_guarded zero_reference Hrow)
    as (latest & first & c1 & c2 & c3 & c4 & _ & Hf & _ & _ & Hc & _ & _ & Hz & _).
  exists first, c1, c2, c3, c4.
  split; [exact Hf |].
  assert (Hr : Reserves first = lit 0)
    by (vm_compute in Hf; injection Hf as <-; reflexivity).
  split; [exact Hr |]. split; [exact Hc |].
  apply Hz. rewrite Hr. reflexivity.
Defined.

Lemma iloc_neg_map {A B : Type} (f : A -> B) (l : list A) (k : nat) :
  iloc_neg (map f l) k = option_map f (iloc_neg l k).
Proof.
  unfold iloc_neg. rewrite length_map.
  destruct (Nat.leb 1 k && Nat.leb k (List.length l))%bool; [| reflexivity].
  apply nth_error_map.
Qed.

(** Extra. The reserve-balance change of the AI context and the one of the
    classifier read the same reference row on a frame of 30 rows or more,
    and are the same number unless that reference is 0 (the context then
    says 0).  On a shorter frame the classifier says 0 while the context
    measures the change since the first row of the frame. *)
Theorem context_and_classifier_change (df : DataFrame) (latest : Row)
    (Hlast : iloc_neg df 1 = Some latest) :
  exists c_rp c_rrp c_context c_spread c_classifier,
    changes_30d df = Some [ ("RP", c_rp); ("RRP", c_rrp);
                            ("Reserves", c_context); ("Spread_bps", c_spread) ] /\
    res_change_30d df latest = Some c_classifier /\
    ((30 <= List.length df)%nat ->
     exists ref,
       iloc_neg (map Reserves df) 30 = Some ref /\
       ((ref != lit 0)%float = true -> c_context = c_classifier) /\
       ((ref != lit 0)%float = false -> c_context = lit 0)) /\
    ((List.length df < 30)%nat ->
     c_classifier = lit 0 /\
     forall first second rest,
       df = first :: second :: rest ->
       (Reserves first != lit 0)%float = true ->
       c_context = ((Reserves latest - Reserves first) / Reserves first * lit 100)%float).
Proof.
  pose proof (changes_30d_value df latest Hlast) as Hchanges.
  destruct (Nat.leb_spec 30 (List.length df)) as [H30 | H30].
  - destruct (iloc_neg_Some df 30) as [first Hf]; [lia |].
    assert (Hcls : res_change_30d df latest
                   = Some ((Reserves latest - Reserves first) / Reserves first
                           * lit 100)%float).
    { unfold res_change_30d. rewrite (proj2 (Nat.leb_le _ _) H30).
      rewrite iloc_neg_map, Hf. reflexivity. }
    assert (Hl30 : exists second rest, last_30d df = first :: second :: rest).
    { unfold last_30d. rewrite (proj2 (Nat.leb_le _ _) H30).
      pose proof (tail_first 30 df ltac:(lia)) as Ht. rewrite Hf in Ht.
      assert (Hlen : List.length (tail 30 df) = 30%nat)
        by (unfold tail; rewrite length_skipn; lia).
      destruct (tail 30 df) as [| x [| y rest]]; try discriminate.
      injection Ht as ->. eauto. }
    destruct Hl30 as (second & rest & El).
    do 5 eexists. split; [exact Hchanges |]. split; [exact Hcls |].
    split; [| lia]. intros _. exists (Reserves first).
    split; [rewrite iloc_neg_map, Hf; reflexivity |].
    unfold change_since. rewrite El.
    split; intros ->; reflexivity.
  - assert (Hcls : res_change_30d df latest = Some (lit 0)).
    { unfold res_change_30d. rewrite (proj2 (Nat.leb_gt _ _) H30). reflexivity. }
    do 5 eexists. split; [exact Hchanges |]. split; [exact Hcls |].
    split; [lia |]. intros _. split; [reflexivity |].
    intros first second rest -> Hnz.
    unfold change_since, last_30d.
    rewrite (proj2 (Nat.leb_gt _ _) H30), Hnz. reflexivity.
Qed.

(** Two rows, 3800 then 3500: the classifier reports a change of 0, the
    context a change of -150/19. *)
Lemma two_rows_changes_differ :
  iloc_neg [sample_row 5 350 3800 5; sample_row 5 350 3500 5] 1
  = Some (sample_row 5 350 3500 5) /\
  exists c_rp c_rrp c_context c_spread c_classifier,
    changes_30d [sample_row 5 350 3800 5; sample_row 5 350 3500 5]
    = Some [ ("RP", c_rp); ("RRP", c_rrp);
             ("Reserves", c_context); ("Spread_bps", c_spread) ] /\
    res_change_30d [sample_row 5 350 3800 5; sample_row 5 350 3500 5]
                   (sample_row 5 350 3500 5) = Some c_classifier /\
    c_classifier = lit 0 /\
    feq c_context (Fin (-150 # 19)).
Proof.
  assert (Hl : iloc_neg [sample_row 5 350 3800 5; sample_row 5 350 3500 5] 1
               = Some (sample_row 5 350 3500 5)) by reflexivity.
  split; [exact Hl |].
  destruct (context_and_classifier_change _ _ Hl)
    as (c1 & c2 & c3 & c4 & c5 & Hc & Hcls & _ & Hshort).
  exists c1, c2, c3, c4, c5.
  split; [exact Hc |]. split; [exact Hcls |].
  destruct Hshort as [Hz Hctx]; [simpl; lia |].
  split; [exact Hz |].
  rewrite (Hctx _ _ _ eq_refl eq_refl). reflexivity.
Defined.

(** ** The login *)

(** What one call of [check_password] does to a session that is not logged
    in. *)
Lemma check_password_cases (session : SessionState) (secrets : SecretsAccess)
    (form : Form) :
  password_correct session = false ->
  (valid_credentials secrets form /\
   check_password session secrets form
   = (mkSession true (liquidity_context session) (advanced_chat_messages session),
      [], Rerun))
  \/
  (~ valid_credentials secrets form /\
   exists errors,
     check_password session secrets form = (session, errors, Returned false) /\
     (List.length errors <= 1)%nat /\
     (submit_btn form = true -> List.length errors = 1%nat)).
Proof.
  intro Hout. unfold check_password, valid_credentials. rewrite Hout.
  destruct (submit_btn form) eqn:Hsub.
  - destruct secrets as [e | [passwords |]].
    + right. split; [intros (_ & pw & H & _); discriminate |].
      eexists. split; [reflexivity |]. simpl. split; [lia | reflexivity].
    + destruct (getitem passwords (username form)) as [stored |] eqn:Hget.
      * destruct (String.eqb_spec (password form) stored) as [<- | Hne].
        { left. split; [| reflexivity]. split; [reflexivity |].
          exists passwords. auto. }
        { right. split.
          - intros (_ & pw & H & Hpw). injection H as <-.
            rewrite Hget in Hpw. injection Hpw as ->. contradiction.
          - eexists. split; [reflexivity |]. simpl. split; [lia | reflexivity]. }
      * right. split.
        { intros (_ & pw & H & Hpw). injection H as <-.
          rewrite Hget in Hpw. discriminate. }
        { eexists. split; [reflexivity |]. simpl. split; [lia | reflexivity]. }
    + right. split; [intros (_ & pw & H & _); discriminate |].
      eexists. split; [reflexivity |]. simpl. split; [lia | reflexivity].
  - right. split; [intros (H & _); discriminate |].
    exists []. split; [reflexivity |]. simpl. split; [lia | discriminate].
Qed.

Lemma interaction_cases (session : SessionState) (secrets : SecretsAccess)
    (form : Form) :
  password_correct session = false ->
  (valid_credentials secrets form /\
   interaction session secrets form
   = (mkSession true (liquidity_context session) (advanced_chat_messages session),
      [], Granted))
  \/
  (~ valid_credentials secrets form /\
   exists errors,
     interaction session secrets form = (session, errors, Stopped) /\
     (submit_btn form = true -> List.length errors = 1%nat)).
Proof.
  intro Hout.
  destruct (check_password_cases session secrets form Hout)
    as [[Hv Hc] | (Hnv & errors & Hc & _ & Hone)].
  - left. split; [exact Hv |].
    unfold interaction, login_gate. rewrite Hc. reflexivity.
  - right. split; [exact Hnv |]. exists errors.
    unfold interaction, login_gate. rewrite Hc. auto.
Qed.

(** Extra. Access is granted by credentials only: if a session that is not
    logged in becomes logged in after some interactions with the login page,
    then one of the forms was submitted with a user name of the
    ["passwords"] section of the secrets and the password stored for it. *)
Theorem login_only_with_credentials (secrets : SecretsAccess)
    (session : SessionState) (forms : list Form)
    (Hout : password_correct session = false)
    (Hin : password_correct (interactions session secrets forms) = true) :
  exists form, In form forms /\ valid_credentials secrets form.
Proof.
  revert session Hout Hin.
  induction forms as [| form forms IH]; intros session Hout Hin.
  - simpl in Hin. congruence.
  - simpl in Hin.
    destruct (interaction_cases session secrets form Hout)
      as [[Hv _] | (_ & errors & Hi & _)].
    + exists form. split; [left; reflexivity | exact Hv].
    + rewrite Hi in Hin. simpl in Hin.
      destruct (IH session Hout Hin) as (f & Hf & Hv).
      exists f. split; [right; exact Hf | exact Hv].
Qed.

(** Extra. Failed attempts change nothing and are not counted: after any
    number of forms that are not valid credentials the session is the one
    before them, each submitted one having shown exactly one error; a form
    with valid credentials then sets the flag, the script reruns and the
    gate is passed without any message; and once the flag is set the gate is
    passed whatever the form holds. *)
Theorem failed_logins_do_not_lock (secrets : SecretsAccess)
    (session : SessionState) (failed : list Form) (form : Form)
    (Hout : password_correct session = false)
    (Hfailed : Forall (fun f => ~ valid_credentials secrets f) failed)
    (Hvalid : valid_credentials secrets form) :
  interactions session secrets failed = session /\
  Forall (fun f => exists errors,
                     interaction session secrets f = (session, errors, Stopped) /\
                     (submit_btn f = true -> List.length errors = 1%nat)) failed /\
  exists session',
    interaction (interactions session secrets failed) secrets form
    = (session', [], Granted) /\
    password_correct session' = true /\
    forall any, login_gate session' secrets any = (session', [], Granted).
Proof.
  assert (Hsame : interactions session secrets failed = session
                  /\ Forall (fun f => exists errors,
                               interaction session secrets f = (session, errors, Stopped) /\
                               (submit_btn f = true -> List.length errors = 1%nat)) failed).
  { induction Hfailed as [| f failed Hf _ [IH1 IH2]]; [split; [reflexivity | constructor] |].
    destruct (interaction_cases session secrets f Hout)
      as [[Hv _] | (_ & errors & Hi & Hone)]; [contradiction |].
    split.
    - simpl. rewrite Hi. exact IH1.
    - constructor; [exists errors; auto | exact IH2]. }
  destruct Hsame as [Hsame Herrors].
  split; [exact Hsame |]. split; [exact Herrors |].
  rewrite Hsame.
  destruct (interaction_cases session secrets form Hout)
    as [[_ Hi] | (Hnv & _)]; [| contradiction].
  eexists. split; [exact Hi |]. split; [reflexivity |].
  intro any. reflexivity.
Qed.

(** A wrong password, then the right one. *)
Lemma second_attempt_logs_in :
  password_correct logged_out = false /\
  password_correct
    (interactions logged_out one_user
       [mkForm "alice" "bad" true; mkForm "alice" "pw1" true]) = true /\
  exists form,
    In form [mkForm "alice" "bad" true; mkForm "alice" "pw1" true] /\
    valid_credentials one_user form.
Proof.
  assert (Hout : password_correct logged_out = false) by reflexivity.
  assert (Hin : password_correct
                  (interactions logged_out one_user
                     [mkForm "alice" "bad" true; mkForm "alice" "pw1" true]) = true)
    by reflexivity.
  split; [exact Hout |]. split; [exact Hin |].
  exact (login_only_with_credentials one_user logged_out _ Hout Hin).
Defined.

(** An unknown user and a wrong password, then the right password. *)
Lemma two_failures_then_login :
  password_correct logged_out = false /\
  Forall (fun f => ~ valid_credentials one_user f)
         [mkForm "bob" "x" true; mkForm "alice" "bad" true] /\
  valid_credentials one_user (mkForm "alice" "pw1" true) /\
  interactions logged_out one_user
    [mkForm "bob" "x" true; mkForm "alice" "bad" true] = logged_out /\
  exists session',
    interaction logged_out one_user (mkForm "alice" "pw1" true)
    = (session', [], Granted) /\
    password_correct session' = true.
Proof.
  assert (Hout : password_correct logged_out = false) by reflexivity.
  assert (Hfailed : Forall (fun f => ~ valid_credentials one_user f)
                           [mkForm "bob" "x" true; mkForm "alice" "bad" true]).
  { repeat constructor;
      intros (_ & pw & H & Hget); injection H as <-; simpl in Hget; discriminate. }
  assert (Hvalid : valid_credentials one_user (mkForm "alice" "pw1" true)).
  { split; [reflexivity |]. eexists. split; reflexivity. }
  split; [exact Hout |]. split; [exact Hfailed |]. split; [exact Hvalid |].
  destruct (failed_logins_do_not_lock one_user logged_out _ _ Hout Hfailed Hvalid)
    as (Hsame & _ & session' & Hi & Hflag & _).
  split; [exact Hsame |].
  exists session'. rewrite Hsame in Hi. split; assumption.
Defined.

(** ** The chat *)

(** One run of the chat tab changes the history in one of three ways. *)
Lemma chat_tab_history (config : Config) (gemini : Gemini) (openai : OpenAI)
    (session : SessionState) (input : ChatInput) :
  let session' := fst (fst (chat_tab config gemini openai session input)) in
  password_correct session' = password_correct session /\
  liquidity_context session' = liquidity_context session /\
  (advanced_chat_messages session' = Some []
   \/ advanced_chat_messages session' = Some (history_of session)
   \/ exists question answer,
        advanced_chat_messages session'
        = Some (history_of session
                  ++ [mkMsg "user" question; mkMsg "assistant" answer])).
Proof.
  unfold chat_tab, history_of.
  destruct (match available_models config with
            | [] => (None, ["API 키가 없습니다."])
            | _ :: _ => (st_radio (available_models config) (radio input), [])
            end) as [model_choice errors].
  destruct (clear_btn input); [simpl; auto |].
  set (messages := match advanced_chat_messages session with
                   | Some messages => messages
                   | None => []
                   end).
  destruct (if truthy (triggered (quick_btn input))
            then triggered (quick_btn input) else user_input input)
    as [prompt |] eqn:Hfinal; [| simpl; auto].
  destruct (truthy (Some prompt)); [| simpl; auto].
  destruct (truthy model_choice); [| simpl; auto].
  simpl. split; [reflexivity |]. split; [reflexivity |].
  right. right. do 2 eexists. rewrite <- app_assoc. reflexivity.
Qed.

(** The history a run leaves, wherever it ends. *)
Lemma chat_tab_run_history (stop : RunEnd) (config : Config) (gemini : Gemini)
    (openai : OpenAI) (session : SessionState) (input : ChatInput) :
  let session' := chat_tab_run stop config gemini openai session input in
  password_correct session' = password_correct session /\
  liquidity_context session' = liquidity_context session /\
  (history_of session' = []
   \/ history_of session' = history_of session
   \/ (exists question,
         history_of session' = history_of session ++ [mkMsg "user" question])
   \/ (exists question answer,
         history_of session'
         = history_of session
             ++ [mkMsg "user" question; mkMsg "assistant" answer])) /\
  (stop = Completed ->
   history_of session' = []
   \/ history_of session' = history_of session
   \/ (exists question answer,
         history_of session'
         = history_of session
             ++ [mkMsg "user" question; mkMsg "assistant" answer])).
Proof.
  pose proof (chat_tab_history config gemini openai session input) as Hdone.
  cbv zeta in Hdone. destruct Hdone as (Hp & Hc & Hh).
  assert (Hcompleted :
            history_of (fst (fst (chat_tab config gemini openai session input))) = []
            \/ history_of (fst (fst (chat_tab config gemini openai session input)))
               = history_of session
            \/ (exists question answer,
                  history_of (fst (fst (chat_tab config gemini openai session input)))
                  = history_of session
                      ++ [mkMsg "user" question; mkMsg "assistant" answer])).
  { destruct Hh as [H | [H | (q & a & H)]]; [left | right; left | right; right].
    - unfold history_of at 1. rewrite H. reflexivity.
    - unfold history_of at 1. rewrite H. reflexivity.
    - exists q, a. unfold history_of at 1. rewrite H. reflexivity. }
  assert (Hweak :
            history_of (fst (fst (chat_tab config gemini openai session input))) = []
            \/ history_of (fst (fst (chat_tab config gemini openai session input)))
               = history_of session
            \/ (exists question,
                  history_of (fst (fst (chat_tab config gemini openai session input)))
                  = history_of session ++ [mkMsg "user" question])
            \/ (exists question answer,
                  history_of (fst (fst (chat_tab config gemini openai session input)))
                  = history_of session
                      ++ [mkMsg "user" question; mkMsg "assistant" answer])).
  { destruct Hcompleted as [H | [H | H]]; auto. }
  cbv zeta. unfold chat_tab_run.
  destruct stop.
  - split; [exact Hp |]. split; [exact Hc |]. split; [exact Hweak |].
    intros _. exact Hcompleted.
  - split; [reflexivity |]. split; [reflexivity |].
    split; [right; left; reflexivity | intro H; discriminate H].
  - split; [destruct (clear_btn input); [exact Hp | reflexivity] |].
    split; [destruct (clear_btn input); [exact Hc | reflexivity] |].
    split; [| intro H; discriminate H].
    destruct (clear_btn input); [exact Hweak |].
    right. left. reflexivity.
  - destruct (clear_btn input);
      [split; [exact Hp |]; split; [exact Hc |];
       split; [exact Hweak | intro H; discriminate H] |].
    destruct (if truthy (triggered (quick_btn input))
              then triggered (quick_btn input) else user_input input)
      as [prompt |];
      [| split; [exact Hp |]; split; [exact Hc |];
         split; [exact Hweak | intro H; discriminate H]].
    destruct (truthy (Some prompt) && truthy _)%bool;
      [| split; [exact Hp |]; split; [exact Hc |];
         split; [exact Hweak | intro H; discriminate H]].
    split; [reflexivity |]. split; [reflexivity |].
    split; [| intro H; discriminate H].
    right. right. left. exists prompt. reflexivity.
Qed.

Lemma alternating_answers_follow (history : list Msg) :
  alternating history -> answers_follow history.
Proof.
  induction 1 as [| history question answer _ IH]; constructor; exact IH.
Qed.

(** Extra. In the chat history every answer directly follows a question of
    the user, whatever is typed or pressed, whatever the services answer or
    raise, and wherever the Streamlit runner ends a run: a run stopped
    between the two appends leaves its question without an answer, and no
    run stores an answer without its question.  When every run completes,
    the history reads question, answer, question, answer.  No run changes
    the login flag or the stored context. *)
Theorem chat_answers_follow_questions (config : Config) (session : SessionState)
    (runs : list (RunEnd * Gemini * OpenAI * ChatInput))
    (Hstart : answers_follow (history_of session)) :
  answers_follow (history_of (chat_runs config session runs)) /\
  password_correct (chat_runs config session runs) = password_correct session /\
  liquidity_context (chat_runs config session runs) = liquidity_context session /\
  (Forall (fun run => run_end run = Completed) runs ->
   alternating (history_of session) ->
   alternating (history_of (chat_runs config session runs))).
Proof.
  revert session Hstart.
  induction runs as [| [[[stop gemini] openai] input] runs IH]; intros session Hstart.
  - simpl. split; [exact Hstart |]. split; [reflexivity |].
    split; [reflexivity |]. intros _ H. exact H.
  - simpl.
    pose proof (chat_tab_run_history stop config gemini openai session input) as Hrun.
    cbv zeta in Hrun. destruct Hrun as (Hp & Hc & Hh & Hdone).
    set (session' := chat_tab_run stop config gemini openai session input) in *.
    assert (Hfollow : answers_follow (history_of session')).
    { destruct Hh as [-> | [-> | [(q & ->) | (q & a & ->)]]];
        [constructor | exact Hstart | constructor; exact Hstart
        | constructor; exact Hstart]. }
    destruct (IH session' Hfollow) as (I1 & I2 & I3 & I4).
    split; [exact I1 |]. split; [congruence |]. split; [congruence |].
    intros Hall Halt. inversion Hall as [| run rest Hend Hrest]; subst.
    apply I4; [exact Hrest |].
    destruct (Hdone Hend) as [-> | [-> | (q & a & ->)]];
      [constructor | exact Halt | constructor; exact Halt].
Qed.

(** A run stopped while the first question is answered, then a completed
    run with a second question: the first question stays without answer. *)
Lemma unanswered_question_stays :
  answers_follow (history_of (mkSession true (Some "ctx") None)) /\
  exists answer,
    history_of
      (chat_runs both_services (mkSession true (Some "ctx") None)
         [ (StoppedInAnswer, echo_gemini, count_openai, typed "q1");
           (Completed, echo_gemini, count_openai, typed "q2") ])
    = [ mkMsg "user" "q1"; mkMsg "user" "q2"; mkMsg "assistant" answer ] /\
    answers_follow
      [ mkMsg "user" "q1"; mkMsg "user" "q2"; mkMsg "assistant" answer ].
Proof.
  assert (Hstart : answers_follow (history_of (mkSession true (Some "ctx") None)))
    by constructor.
  split; [exact Hstart |].
  destruct (chat_answers_follow_questions both_services
              (mkSession true (Some "ctx") None)
              [ (StoppedInAnswer, echo_gemini, count_openai, typed "q1");
                (Completed, echo_gemini, count_openai, typed "q2") ] Hstart)
    as (Hfollow & _).
  eexists. split; [reflexivity |]. exact Hfollow.
Defined.

(** ** What the chat sends to the services *)

Lemma last_n_snoc {A : Type} (n : nat) (l : list A) (x : A) :
  last_n (S n) (l ++ [x]) = last_n n l ++ [x].
Proof.
  unfold last_n. rewrite length_app. simpl List.length.
  replace (List.length l + 1 - S n)%nat with (List.length l - n)%nat by lia.
  rewrite skipn_app.
  replace (List.length l - n - List.length l)%nat with 0%nat by lia.
  reflexivity.
Qed.

Lemma last_n_length {A : Type} (n : nat) (l : list A) :
  List.length (last_n n l) = Nat.min n (List.length l).
Proof. unfold last_n. rewrite length_skipn. lia. Qed.

Lemma string_app_assoc (s t u : string) :
  ((s ++ t) ++ u = s ++ t ++ u)%string.
Proof.
  induction s as [| c s IH]; simpl; [reflexivity |].
  rewrite IH. reflexivity.
Qed.

Lemma history_lines_snoc (full_prompt : string) (history : list Msg) (msg : Msg) :
  history_lines full_prompt (history ++ [msg])
  = (history_lines full_prompt history
       ++ role_label msg ++ ": " ++ content msg ++ LF)%string.
Proof. unfold history_lines. rewrite fold_left_app. reflexivity. Qed.

(** Extra. The chat tab calls [query_advanced_chat] after it has stored the
    question, so the question is sent twice.  With [history] the messages
    stored before the question: the OpenAI service receives the system
    message, the last 5 messages of [history], and the question as two user
    messages in a row (8 messages at most); the Gemini service receives a
    prompt with the last 9 messages of [history] and the question both as the
    last line of the history and after [[User 질문]].  An exception of the
    service becomes the returned text. *)
Theorem chat_question_sent_twice (config : Config) (gemini : Gemini)
    (openai : OpenAI) (prompt context : string) (history : list Msg)
    (Hgemini : GEMINI_AVAILABLE config = true)
    (Hopenai : OPENAI_ENABLED config = true) :
  query_advanced_chat config gemini openai prompt context "OpenAI"
                      (history ++ [mkMsg "user" prompt])
  = text_of "⚠️ OpenAI 오류: "
      (openai (OPENAI_MODEL_CHAT config)
              ([mkMsg "system" (system_instruction context)]
                 ++ last_n 5 history
                 ++ [mkMsg "user" prompt; mkMsg "user" prompt])) /\
  (List.length ([mkMsg "system" (system_instruction context)]
                  ++ last_n 5 history
                  ++ [mkMsg "user" prompt; mkMsg "user" prompt]) <= 8)%nat /\
  query_advanced_chat config gemini openai prompt context "Gemini"
                      (history ++ [mkMsg "user" prompt])
  = text_of "⚠️ Gemini 오류: "
      (gemini "gemini-2.5-flash"
              (history_lines
                 (system_instruction context ++ LF ++ LF ++ "[이전 대화 내역]" ++ LF)
                 (last_n 9 history)
               ++ "User: " ++ prompt ++ LF
               ++ LF ++ "[User 질문]: " ++ prompt ++ LF ++ "[AI 답변]:")%string).
Proof.
  split; [| split].
  - unfold query_advanced_chat.
    change (String.eqb "OpenAI" "Gemini") with false. cbv iota.
    rewrite Hopenai. cbn [negb]. cbv iota.
    rewrite (last_n_snoc 5). rewrite <- !app_assoc. reflexivity.
  - rewrite !length_app, last_n_length. cbn [List.length].
    pose proof (Nat.le_min_l 5 (List.length history)). lia.
  - unfold query_advanced_chat.
    change (String.eqb "Gemini" "Gemini") with true. cbv iota.
    rewrite Hgemini. cbn [negb]. cbv iota.
    rewrite (last_n_snoc 9), history_lines_snoc.
    unfold role_label. cbn [role content].
    change (String.eqb "user" "user") with true. cbv iota.
    unfold GEMINI_MODEL_CHAT.
    replace ((history_lines
                (system_instruction context ++ LF ++ LF ++ "[이전 대화 내역]" ++ LF)
                (last_n 9 history) ++ "User" ++ ": " ++ prompt ++ LF)
             ++ LF ++ "[User 질문]: " ++ prompt ++ LF ++ "[AI 답변]:")%string
      with (history_lines
              (system_instruction context ++ LF ++ LF ++ "[이전 대화 내역]" ++ LF)
              (last_n 9 history)
            ++ "User: " ++ prompt ++ LF
            ++ LF ++ "[User 질문]: " ++ prompt ++ LF ++ "[AI 답변]:")%string.
    + destruct (gemini _ _); reflexivity.
    + rewrite !string_app_assoc. reflexivity.
Qed.

(** Through the chat tab, with the service that answers with what it
    received: the second question arrives twice, after the first exchange. *)
Lemma second_question_arrives_twice :
  GEMINI_AVAILABLE both_services = true /\
  OPENAI_ENABLED both_services = true /\
  query_advanced_chat both_services echo_gemini count_openai "q2" "ctx" "OpenAI"
    ([mkMsg "user" "q1"; mkMsg "assistant" "a1"] ++ [mkMsg "user" "q2"])
  = String.concat "|" [system_instruction "ctx"; "q1"; "a1"; "q2"; "q2"] /\
  history_of
    (fst (fst (chat_tab both_services echo_gemini count_openai
                 (mkSession true (Some "ctx")
                            (Some [mkMsg "user" "q1"; mkMsg "assistant" "a1"]))
                 (typed "q2"))))
  = [ mkMsg "user" "q1"; mkMsg "assistant" "a1"; mkMsg "user" "q2";
      mkMsg "assistant"
            (String.concat "|" [system_instruction "ctx"; "q1"; "a1"; "q2"; "q2"]) ].
Proof.
  assert (Hg : GEMINI_AVAILABLE both_services = true) by reflexivity.
  assert (Ho : OPENAI_ENABLED both_services = true) by reflexivity.
  split; [exact Hg |]. split; [exact Ho |].
  destruct (chat_question_sent_twice both_services echo_gemini count_openai
              "q2" "ctx" [mkMsg "user" "q1"; mkMsg "assistant" "a1"] Hg Ho)
    as (Hsent & _).
  split; [rewrite Hsent; reflexivity | reflexivity].
Defined.

(** ** main: the data load *)

Lemma series_ffill_length (data : Series) :
  List.length (series_ffill data) = List.length data.
Proof.
  unfold series_ffill, ffill.
  rewrite length_combine, ffill_from_length, !length_map. apply Nat.min_id.
Qed.

(** A fetch gives the undated empty series exactly when the provider raises
    or returns no observation. *)
Lemma fetched_undated (fred : Provider) (start_date : Z) (series_id name : string) :
  undated (fetched fred start_date series_id name) = true
  <-> no_data fred start_date series_id.
Proof.
  unfold fetched, fetch_data_with_ffill, no_data.
  destruct (fred series_id start_date) as [e | data].
  - split; [intros _; left; exists e; reflexivity | reflexivity].
  - destruct data as [| x data].
    + split; [intros _; right; reflexivity | reflexivity].
    + cbn [List.length Nat.ltb Nat.leb ret fst].
      pose proof (series_ffill_length (x :: data)) as Hlen.
      destruct (series_ffill (x :: data)); [discriminate Hlen |].
      split; [intro H; discriminate H |].
      intros [[e H] | H]; discriminate H.
Qed.

(** Only a fetch on which the provider raises shows a warning. *)
Lemma warned_nil (fred : Provider) (start_date : Z) (series_id name : string) :
  ~ no_data fred start_date series_id ->
  warned fred start_date series_id name = [].
Proof.
  unfold warned, fetch_data_with_ffill, no_data. intro Hdata.
  destruct (fred series_id start_date) as [e | data].
  - exfalso. apply Hdata. left. exists e. reflexivity.
  - destruct (Nat.ltb 0 (List.length data)); reflexivity.
Qed.

Lemma fetch_liquidity_data_raises (fred : Provider) (start_date : Z) :
  (exists series_id, In series_id series_ids /\ no_data fred start_date series_id) ->
  fst (fetch_liquidity_data fred start_date) = Raise TypeError.
Proof.
  intros (series_id & Hin & Hno).
  rewrite fetch_liquidity_data_unfold. cbn [fst].
  assert (Hsome : existsb undated
                    [ fetched fred start_date "RPONTSYD" "RP (Repo)";
                      fetched fred start_date "RRPONTSYD" "RRP (Reverse Repo)";
                      fetched fred start_date "WRESBAL" "은행 지준금";
                      fetched fred start_date "SOFR" "SOFR";
                      fetched fred start_date "IORB" "IORB" ] = true).
  { apply existsb_exists.
    unfold series_ids in Hin. simpl in Hin.
    destruct Hin as [<- | [<- | [<- | [<- | [<- | []]]]]];
      eexists; (split; [| apply fetched_undated; exact Hno]); simpl; tauto. }
  rewrite Hsome. reflexivity.
Qed.

Lemma fetch_liquidity_data_returns (fred : Provider) (start_date : Z) :
  (forall series_id, In series_id series_ids -> ~ no_data fred start_date series_id) ->
  fetch_liquidity_data fred start_date = (Value (joined_frame fred start_date), []).
Proof.
  intro Hall.
  assert (Hdated : forall series_id name,
             In series_id series_ids ->
             undated (fetched fred start_date series_id name) = false).
  { intros series_id name Hin.
    destruct (undated (fetched fred start_date series_id name)) eqn:E;
      [| reflexivity].
    exfalso. apply (Hall series_id Hin). apply fetched_undated with (name := name).
    exact E. }
  rewrite fetch_liquidity_data_unfold. cbn [existsb].
  rewrite !Hdated by (unfold series_ids; simpl; tauto).
  rewrite !warned_nil by (apply Hall; unfold series_ids; simpl; tauto).
  reflexivity.
Qed.

Lemma frame_dates (fred : Provider) (start_date : Z) :
  map date (joined_frame fred start_date)
  = filter (fun d => start_date <=? d)
           (union_indexes (fetched_series fred start_date)).
Proof.
  unfold joined_frame.
  rewrite add_derived_dates. unfold align, from_date.
  rewrite (map_filter_comm Raw.date (fun d => start_date <=? d)).
  destruct (df_ffill_columns
              (fetched fred start_date "RPONTSYD" "RP (Repo)")
              (fetched fred start_date "RRPONTSYD" "RRP (Reverse Repo)")
              (fetched fred start_date "WRESBAL" "은행 지준금")
              (fetched fred start_date "SOFR" "SOFR")
              (fetched fred start_date "IORB" "IORB")) as (C0 & _).
  rewrite C0. reflexivity.
Qed.

(** The frame has a row exactly when one of the series has a date from the
    start date on. *)
Lemma frame_has_row (fred : Provider) (start_date : Z) :
  joined_frame fred start_date <> [] <-> has_data fred start_date.
Proof.
  unfold has_data. split.
  - intro Hne.
    destruct (joined_frame fred start_date) as [| r df] eqn:E; [contradiction |].
    assert (Hin : In (date r) (filter (fun d => start_date <=? d)
                                      (union_indexes (fetched_series fred start_date)))).
    { rewrite <- frame_dates, E. left. reflexivity. }
    apply filter_In in Hin as [Hin Hle]. apply Z.leb_le in Hle.
    apply union_indexes_In in Hin as (data & Hdata & Hd).
    exists data, (date r). auto.
  - intros (data & d & Hdata & Hd & Hle) Hempty.
    assert (Hin : In d (filter (fun d => start_date <=? d)
                               (union_indexes (fetched_series fred start_date)))).
    { apply filter_In. split; [| apply Z.leb_le; exact Hle].
      apply union_indexes_In. exists data. auto. }
    rewrite <- frame_dates, Hempty in Hin. exact Hin.
Qed.

(** Extra. The data load of [main] has three outcomes.  When the provider
    raises on one of the five series, or returns no observation for it, the
    date filter of [fetch_liquidity_data] raises [TypeError] and [main]
    shows the load failure after the warnings of the fetches and returns:
    nothing is assessed.  When all five series have observations, no warning
    is shown; if one of them has a date from the start date on, the frame
    has a row and [assess_liquidity_status] returns an assessment for it,
    and otherwise the frame is empty and [main] shows the error
    "데이터를 불러올 수 없습니다" and returns. *)
Theorem main_load_outcome (fred : Provider) (start_date : Z) :
  ((exists series_id, In series_id series_ids /\ no_data fred start_date series_id) ->
   fst (fetch_liquidity_data fred start_date) = Raise TypeError /\
   main_load fred start_date
   = (LoadFailed TypeError, snd (fetch_liquidity_data fred start_date))) /\
  ((forall series_id, In series_id series_ids -> ~ no_data fred start_date series_id) ->
   (has_data fred start_date ->
    exists df assessment,
      fetch_liquidity_data fred start_date = (Value df, []) /\
      df <> [] /\
      assess_liquidity_status df = Some assessment /\
      main_load fred start_date = (Assessed df (Some assessment), [])) /\
   (~ has_data fred start_date ->
    fetch_liquidity_data fred start_date = (Value [], []) /\
    main_load fred start_date = (NoData, ["❌ 데이터를 불러올 수 없습니다."]))).
Proof.
  split.
  - intro Hno. pose proof (fetch_liquidity_data_raises fred start_date Hno) as Hraise.
    split; [exact Hraise |].
    unfold main_load, ui_bind.
    destruct (fetch_liquidity_data fred start_date) as [loaded log].
    cbn [fst snd] in *. rewrite Hraise. unfold ret. rewrite app_nil_r. reflexivity.
  - intro Hall. pose proof (fetch_liquidity_data_returns fred start_date Hall) as Hret.
    split.
    + intro Hdata. apply frame_has_row in Hdata.
      destruct (assess_total _ Hdata) as [a Ha].
      exists (joined_frame fred start_date), a.
      split; [exact Hret |]. split; [exact Hdata |]. split; [exact Ha |].
      unfold main_load, ui_bind. rewrite Hret.
      destruct (joined_frame fred start_date) as [| r df]; [contradiction |].
      rewrite Ha. reflexivity.
    + intro Hnone.
      assert (Hempty : joined_frame fred start_date = []).
      { destruct (joined_frame fred start_date) as [| r df] eqn:E; [reflexivity |].
        exfalso. apply Hnone. apply frame_has_row. rewrite E. discriminate. }
      rewrite Hempty in Hret. split; [exact Hret |].
      unfold main_load, ui_bind. rewrite Hret. reflexivity.
Qed.

(** With the provider down the five warnings are shown and the load fails;
    with observations that all lie before the start date the frame is
    empty. *)
Lemma provider_down_load :
  main_load provider_down 1
  = (LoadFailed TypeError,
     [ "❌ RP (Repo) 수집 실패: down";
       "❌ RRP (Reverse Repo) 수집 실패: down";
       "❌ 은행 지준금 수집 실패: down";
       "❌ SOFR 수집 실패: down";
       "❌ IORB 수집 실패: down" ]) /\
  main_load stale_provider 5 = (NoData, ["❌ 데이터를 불러올 수 없습니다."]).
Proof.
  destruct (main_load_outcome provider_down 1) as (Hfail & _).
  destruct (main_load_outcome stale_provider 5) as (_ & Hload).
  split.
  - assert (Hno : exists series_id,
               In series_id series_ids /\ no_data provider_down 1 series_id).
    { exists "SOFR". split; [simpl; tauto |]. left. exists "down". reflexivity. }
    destruct (Hfail Hno) as (_ & ->). reflexivity.
  - assert (Hall : forall series_id,
               In series_id series_ids -> ~ no_data stale_provider 5 series_id).
    { intros series_id _ [[e H] | H]; discriminate H. }
    assert (Hnone : ~ has_data stale_provider 5).
    { intros (data & d & Hdata & Hd & Hle). simpl in Hdata.
      repeat (destruct Hdata as [<- | Hdata];
              [simpl in Hd; destruct Hd as [<- | []]; lia |]).
      exact Hdata. }
    destruct (Hload Hall) as (_ & Hempty).
    destruct (Hempty Hnone) as (_ & ->). reflexivity.
Defined.

(** ** The prompt of one indicator *)

Lemma tail_last {A : Type} (n : nat) (l : list A) :
  (1 <= n)%nat -> iloc_neg (tail n l) 1 = iloc_neg l 1.
Proof.
  intro Hn. unfold iloc_neg, tail. rewrite length_skipn.
  change (Nat.leb 1 1) with true. rewrite !andb_true_l.
  destruct l as [| x l]; [reflexivity |].
  set (len := List.length (x :: l)).
  assert (Hlen : (1 <= len)%nat) by (unfold len; simpl; lia).
  rewrite (proj2 (Nat.leb_le 1 len) Hlen).
  rewrite (proj2 (Nat.leb_le 1 (len - (len - n))) ltac:(lia)).
  rewrite nth_error_skipn. f_equal. lia.
Qed.

Lemma last_30d_last (df : DataFrame) :
  iloc_neg (last_30d df) 1 = iloc_neg df 1.
Proof.
  unfold last_30d. destruct (Nat.leb 30 (List.length df)); [| reflexivity].
  apply tail_last. lia.
Qed.

(** The two changes of the prompt, computed on a column of the frame. *)
Lemma prompt_change_7d (df : DataFrame) (f : Row -> float) :
  df <> [] ->
  exists c,
    (if Nat.leb 7 (List.length df) then
       ref <- iloc_neg (map f df) 7 ;;
       if (ref != lit 0)%float then
         last <- iloc_neg (map f df) 1 ;;
         Some ((last - ref) / ref * lit 100)%float
       else Some (lit 0)
     else Some (lit 0)) = Some c /\
    ((7 <= List.length df)%nat -> change_7d (map f df) = Some c) /\
    ((List.length df < 7)%nat -> c = lit 0).
Proof.
  intro Hrow. destruct (Nat.leb_spec 7 (List.length df)) as [H7 | H7].
  - destruct (change_7d_Some (map f df)) as [c Hc]; [rewrite length_map; lia |].
    exists c. split; [exact Hc |]. split; [intros _; exact Hc | lia].
  - exists (lit 0). split; [reflexivity |]. split; [lia | reflexivity].
Qed.

Lemma prompt_change_30d (df : DataFrame) (latest : Row) (f : Row -> float) :
  iloc_neg df 1 = Some latest ->
  (if Nat.leb 2 (List.length (last_30d df)) then
     first <- iloc_0 (map f (last_30d df)) ;;
     if (first != lit 0)%float then
       last <- iloc_neg (map f (last_30d df)) 1 ;;
       Some ((last - first) / first * lit 100)%float
     else Some (lit 0)
   else Some (lit 0)) = Some (change_since (last_30d df) latest f).
Proof.
  intro Hl. rewrite iloc_neg_map, last_30d_last, Hl.
  unfold change_since.
  destruct (last_30d df) as [| first [| second rest]]; try reflexivity.
  cbn [List.length Nat.leb map iloc_0 nth_error bind option_map].
  destruct (f first != lit 0)%float; reflexivity.
Qed.

Lemma latest_cell (df : DataFrame) (latest : Row) (f : Row -> float) :
  iloc_neg df 1 = Some latest -> iloc_neg (map f df) 1 = Some (f latest).
Proof. intro Hl. rewrite iloc_neg_map, Hl. reflexivity. Qed.

Ltac prompt_of_indicator Hl Ha H7 :=
  unfold single_indicator_prompt;
  cbn [String.eqb Ascii.eqb Bool.eqb get_default getitem];
  rewrite Hl; cbn [bind];
  unfold getcol, getval;
  cbn [String.eqb Ascii.eqb Bool.eqb getitem columns append bind];
  rewrite H7; cbn [bind];
  rewrite (prompt_change_30d _ _ _ Hl); cbn [bind];
  rewrite !(latest_cell _ _ _ Hl); cbn [bind];
  rewrite Ha;
  cbn [String.eqb Ascii.eqb Bool.eqb getitem bind].

(** Extra. For each of the four indicators of the selector, on a frame with
    a row and its assessment, [generate_gemini_single_indicator] raises no
    [KeyError] or [IndexError] and returns a text.  Its prompt is written
    from the latest value of the indicator's column, the three rolling
    averages of the latest row, the status the classifier gave the
    indicator, the 30-row change of the AI context, and the 7-row change of
    the abrupt-move detector (0 on a frame of fewer than 7 rows). *)
Theorem single_indicator_prompt_values
    (config : Config) (service : IndicatorService)
    (df : DataFrame) (a : Assessment) (latest : Row)
    (indicator depth : string) (f : Row -> float) (ma : Row -> MA)
    (Hl : iloc_neg df 1 = Some latest)
    (Ha : assess_liquidity_status df = Some a)
    (Hind : In (indicator, (f, ma)) indicator_columns) :
  exists prompt status,
    single_indicator_prompt df a indicator depth = Some prompt /\
    p_latest prompt = f latest /\
    p_ma7 prompt = MA7 (ma latest) /\
    p_ma30 prompt = MA30 (ma latest) /\
    p_ma60 prompt = MA60 (ma latest) /\
    getitem (assessments a) indicator = Some status /\
    p_status_info prompt = status /\
    p_overall prompt = overall a /\
    p_change_30d prompt = change_since (last_30d df) latest f /\
    ((7 <= List.length df)%nat -> change_7d (map f df) = Some (p_change_7d prompt)) /\
    ((List.length df < 7)%nat -> p_change_7d prompt = lit 0) /\
    exists text,
      generate_gemini_single_indicator config service df a indicator depth
      = Some text.
Proof.
  assert (Hrow : df <> []).
  { intros ->. discriminate Hl. }
  destruct (assess_inv df a Ha) as (latest' & change & Hl' & _ & Has & _).
  rewrite Hl in Hl'. injection Hl' as <-.
  destruct (prompt_change_7d df f Hrow) as (c7 & H7 & H7long & H7short).
  assert (Hprompt : exists prompt status,
             single_indicator_prompt df a indicator depth = Some prompt /\
             p_latest prompt = f latest /\
             p_ma7 prompt = MA7 (ma latest) /\
             p_ma30 prompt = MA30 (ma latest) /\
             p_ma60 prompt = MA60 (ma latest) /\
             getitem (assessments a) indicator = Some status /\
             p_status_info prompt = status /\
             p_overall prompt = overall a /\
             p_change_30d prompt = change_since (last_30d df) latest f /\
             p_change_7d prompt = c7).
  { unfold indicator_columns in Hind. simpl in Hind.
    destruct Hind as [H | [H | [H | [H | []]]]]; injection H as <- <- <-;
      prompt_of_indicator Hl Has H7;
      do 2 eexists; repeat split; rewrite Has; reflexivity. }
  destruct Hprompt as (prompt & status & Hp & P1 & P2 & P3 & P4 & P5 & P6 & P7 & P8 & P9).
  exists prompt, status.
  repeat (split; [assumption |]).
  split; [rewrite P9; exact H7long |].
  split; [rewrite P9; exact H7short |].
  unfold generate_gemini_single_indicator. rewrite Hp. cbn [bind].
  destruct (negb (GEMINI_AVAILABLE config)); [eexists; reflexivity |].
  destruct (service prompt _) as [e | text]; [| eexists; reflexivity].
  destruct (quota_error e); eexists; reflexivity.
Qed.

(** One row of seven calm rows: the prompt of the primary lending volume
    carries the 7-row change +140 of the abrupt-move detector. *)
Lemma calm_jump_prompt :
  iloc_neg calm_jump 1 = Some (sample_row 12 350 3500 5) /\
  In ("RP", (RP, RP_MA)) indicator_columns /\
  exists a prompt,
    assess_liquidity_status calm_jump = Some a /\
    single_indicator_prompt calm_jump a "RP" "기본" = Some prompt /\
    p_latest prompt = lit 12 /\
    feq (p_change_7d prompt) (lit 140).
Proof.
  assert (Hl : iloc_neg calm_jump 1 = Some (sample_row 12 350 3500 5))
    by reflexivity.
  assert (Hind : In ("RP", (RP, RP_MA)) indicator_columns) by (left; reflexivity).
  split; [exact Hl |]. split; [exact Hind |].
  destruct (assess_liquidity_status calm_jump) as [a |] eqn:Ha;
    [| vm_compute in Ha; discriminate Ha].
  destruct (single_indicator_prompt_values both_services (fun _ _ => Says "ok")
              calm_jump a _ "RP" "기본" RP RP_MA Hl Ha Hind)
    as (prompt & status & Hp & Hlatest & _ & _ & _ & _ & _ & _ & _ & H7 & _).
  exists a, prompt. split; [reflexivity |]. split; [exact Hp |].
  split; [exact Hlatest |].
  assert (H7' : change_7d (map RP calm_jump) = Some (p_change_7d prompt))
    by (apply H7; vm_compute; lia).
  assert (E : exists c, change_7d (map RP calm_jump) = Some c /\ feq c (lit 140))
    by (eexists; split; reflexivity).
  destruct E as (c & Ec & Hc). rewrite Ec in H7'. injection H7' as <-. exact Hc.
Defined.

(** ** An indicator that is not in the selector *)

Lemma split_suffix_app (s u : string) :
  split_suffix (String.length u) (s ++ u) = (s, u).
Proof.
  induction s as [| c s IH].
  - simpl append. destruct u as [| d u]; [reflexivity |].
    cbn [split_suffix]. rewrite Nat.leb_refl. reflexivity.
  - cbn [append split_suffix]. rewrite IH.
    assert (Hlen : Nat.leb (String.length (String c (s ++ u))) (String.length u) = false).
    { apply Nat.leb_gt. simpl.
      assert (H : forall a b : string,
                 String.length (a ++ b) = (String.length a + String.length b)%nat).
      { induction a as [| x a IHa]; intro b0; simpl; [reflexivity |].
        rewrite IHa. reflexivity. }
      rewrite H. lia. }
    rewrite Hlen. reflexivity.
Qed.

(** The frame has an [_MA7] column for four columns only. *)
Lemma MA7_columns (col : string) (f : Row -> float) :
  getitem columns (col ++ "_MA7") = Some f ->
  In col ["RP"; "RRP"; "Reserves"; "Spread_bps"].
Proof.
  unfold columns. cbn [getitem].
  pose proof (split_suffix_app col "_MA7") as S. cbn [String.length] in S.
  repeat match goal with
         | |- context [String.eqb (col ++ "_MA7")%string ?name] =>
             destruct (String.eqb_spec (col ++ "_MA7")%string name) as [E | _];
             [ apply (f_equal (split_suffix 4)) in E;
               rewrite S in E;
               vm_compute in E;
               first [ discriminate E
                     | injection E as ->; intros _; simpl; tauto ]
             | ]
         end.
  discriminate.
Qed.

(** Extra. An indicator that is not one of the four of the selector (a
    column name such as SOFR or Spread_bps included) makes
    [generate_gemini_single_indicator] raise: the [KeyError] of the column,
    of its [_MA7] column or of the assessment leaves the function, the
    service is not called.  When Gemini is not available the function
    returns its notice without reading the frame, whatever the indicator. *)
Theorem unknown_indicator_raises
    (config : Config) (service : IndicatorService)
    (df : DataFrame) (a : Assessment) (indicator depth : string)
    (Ha : assess_liquidity_status df = Some a)
    (Hunknown : ~ In indicator ["RP"; "RRP"; "Reserves"; "Spread"]) :
  single_indicator_prompt df a indicator depth = None /\
  (GEMINI_AVAILABLE config = true ->
   generate_gemini_single_indicator config service df a indicator depth = None) /\
  (GEMINI_AVAILABLE config = false ->
   forall df' a',
     generate_gemini_single_indicator config service df' a' indicator depth
     = Some "
### ⚠️ Gemini AI 분석을 사용할 수 없습니다

Gemini API 키가 설정되지 않았습니다.
").
Proof.
  assert (Hprompt : single_indicator_prompt df a indicator depth = None).
  { destruct (assess_inv df a Ha) as (latest & change & Hl & _ & Has & _).
    unfold single_indicator_prompt.
    destruct (String.eqb_spec indicator "Spread") as [-> | Hns].
    { exfalso. apply Hunknown. simpl. tauto. }
    rewrite Hl. cbn [bind].
    match goal with
    | |- bind ?c7 _ = None => destruct c7 as [c7v |]; [cbn [bind] | reflexivity]
    end.
    match goal with
    | |- bind ?c30 _ = None => destruct c30 as [c30v |]; [cbn [bind] | reflexivity]
    end.
    unfold getcol at 1.
    destruct (getitem columns (indicator ++ "_MA7")) as [f7 |] eqn:E7;
      [| reflexivity].
    apply MA7_columns in E7. simpl in E7.
    destruct E7 as [<- | [<- | [<- | [<- | []]]]];
      try (exfalso; apply Hunknown; simpl; tauto).
    cbn [bind]. unfold getcol, getval.
    cbn [String.eqb Ascii.eqb Bool.eqb getitem columns append bind].
    rewrite !(latest_cell _ _ _ Hl). cbn [bind].
    rewrite Has. reflexivity. }
  split; [exact Hprompt |].
  split.
  - intro Havail. unfold generate_gemini_single_indicator.
    rewrite Havail, Hprompt. reflexivity.
  - intros Hoff df' a'. unfold generate_gemini_single_indicator.
    rewrite Hoff. reflexivity.
Qed.

(** The name of a column of the frame is not an indicator of the
    selector. *)
Lemma SOFR_is_no_indicator :
  (exists a, assess_liquidity_status calm_jump = Some a) /\
  ~ In "SOFR" ["RP"; "RRP"; "Reserves"; "Spread"] /\
  forall a depth,
    assess_liquidity_status calm_jump = Some a ->
    generate_gemini_single_indicator both_services (fun _ _ => Says "ok")
      calm_jump a "SOFR" depth = None.
Proof.
  assert (Hno : ~ In "SOFR" ["RP"; "RRP"; "Reserves"; "Spread"])
    by (simpl; intuition discriminate).
  split; [eexists; reflexivity |]. split; [exact Hno |].
  intros a depth Ha.
  destruct (unknown_indicator_raises both_services (fun _ _ => Says "ok")
              calm_jump a "SOFR" depth Ha Hno) as (_ & Hraise & _).
  apply Hraise. reflexivity.
Defined.

(** ** Errors of the Gemini service *)

Lemma prefix_app (needle rest : string) :
  String.prefix needle (needle ++ rest) = true.
Proof.
  induction needle as [| c needle IH]; simpl.
  - destruct rest; reflexivity.
  - destruct (Ascii.ascii_dec c c) as [_ | N]; [exact IH | contradiction].
Qed.

Lemma contains_unfold (needle hay : string) :
  contains needle hay
  = (String.prefix needle hay
     || match hay with
        | EmptyString => false
        | String _ rest => contains needle rest
        end)%bool.
Proof. destruct hay; reflexivity. Qed.

Lemma contains_app (needle before after : string) :
  contains needle (before ++ needle ++ after) = true.
Proof.
  induction before as [| c before IH].
  - cbn [append]. rewrite contains_unfold, prefix_app. reflexivity.
  - cbn [append]. rewrite contains_unfold, IH. apply orb_true_r.
Qed.

Lemma lower_app (a b : string) : lower (a ++ b) = (lower a ++ lower b)%string.
Proof.
  induction a as [| c a IH]; [reflexivity |].
  cbn [append lower]. rewrite IH. reflexivity.
Qed.

(** A message with the word quota in any capitalisation, or with 429, is a
    quota error. *)
Lemma quota_error_word (before word after : string) :
  lower word = "quota" \/ word = "429" ->
  quota_error (before ++ word ++ after) = true.
Proof.
  intros [Hw | ->]; unfold quota_error.
  - rewrite !lower_app, Hw, contains_app. reflexivity.
  - rewrite (contains_app "429"). apply orb_true_r.
Qed.

(** Extra. A failure of the service whose message holds the word quota in
    any capitalisation, or the digits 429 anywhere, makes
    [generate_gemini_single_indicator] return the fixed text on the
    exhausted quota: the message of the failure itself is not shown. *)
Theorem quota_failure_is_recognised
    (config : Config) (service : IndicatorService)
    (df : DataFrame) (assessment : Assessment) (indicator depth : string)
    (prompt : IndicatorPrompt) (before word after : string)
    (Havailable : GEMINI_AVAILABLE config = true)
    (Hprompt : single_indicator_prompt df assessment indicator depth = Some prompt)
    (Hfails : service prompt (if String.eqb depth "딥다이브" then 2048 else 1024)%nat
              = Fails (before ++ word ++ after))
    (Hword : lower word = "quota" \/ word = "429") :
  generate_gemini_single_indicator config service df assessment indicator depth
  = Some "⚠️ API 할당량 초과. 잠시 후 다시 시도하세요.".
Proof.
  unfold generate_gemini_single_indicator.
  rewrite Havailable, Hprompt. cbn [negb bind]. rewrite Hfails.
  rewrite (quota_error_word _ _ _ Hword). reflexivity.
Qed.

(** A request whose identifier happens to hold 429 is taken for a quota
    error, and so is a message that writes Quota with a capital. *)
Lemma request_id_taken_for_quota :
  exists a prompt,
    assess_liquidity_status calm_jump = Some a /\
    single_indicator_prompt calm_jump a "RP" "기본" = Some prompt /\
    generate_gemini_single_indicator both_services
      (fun _ _ => Fails "timeout (request 14290)") calm_jump a "RP" "기본"
    = Some "⚠️ API 할당량 초과. 잠시 후 다시 시도하세요." /\
    generate_gemini_single_indicator both_services
      (fun _ _ => Fails "Quota exceeded") calm_jump a "RP" "기본"
    = Some "⚠️ API 할당량 초과. 잠시 후 다시 시도하세요.".
Proof.
  destruct (assess_liquidity_status calm_jump) as [a |] eqn:Ha;
    [| vm_compute in Ha; discriminate Ha].
  destruct (single_indicator_prompt calm_jump a "RP" "기본") as [prompt |] eqn:Hp.
  - exists a, prompt. split; [reflexivity |]. split; [exact Hp |]. split.
    + apply (quota_failure_is_recognised both_services _ calm_jump a "RP" "기본"
               prompt "timeout (request 1" "429" "0)" eq_refl Hp eq_refl).
      right. reflexivity.
    + apply (quota_failure_is_recognised both_services _ calm_jump a "RP" "기본"
               prompt "" "Quota" " exceeded" eq_refl Hp eq_refl).
      left. reflexivity.
  - exfalso. unfold assess_liquidity_status in Ha. vm_compute in Ha.
    injection Ha as <-. vm_compute in Hp. discriminate Hp.
Defined.

(** ** The comprehensive analysis *)

(** Extra. Called as [main] calls it, with the assessment of the same frame,
    [generate_gemini_analysis] raises no [KeyError] or [IndexError]: the
    service is asked with the latest row, the four 30-row changes and the
    assessment, and its text is returned.  When the service fails with a
    message that holds the word quota in any capitalisation or the digits
    429, the text returned is the quota summary written from the overall
    status, the four levels of the classifier and the recommendation; any
    other failure is returned as a text that ends with its message. *)
Theorem analysis_on_assessed_frame
    (config : Config) (service : AnalysisService)
    (df : DataFrame) (a : Assessment)
    (Havailable : GEMINI_AVAILABLE config = true)
    (Ha : assess_liquidity_status df = Some a) :
  exists latest changes res_change,
    iloc_neg df 1 = Some latest /\
    changes_30d df = Some changes /\
    res_change_30d df latest = Some res_change /\
    match service (mkAnalysisPrompt latest changes a) with
    | Says text => generate_gemini_analysis config service df a = Some text
    | Fails e =>
        ((exists before word after,
             e = (before ++ word ++ after)%string /\
             (lower word = "quota" \/ word = "429")) ->
         generate_gemini_analysis config service df a
         = Some (quota_summary
                   (overall_status (overall a))
                   (level (rp_status (RP latest)))
                   (level (rrp_status (RRP latest)))
                   (level (res_status (Reserves latest) res_change))
                   (level (spread_status (Spread_bps latest)))
                   (recommendation (overall a)))) /\
        (quota_error e = false ->
         generate_gemini_analysis config service df a
         = Some ("⚠️ AI 분석 생성 중 오류 발생: " ++ e)%string)
    end.
Proof.
  destruct (assess_scores df a Ha) as (latest & change & Hl & Hc & Has & _).
  pose proof (changes_30d_value df latest Hl) as Hch.
  eexists latest, _, change.
  split; [exact Hl |]. split; [exact Hch |]. split; [exact Hc |].
  unfold changes_30d in Hch. rewrite Hl in Hch. cbn [bind] in Hch.
  unfold generate_gemini_analysis.
  rewrite Havailable, Hl. cbn [negb bind]. rewrite Hch. cbn [bind].
  rewrite Has. cbn [String.eqb Ascii.eqb Bool.eqb getitem bind].
  destruct (service _) as [e | text]; [| reflexivity].
  split.
  - intros (before & word & after & -> & Hword).
    rewrite (quota_error_word _ _ _ Hword). reflexivity.
  - intros ->. reflexivity.
Qed.

(** The frame of one row with a lending volume of 55: a rate-limit failure
    gives the summary with the levels of that row. *)
Lemma rate_limited_analysis :
  exists a,
    assess_liquidity_status mixed_frame = Some a /\
    generate_gemini_analysis both_services
      (fun _ => Fails "429 Too Many Requests") mixed_frame a
    = Some (quota_summary
              (overall_status (overall a))
              (level (rp_status (lit 55)))
              (level (rrp_status (lit 350)))
              (level (res_status (lit 3100) (lit 0)))
              (level (spread_status (lit 5)))
              (recommendation (overall a))).
Proof.
  destruct (assess_liquidity_status mixed_frame) as [a |] eqn:Ha;
    [| vm_compute in Ha; discriminate Ha].
  exists a. split; [reflexivity |].
  destruct (analysis_on_assessed_frame both_services
              (fun _ => Fails "429 Too Many Requests") mixed_frame a eq_refl Ha)
    as (latest & changes & change & Hl & _ & Hc & Hq & _).
  injection Hl as <-. injection Hc as <-.
  apply Hq. exists "", "429", " Too Many Requests".
  split; [reflexivity | right; reflexivity].
Defined.

(** ** The banner of the overall assessment *)

(** Extra. The colour of the banner of the overall assessment is never the
    fallback gray: every overall status the classifier produces is a key of
    [status_color].  The banner is green from a composite score of 10, red
    below 4 and orange in between, so the overall levels CAUTION and
    WARNING are shown in the same colour. *)
Theorem banner_color_of_score (df : DataFrame) (a : Assessment)
    (Ha : assess_liquidity_status df = Some a) :
  banner_color a <> "gray" /\
  (10 <= overall_score (overall a) -> banner_color a = "green") /\
  (4 <= overall_score (overall a) < 10 -> banner_color a = "orange") /\
  (overall_score (overall a) < 4 -> banner_color a = "red") /\
  (overall_level (overall a) = "CAUTION" \/ overall_level (overall a) = "WARNING" ->
   banner_color a = "orange").
Proof.
  destruct (assess_inv df a Ha) as (_ & _ & _ & _ & _ & Hov).
  unfold banner_color. rewrite Hov.
  set (s := total_score (assessments a)).
  replace (overall_score (overall_of s)) with s by (symmetry; apply overall_of_score).
  unfold overall_of.
  destruct (Z.leb_spec 10 s); [| destruct (Z.leb_spec 7 s); [| destruct (Z.leb_spec 4 s)]];
    cbn [overall_status overall_level];
    (split; [vm_compute; discriminate |]);
    (split; [intro; first [reflexivity | lia] |]);
    (split; [intro; first [reflexivity | lia] |]);
    (split; [intro; first [reflexivity | lia] |]);
    (intros [H' | H']; first [reflexivity | discriminate H']).
Qed.

(** The frame of one row with a lending volume of 55 has an orange banner. *)
Lemma mixed_frame_banner :
  exists a,
    assess_liquidity_status mixed_frame = Some a /\
    banner_color a = "orange".
Proof.
  destruct (assess_liquidity_status mixed_frame) as [a |] eqn:Ha;
    [| vm_compute in Ha; discriminate Ha].
  exists a. split; [reflexivity |].
  destruct (banner_color_of_score mixed_frame a Ha) as (_ & _ & Horange & _).
  apply Horange.
  unfold assess_liquidity_status in Ha. vm_compute in Ha. injection Ha as <-.
  vm_compute. split; [discriminate | reflexivity].
Defined.

(** ** The model of the chat *)

Lemma truthy_question (question : string) :
  question <> "" -> truthy (Some question) = true.
Proof.
  intro Hne. unfold truthy.
  destruct (String.eqb_spec question ""); [contradiction | reflexivity].
Qed.

(** The run of the tab on a question, with the model the radio gives. *)
Lemma chat_tab_question (config : Config) (gemini : Gemini) (openai : OpenAI)
    (session : SessionState) (input : ChatInput) (question : string) :
  clear_btn input = false ->
  asked input = Some question ->
  question <> "" ->
  chat_tab config gemini openai session input
  = match available_models config with
    | [] =>
        (set_messages session (history_of session),
         ["API 키가 없습니다."; "AI 모델을 선택해주세요."], Returned tt)
    | _ :: _ =>
        match st_radio (available_models config) (radio input) with
        | Some model =>
            if negb (String.eqb model "") then
              (set_messages session
                 (history_of session
                    ++ [mkMsg "user" question;
                        mkMsg "assistant"
                          (query_advanced_chat config gemini openai question
                             (match liquidity_context session with
                              | Some context => context
                              | None => ""
                              end)
                             model
                             (history_of session ++ [mkMsg "user" question]))]),
               [], Returned tt)
            else
              (set_messages session (history_of session),
               ["AI 모델을 선택해주세요."], Returned tt)
        | None =>
            (set_messages session (history_of session),
             ["AI 모델을 선택해주세요."], Returned tt)
        end
    end.
Proof.
  intros Hclear Hasked Hne. unfold chat_tab. rewrite Hclear.
  change (if truthy (triggered (quick_btn input))
          then triggered (quick_btn input) else user_input input)
    with (asked input).
  rewrite Hasked, (truthy_question question Hne).
  fold (history_of session).
  destruct (available_models config) as [| m ms]; [reflexivity |].
  destruct (st_radio (m :: ms) (radio input)) as [model |]; [| reflexivity].
  cbn [truthy]. destruct (negb (String.eqb model "")); [| reflexivity].
  cbn [set_messages liquidity_context]. rewrite <- app_assoc. reflexivity.
Qed.

(** Extra. The chat answers a question only through a configured service,
    so the replies of [query_advanced_chat] that ask for an API setup are
    never stored by the tab.  With no service configured, a question shows
    the two errors and stores nothing.  Otherwise the question and one
    answer are stored, no error is shown, and the answer is the text or the
    failure of the OpenAI service when it is enabled and the radio does not
    select the second option (the default when both are configured), and of
    the Gemini service when it is available and OpenAI is disabled or the
    radio selects the second option. *)
Theorem chat_model_is_configured (config : Config) (gemini : Gemini)
    (openai : OpenAI) (session : SessionState) (input : ChatInput)
    (question : string)
    (Hclear : clear_btn input = false)
    (Hasked : asked input = Some question)
    (Hne : question <> "") :
  (OPENAI_ENABLED config = false -> GEMINI_AVAILABLE config = false ->
   chat_tab config gemini openai session input
   = (set_messages session (history_of session),
      ["API 키가 없습니다."; "AI 모델을 선택해주세요."], Returned tt)) /\
  (OPENAI_ENABLED config = true \/ GEMINI_AVAILABLE config = true ->
   exists answer,
     chat_tab config gemini openai session input
     = (set_messages session
          (history_of session
             ++ [mkMsg "user" question; mkMsg "assistant" answer]),
        [], Returned tt) /\
     (OPENAI_ENABLED config = true ->
      GEMINI_AVAILABLE config = false \/ radio input <> 1%nat ->
      exists messages,
        answer = text_of "⚠️ OpenAI 오류: "
                         (openai (OPENAI_MODEL_CHAT config) messages)) /\
     (GEMINI_AVAILABLE config = true ->
      OPENAI_ENABLED config = false \/ radio input = 1%nat ->
      exists full_prompt,
        answer = text_of "⚠️ Gemini 오류: "
                         (gemini "gemini-2.5-flash" full_prompt))).
Proof.
  rewrite (chat_tab_question config gemini openai session input question
             Hclear Hasked Hne).
  unfold available_models.
  destruct (OPENAI_ENABLED config) eqn:Ho, (GEMINI_AVAILABLE config) eqn:Hg;
    cbn [app].
  - split; [intros H1 H2; congruence |]. intros _.
    destruct (radio input) as [| [| n]] eqn:Hr;
      try replace (st_radio ["OpenAI"; "Gemini"] (S (S n))) with (Some "OpenAI")
        by (destruct n; reflexivity);
      cbn [st_radio nth_error hd_error];
      cbn [String.eqb Ascii.eqb Bool.eqb negb];
      eexists; (split; [reflexivity |]);
      unfold query_advanced_chat;
      cbn [String.eqb Ascii.eqb Bool.eqb]; rewrite ?Ho, ?Hg; cbn [negb].
    + split; [intros _ _; eexists; reflexivity |].
      intros _ [H | H]; discriminate H.
    + split; [intros _ [H | H]; [discriminate H | contradiction] |].
      intros _ _. eexists. reflexivity.
    + split; [intros _ _; eexists; reflexivity |].
      intros _ [H | H]; discriminate H.
  - split; [intros H1 H2; congruence |]. intros _.
    assert (Hm : st_radio ["OpenAI"] (radio input) = Some "OpenAI").
    { unfold st_radio. destruct (radio input) as [| [| n]]; reflexivity. }
    rewrite Hm. cbn [String.eqb Ascii.eqb Bool.eqb negb].
    eexists. split; [reflexivity |].
    unfold query_advanced_chat.
    cbn [String.eqb Ascii.eqb Bool.eqb]. rewrite Ho. cbn [negb].
    split; [intros _ _; eexists; reflexivity |]. intros H; discriminate H.
  - split; [intros H1 H2; congruence |]. intros _.
    assert (Hm : st_radio ["Gemini"] (radio input) = Some "Gemini").
    { unfold st_radio. destruct (radio input) as [| [| n]]; reflexivity. }
    rewrite Hm. cbn [String.eqb Ascii.eqb Bool.eqb negb].
    eexists. split; [reflexivity |].
    unfold query_advanced_chat.
    cbn [String.eqb Ascii.eqb Bool.eqb]. rewrite Hg. cbn [negb].
    split; [intros H; discriminate H |]. intros _ _. eexists. reflexivity.
  - split; [intros _ _; reflexivity |]. intros [H | H]; discriminate H.
Qed.

(** A quick-question button pressed over a typed text, with both services
    configured: the quick question and the answer of OpenAI are stored. *)
Lemma quick_question_to_openai :
  asked quick_and_typed = Some "📊 RRP 급감이 주식시장에 미치는 영향은?" /\
  exists answer messages,
    chat_tab both_services echo_gemini count_openai
             (mkSession true (Some "ctx") None) quick_and_typed
    = (mkSession true (Some "ctx")
         (Some [ mkMsg "user" "📊 RRP 급감이 주식시장에 미치는 영향은?";
                 mkMsg "assistant" answer ]),
       [], Returned tt) /\
    answer = text_of "⚠️ OpenAI 오류: " (count_openai "gpt-4o" messages).
Proof.
  assert (Hasked : asked quick_and_typed
                   = Some "📊 RRP 급감이 주식시장에 미치는 영향은?") by reflexivity.
  assert (Hne : "📊 RRP 급감이 주식시장에 미치는 영향은?" <> "") by discriminate.
  assert (Hradio : radio quick_and_typed <> 1%nat) by discriminate.
  split; [exact Hasked |].
  destruct (chat_model_is_configured both_services echo_gemini count_openai
              (mkSession true (Some "ctx") None) quick_and_typed
              "📊 RRP 급감이 주식시장에 미치는 영향은?"
              eq_refl Hasked Hne)
    as (_ & Hanswer).
  destruct (Hanswer (or_introl eq_refl)) as (answer & Hrun & Hopenai & _).
  destruct (Hopenai eq_refl (or_intror Hradio)) as (messages & Hm).
  exists answer, messages. split; [exact Hrun | exact Hm].
Defined.
